(** * PayRox Go Beyond: the security report processors

    A shallow embedding of the three scripts under [.github/security]:

    - [process-slither.py]: tiers the detectors of a static-analysis report
      and fails the build on a critical one;
    - [process-mythril.py]: groups symbolic-execution issues by their label;
    - [generate-security-summary.py]: scores the two results.

    The scripts work on values loaded by [json.load], so the embedding
    starts with those values and the handful of Python operations the
    scripts apply to them, each with the exception it raises when the value
    has the wrong shape. *)

From Stdlib Require Import String Ascii List ZArith Bool Lia Permutation.
Import ListNotations.
Local Open Scope Z_scope.
Local Open Scope string_scope.

Local Set Warnings "-register-all".

(** ** Paths *)

Module Os.

(** [os.path.dirname] and [os.path.join] on POSIX paths. *)
Fixpoint rsplit (p : string) : string * string :=
  match p with
  | EmptyString => (EmptyString, EmptyString)
  | String c rest =>
      let (head, tail) := rsplit rest in
      match head with
      | String _ _ => (String c head, tail)
      | EmptyString =>
          if Ascii.eqb c "/" then (String c EmptyString, rest)
          else (EmptyString, String c rest)
      end
  end.

Fixpoint all_slashes (s : string) : bool :=
  match s with
  | EmptyString => true
  | String c rest => Ascii.eqb c "/" && all_slashes rest
  end.

Fixpoint rstrip_slashes (s : string) : string :=
  match s with
  | EmptyString => EmptyString
  | String c rest =>
      match rstrip_slashes rest with
      | EmptyString => if Ascii.eqb c "/" then EmptyString else String c EmptyString
      | kept => String c kept
      end
  end.

Definition dirname (p : string) : string :=
  let head := fst (rsplit p) in
  if negb (head =? "") && negb (all_slashes head) then rstrip_slashes head
  else head.

(** [p.split('/')[-1]] *)
Definition last_segment (p : string) : string := snd (rsplit p).

Fixpoint ends_with_slash (s : string) : bool :=
  match s with
  | EmptyString => false
  | String c EmptyString => Ascii.eqb c "/"
  | String _ rest => ends_with_slash rest
  end.

(** [os.path.join(dir, name)] for the fixed relative names the scripts use. *)
Definition join (dir name : string) : string :=
  if (dir =? "") || ends_with_slash dir then dir ++ name
  else dir ++ "/" ++ name.

End Os.

(** ** Python values and exceptions *)

Module Py.

(** What [json.load] returns. An object keeps its keys in file order (a
    Python dict is ordered) and has each key once. A number that is not an
    integer is kept as its literal: no script looks inside one. Strings are
    kept as their UTF-8 bytes. *)
Inductive json : Type :=
| JNull
| JBool (b : bool)
| JInt (z : Z)
| JReal (literal : string)
| JStr (s : string)
| JArr (items : list json)
| JObj (fields : list (string * json)).

Inductive exn : Type :=
| KeyError (key : json)
| TypeError
| AttributeError
| OSError.

(** A computation that returns or raises. *)
Inductive res (A : Type) : Type :=
| Ok (a : A)
| Raise (e : exn).
Arguments Ok {A} a.
Arguments Raise {A} e.

Definition rbind {A B : Type} (m : res A) (k : A -> res B) : res B :=
  match m with
  | Ok a => k a
  | Raise e => Raise e
  end.

Fixpoint assoc {V : Type} (k : string) (kvs : list (string * V)) : option V :=
  match kvs with
  | [] => None
  | (k', v) :: rest => if k' =? k then Some v else assoc k rest
  end.

(** [d.get(key, default)]: only a dict has the method. *)
Definition dict_get (d : json) (key : string) (default : json) : res json :=
  match d with
  | JObj fields =>
      match assoc key fields with
      | Some v => Ok v
      | None => Ok default
      end
  | _ => Raise AttributeError
  end.

(** [v[key]] for a string key. *)
Definition getitem (v : json) (key : string) : res json :=
  match v with
  | JObj fields =>
      match assoc key fields with
      | Some x => Ok x
      | None => Raise (KeyError (JStr key))
      end
  | _ => Raise TypeError
  end.

Definition lower_ascii (c : ascii) : ascii :=
  let n := nat_of_ascii c in
  if ((65 <=? n) && (n <=? 90))%nat then ascii_of_nat (n + 32) else c.

(** [str.lower] on the bytes of the string. Python also maps letters outside
    ASCII, but none of them to a letter of "high", "medium" or "low", the
    only strings a result of [lower] is compared with. *)
Fixpoint lower (s : string) : string :=
  match s with
  | EmptyString => EmptyString
  | String c rest => String (lower_ascii c) (lower rest)
  end.

(** [v.lower()]: only a str has the method. *)
Definition str_lower (v : json) : res string :=
  match v with
  | JStr s => Ok (lower s)
  | _ => Raise AttributeError
  end.

Fixpoint substring_of (needle hay : string) : bool :=
  String.prefix needle hay
  || match hay with
     | EmptyString => false
     | String _ rest => substring_of needle rest
     end.

Definition is_str (k : string) (v : json) : bool :=
  match v with
  | JStr s => s =? k
  | _ => false
  end.

(** [key in v] for a string key: a key of a dict, an item of a list, a
    substring of a str; anything else is not a container. *)
Definition contains (key : string) (v : json) : res bool :=
  match v with
  | JObj fields =>
      Ok (match assoc key fields with Some _ => true | None => false end)
  | JArr items => Ok (existsb (is_str key) items)
  | JStr s => Ok (substring_of key s)
  | _ => Raise TypeError
  end.

(** A str is kept as its UTF-8 bytes. A byte 10xxxxxx continues the
    character begun before it. *)
Definition continues (c : ascii) : bool :=
  let n := nat_of_ascii c in (128 <=? n)%nat && (n <=? 191)%nat.

(** The characters of a str: each leading byte with the bytes that
    continue it. *)
Fixpoint characters (s : string) : list string :=
  match s with
  | EmptyString => []
  | String c rest =>
      let following := characters rest in
      match rest, following with
      | String c' _, g :: gs =>
          if continues c' then String c g :: gs
          else String c EmptyString :: following
      | _, _ => String c EmptyString :: following
      end
  end.

Definition chars (s : string) : list json := map JStr (characters s).

(** What a [for] loop (or [list.extend]) goes through: the items of a list,
    the keys of a dict, the characters of a str. *)
Definition iter (v : json) : res (list json) :=
  match v with
  | JArr items => Ok items
  | JObj fields => Ok (map (fun kv => JStr (fst kv)) fields)
  | JStr s => Ok (chars s)
  | _ => Raise TypeError
  end.

(** Whether a loaded value can be a dict key, that is whether [v in d]
    can hash it. *)
Definition hashable (v : json) : bool :=
  match v with
  | JArr _ | JObj _ => false
  | _ => true
  end.

(** A loop whose body may raise. *)
Fixpoint for_each {A S : Type} (body : S -> A -> res S) (xs : list A) (s : S)
  : res S :=
  match xs with
  | [] => Ok s
  | x :: rest => rbind (body s x) (for_each body rest)
  end.

(** The dicts of lists the processors build: keys in insertion order. *)
Definition groups : Type := list (string * list json).

Definition group (key : string) (g : groups) : res (list json) :=
  match assoc key g with
  | Some l => Ok l
  | None => Raise (KeyError (JStr key))
  end.

(** [g[key].append(x)] *)
Fixpoint append_to (key : string) (x : json) (g : groups) : res groups :=
  match g with
  | [] => Raise (KeyError (JStr key))
  | (k, l) :: rest =>
      if k =? key then Ok ((k, (l ++ [x])%list) :: rest)
      else rbind (append_to key x rest) (fun rest' => Ok ((k, l) :: rest'))
  end.

Definition has_key (key : string) (g : groups) : bool :=
  match assoc key g with Some _ => true | None => false end.

(** [v in g] for a loaded value [v]: hashing it comes first. *)
Definition key_in (v : json) (g : groups) : res bool :=
  if hashable v then
    Ok (match v with JStr s => has_key s g | _ => false end)
  else Raise TypeError.

(** [g[v].append(x)] for a loaded value [v]. *)
Definition append_at (v : json) (x : json) (g : groups) : res groups :=
  match v with
  | JStr s => append_to s x g
  | _ => if hashable v then Raise (KeyError v) else Raise TypeError
  end.

(** [g.get(key, [])] *)
Definition group_or_empty (key : string) (g : groups) : list json :=
  match assoc key g with Some l => l | None => [] end.

(** [v.split('/')[-1]]: only a str has the method. *)
Definition last_of_split (v : json) : res string :=
  match v with
  | JStr s => Ok (Os.last_segment s)
  | _ => Raise AttributeError
  end.

Definition values (g : groups) : list (list json) := map snd g.

End Py.
Import Py.

Declare Scope res_scope.
Delimit Scope res_scope with res.
Notation "x <- m ;; k" := (rbind m (fun x => k))
  (at level 61, m at next level, right associativity) : res_scope.

(** ** The filesystem and the process *)

Module Proc.

(** What a script writes: the pieces of its f-strings, left unrendered. *)
Inductive piece : Type :=
| Text (s : string)
| Int (n : Z)
| Fmt (v : json)
| Dump (v : json)
| ErrorText.

(** [Fmt v] is [str(v)] inside an f-string, [Dump v] is
    [json.dump(v, f, indent=2)], [ErrorText] the message of a caught
    exception. *)

Definition LF : string := String (ascii_of_nat 10) EmptyString.

(** What the run has written so far: the files it opened for writing, and
    the lines it printed. Writing to an open file and printing are taken to
    succeed. *)
Record world : Type := {
  files : list (string * list piece);
  stdout : list (list piece)
}.

Definition fresh : world := {| files := []; stdout := [] |}.

(** What the run reads: which paths exist, what [json.load] makes of a file
    ([None] when opening or parsing raises) and what [glob.glob] lists. *)
Record disk : Type := {
  path_exists : string -> bool;
  json_load : string -> option json;
  glob : string -> list string
}.

Inductive outcome (A : Type) : Type :=
| Done (a : A)
| Raised (e : exn)
| Exited (code : Z).
Arguments Done {A} a.
Arguments Raised {A} e.
Arguments Exited {A} code.

Definition proc (A : Type) : Type := world -> outcome A * world.

Definition ret {A : Type} (a : A) : proc A := fun w => (Done a, w).

Definition bind {A B : Type} (m : proc A) (k : A -> proc B) : proc B :=
  fun w =>
    match m w with
    | (Done a, w') => k a w'
    | (Raised e, w') => (Raised e, w')
    | (Exited c, w') => (Exited c, w')
    end.

Definition lift {A : Type} (r : res A) : proc A :=
  fun w =>
    match r with
    | Ok a => (Done a, w)
    | Raise e => (Raised e, w)
    end.

(** [sys.exit(code)] *)
Definition sys_exit {A : Type} (code : Z) : proc A := fun w => (Exited code, w).

Definition print (line : list piece) : proc unit :=
  fun w => (Done tt, {| files := files w; stdout := (stdout w ++ [line])%list |}).

Fixpoint set_file (path : string) (content : list piece)
  (fs : list (string * list piece)) : list (string * list piece) :=
  match fs with
  | [] => [(path, content)]
  | (p, c) :: rest =>
      if p =? path then (p, content) :: rest
      else (p, c) :: set_file path content rest
  end.

Definition read_file (path : string) (w : world) : option (list piece) :=
  assoc path (files w).

(** [open(path, 'w')] where the file can be created: it creates or empties
    the file. The processors open their artifacts in the directory of the
    report they have read, or in the reports directory they have found to
    exist, and are modelled for a directory that takes them. *)
Definition open_w (path : string) : proc unit :=
  fun w => (Done tt, {| files := set_file path [] (files w); stdout := stdout w |}).

(** [f.write(...)] and [json.dump(..., f)] on the file opened at [path]. *)
Definition write (path : string) (ps : list piece) : proc unit :=
  fun w =>
    let old := match read_file path w with Some c => c | None => [] end in
    (Done tt, {| files := set_file path (old ++ ps)%list (files w); stdout := stdout w |}).

Fixpoint each {A : Type} (body : A -> proc unit) (xs : list A) : proc unit :=
  match xs with
  | [] => ret tt
  | x :: rest => bind (body x) (fun _ => each body rest)
  end.

(** The status the interpreter ends with: 0 at the end of the script, 1 on
    an exception nobody caught, the argument of [sys.exit] otherwise. *)
Definition exit_status {A : Type} (o : outcome A) : Z :=
  match o with
  | Done _ => 0
  | Raised _ => 1
  | Exited code => code
  end.

Definition run (p : proc unit) : Z * world :=
  let (o, w) := p fresh in (exit_status o, w).

End Proc.
Import Proc.

Declare Scope proc_scope.
Delimit Scope proc_scope with proc.
Notation "x <- m ;; k" := (bind m (fun x => k))
  (at level 61, m at next level, right associativity) : proc_scope.
Notation "m ;; k" := (bind m (fun _ => k))
  (at level 61, right associativity) : proc_scope.

Definition truthy {A : Type} (l : list A) : bool :=
  match l with
  | [] => false
  | _ :: _ => true
  end.

Definition len {A : Type} (l : list A) : Z := Z.of_nat (length l).

(** ** process-slither.py *)

Module Slither.
Import Os.

Definition load_slither_report (d : disk) (report_path : string) : proc json :=
  match json_load d report_path with
  | Some v => ret v
  | None =>
      (print [Text "Error loading Slither report: "; ErrorText] ;;
       ret (JObj []))%proc
  end.

Definition empty_categories : groups :=
  [("critical", []); ("high", []); ("medium", []); ("low", []);
   ("informational", [])].

(** The body of the loop of [categorize_findings]. *)
Definition categorize_detector (categories : groups) (detector : json)
  : res groups :=
  (raw_impact <- dict_get detector "impact" (JStr "") ;;
   impact <- str_lower raw_impact ;;
   raw_confidence <- dict_get detector "confidence" (JStr "") ;;
   confidence <- str_lower raw_confidence ;;
   if (impact =? "high") && (confidence =? "high") then
     append_to "critical" detector categories
   else if (impact =? "high") && (confidence =? "medium")
           || (impact =? "medium") && (confidence =? "high") then
     append_to "high" detector categories
   else if (impact =? "medium") && (confidence =? "medium")
           || (impact =? "high") && (confidence =? "low") then
     append_to "medium" detector categories
   else if (impact =? "low") || (confidence =? "low") then
     append_to "low" detector categories
   else
     append_to "informational" detector categories)%res.

Definition categorize_findings (results : json) : res groups :=
  let categories := empty_categories in
  (has_results <- contains "results" results ;;
   if negb has_results then Ok categories
   else
     inner <- getitem results "results" ;;
     listed <- getitem inner "detectors" ;;
     detectors <- iter listed ;;
     for_each categorize_detector detectors categories)%res.

Definition total_findings (categories : groups) : Z :=
  fold_right Z.add 0 (map len (values categories)).

(** [for finding in ...: f.write(f"- **{finding['check']}**: ...")] *)
Definition write_findings (path : string) (findings : list json) : proc unit :=
  each (fun finding =>
          (check <- lift (getitem finding "check") ;;
           description <- lift (getitem finding "description") ;;
           write path [Text "- **"; Fmt check; Text "**: "; Fmt description;
                       Text LF])%proc)
       findings.

(** The blocks of the critical, high and medium tiers: when the tier is not
    empty, a heading with its size, one line per finding, an empty line. *)
Definition write_tier (path heading : string) (findings : list json)
  : proc unit :=
  if truthy findings then
    (write path [Text heading; Int (len findings); Text LF] ;;
     write_findings path findings ;;
     write path [Text LF])%proc
  else ret tt.

(** A recommendation, written when its tier is not empty. *)
Definition write_if (path : string) (findings : list json) (line : string)
  : proc unit :=
  if truthy findings then write path [Text line] else ret tt.

Definition generate_summary_markdown (categories : groups) (output_dir : string)
  : proc unit :=
  let summary_path := join output_dir "slither-summary.md" in
  let total := total_findings categories in
  (open_w summary_path ;;
   write summary_path
     [Text ("# 🐍 Slither Security Analysis Summary" ++ LF ++ LF)] ;;
   if (total =? 0)%Z then
     write summary_path [Text ("✅ **No security issues found!**" ++ LF ++ LF)] ;;
     write summary_path
       [Text ("The PayRox Go Beyond contracts passed all Slither security checks."
              ++ LF)]
   else
     write summary_path
       [Text "📊 **Total Findings**: "; Int total; Text (LF ++ LF)] ;;
     critical <- lift (group "critical" categories) ;;
     write_tier summary_path "🚨 **Critical Issues**: " critical ;;
     high <- lift (group "high" categories) ;;
     write_tier summary_path "⚠️ **High Severity**: " high ;;
     medium <- lift (group "medium" categories) ;;
     write_tier summary_path "🔶 **Medium Severity**: " medium ;;
     low <- lift (group "low" categories) ;;
     (if truthy low then
        write summary_path [Text "🔷 **Low Severity**: "; Int (len low); Text LF] ;;
        write summary_path
          [Text "*(Note: "; Int (len low);
           Text (" low-severity findings - see full report for details)*"
                 ++ LF ++ LF)]
      else ret tt) ;;
     write summary_path [Text ("## 🔧 Recommendations" ++ LF ++ LF)] ;;
     write_if summary_path critical
       ("1. **Immediate Action Required**: Address all critical issues before deployment"
        ++ LF) ;;
     write_if summary_path high
       ("2. **High Priority**: Review and fix high-severity findings" ++ LF) ;;
     write_if summary_path medium
       ("3. **Medium Priority**: Consider fixing medium-severity findings" ++ LF) ;;
     write summary_path
       [Text (LF ++ "📝 *Full detailed report available in security artifacts*"
              ++ LF)])%proc.

Definition save_critical_issues (categories : groups) (output_dir : string)
  : proc unit :=
  let critical_path := join output_dir "critical-issues.json" in
  (open_w critical_path ;;
   critical <- lift (group "critical" categories) ;;
   write critical_path [Dump (JArr critical)])%proc.

Definition main (argv : list string) (d : disk) : proc unit :=
  if negb (length argv =? 2)%nat then
    (print [Text "Usage: python3 process-slither.py <slither-report.json>"] ;;
     sys_exit 1)%proc
  else
    let report_path := nth 1 argv "" in
    let output_dir := dirname report_path in
    if negb (path_exists d report_path) then
      (print [Text "Error: Report file "; Text report_path; Text " not found"] ;;
       sys_exit 1)%proc
    else
      (results <- load_slither_report d report_path ;;
       categories <- lift (categorize_findings results) ;;
       generate_summary_markdown categories output_dir ;;
       save_critical_issues categories output_dir ;;
       let total := total_findings categories in
       print [Text "Slither analysis complete:"] ;;
       critical <- lift (group "critical" categories) ;;
       print [Text "  Critical: "; Int (len critical)] ;;
       high <- lift (group "high" categories) ;;
       print [Text "  High: "; Int (len high)] ;;
       medium <- lift (group "medium" categories) ;;
       print [Text "  Medium: "; Int (len medium)] ;;
       low <- lift (group "low" categories) ;;
       print [Text "  Low: "; Int (len low)] ;;
       print [Text "  Total: "; Int total] ;;
       if truthy critical then
         print [Text "❌ Critical issues found - failing build"] ;;
         sys_exit 1
       else
         print [Text "✅ No critical issues found"] ;;
         sys_exit 0)%proc.

End Slither.

(** ** process-mythril.py *)

Module Mythril.
Import Os.

(** What one report file adds to [reports]: everything inside the [try]. *)
Definition issues_of_report (data : json) : res (list json) :=
  (has_issues <- contains "issues" data ;;
   if has_issues then
     listed <- getitem data "issues" ;;
     iter listed
   else Ok [])%res.

Fixpoint load_each (d : disk) (paths : list string) (reports : list json)
  : proc (list json) :=
  match paths with
  | [] => ret reports
  | report_path :: rest =>
      let warn :=
        print [Text "Warning: Could not load "; Text report_path; Text ": ";
               ErrorText] in
      match json_load d report_path with
      | Some data =>
          match issues_of_report data with
          | Ok more => load_each d rest (reports ++ more)%list
          | Raise _ => (warn ;; load_each d rest reports)%proc
          end
      | None => (warn ;; load_each d rest reports)%proc
      end
  end.

Definition load_mythril_reports (d : disk) (reports_dir : string)
  : proc (list json) :=
  let pattern := join reports_dir "mythril-*.json" in
  load_each d (glob d pattern) [].

Definition empty_categories : groups :=
  [("High", []); ("Medium", []); ("Low", [])].

(** The body of the loop of [categorize_mythril_findings]. *)
Definition categorize_issue (categories : groups) (issue : json) : res groups :=
  (severity <- dict_get issue "severity" (JStr "Low") ;;
   known <- key_in severity categories ;;
   if known then append_at severity issue categories
   else append_to "Low" issue categories)%res.

Definition categorize_mythril_findings (issues : list json) : res groups :=
  for_each categorize_issue issues empty_categories.

(** One record of [all_issues]. *)
Definition summary_record (severity : string) (issue : json) : res json :=
  (title <- dict_get issue "title" (JStr "Unknown Issue") ;;
   description <- dict_get issue "description" (JStr "") ;;
   contract <- dict_get issue "filename" (JStr "Unknown") ;;
   function <- dict_get issue "function" (JStr "Unknown") ;;
   swc_id <- dict_get issue "swc-id" (JStr "") ;;
   Ok (JObj [("severity", JStr severity); ("title", title);
             ("description", description); ("contract", contract);
             ("function", function); ("swc_id", swc_id)]))%res.

(** [for severity, issues in categories.items(): for issue in issues: ...] *)
Fixpoint all_issues_of (categories : groups) (all_issues : list json)
  : res (list json) :=
  match categories with
  | [] => Ok all_issues
  | (severity, issues) :: rest =>
      (all_issues' <-
         for_each (fun acc issue =>
                     record <- summary_record severity issue ;;
                     Ok (acc ++ [record])%list)
                  issues all_issues ;;
       all_issues_of rest all_issues')%res
  end.

Definition icon (severity : string) : res string :=
  match assoc severity [("High", "🚨"); ("Medium", "⚠️"); ("Low", "🔶")] with
  | Some i => Ok i
  | None => Raise (KeyError (JStr severity))
  end.

(** The body of [for severity in ['High', 'Medium', 'Low']]. *)
Definition write_severity (path : string) (categories : groups)
  (severity : string) : proc unit :=
  let severity_issues := group_or_empty severity categories in
  if truthy severity_issues then
    (i <- lift (icon severity) ;;
     write path [Text i; Text " **"; Text severity; Text " Severity**: ";
                 Int (len severity_issues); Text (" issues" ++ LF ++ LF)] ;;
     each (fun issue =>
             title <- lift (dict_get issue "title" (JStr "Unknown Issue")) ;;
             filename <- lift (dict_get issue "filename" (JStr "Unknown")) ;;
             contract <- lift (last_of_split filename) ;;
             write path [Text "- **"; Fmt title; Text "** in `"; Text contract;
                         Text ("`" ++ LF)])
          (firstn 5 severity_issues) ;;
     (if (len severity_issues >? 5)%Z then
        write path [Text "- *(and "; Int (len severity_issues - 5);
                    Text (" more)*" ++ LF)]
      else ret tt) ;;
     write path [Text LF])%proc
  else ret tt.

(** The second [with] block of [generate_mythril_summary]: the Markdown
    summary. *)
Definition write_markdown (categories : groups) (all_issues : list json)
  (markdown_path : string) : proc unit :=
  (open_w markdown_path ;;
   write markdown_path
     [Text ("# 🔮 Mythril Symbolic Analysis Summary" ++ LF ++ LF)] ;;
   let total_issues := len all_issues in
   if (total_issues =? 0)%Z then
     write markdown_path [Text ("✅ **No vulnerabilities detected!**" ++ LF ++ LF)] ;;
     write markdown_path
       [Text ("Mythril symbolic execution found no security issues in the analyzed contracts."
              ++ LF)]
   else
     write markdown_path
       [Text "📊 **Total Issues Found**: "; Int total_issues; Text (LF ++ LF)] ;;
     each (write_severity markdown_path categories) ["High"; "Medium"; "Low"] ;;
     write markdown_path [Text ("## 🔍 Analysis Notes" ++ LF ++ LF)] ;;
     write markdown_path
       [Text ("- Mythril uses symbolic execution to find potential vulnerabilities"
              ++ LF)] ;;
     write markdown_path
       [Text ("- Some findings may be false positives - manual review recommended"
              ++ LF)] ;;
     write markdown_path
       [Text ("- Focus on High severity issues for immediate attention" ++ LF)] ;;
     write markdown_path
       [Text (LF ++ "📝 *Detailed analysis available in security artifacts*"
              ++ LF)])%proc.

Definition generate_mythril_summary (categories : groups) (output_dir : string)
  : proc unit :=
  let summary_path := join output_dir "mythril-summary.json" in
  let markdown_path := join output_dir "mythril-summary.md" in
  (all_issues <- lift (all_issues_of categories []) ;;
   open_w summary_path ;;
   write summary_path [Dump (JArr all_issues)] ;;
   write_markdown categories all_issues markdown_path)%proc.

Definition main (argv : list string) (d : disk) : proc unit :=
  if negb (length argv =? 2)%nat then
    (print [Text "Usage: python3 process-mythril.py <reports-directory>"] ;;
     sys_exit 1)%proc
  else
    let reports_dir := nth 1 argv "" in
    if negb (path_exists d reports_dir) then
      (print [Text "Error: Reports directory "; Text reports_dir;
              Text " not found"] ;;
       sys_exit 1)%proc
    else
      (issues <- load_mythril_reports d reports_dir ;;
       categories <- lift (categorize_mythril_findings issues) ;;
       generate_mythril_summary categories reports_dir ;;
       let total := len issues in
       let high_count := len (group_or_empty "High" categories) in
       let medium_count := len (group_or_empty "Medium" categories) in
       let low_count := len (group_or_empty "Low" categories) in
       print [Text "Mythril analysis complete:"] ;;
       print [Text "  High: "; Int high_count] ;;
       print [Text "  Medium: "; Int medium_count] ;;
       print [Text "  Low: "; Int low_count] ;;
       print [Text "  Total: "; Int total] ;;
       if (high_count >? 0)%Z then
         print [Text "⚠️ "; Int high_count;
                Text " high-severity findings require manual review"]
       else
         print [Text "✅ No high-severity vulnerabilities found"])%proc.

End Mythril.

(** ** generate-security-summary.py *)

Module Summary.

(** The two dicts the loaders build, with their fixed keys. *)
Record slither_data : Type := {
  has_summary : bool;
  critical_issues : Z;
  slither_total_issues : Z;
  slither_summary_content : string
}.

Record mythril_data : Type := {
  has_results : bool;
  high_severity : Z;
  medium_severity : Z;
  low_severity : Z;
  mythril_total_issues : Z;
  mythril_summary_content : string
}.

(** The dict [calculate_security_score] returns. *)
Record security_score : Type := {
  score : Z;
  status : string;
  color : string;
  issues : list (list piece)
}.

Definition calculate_security_score (s : slither_data) (m : mythril_data)
  : security_score :=
  let score0 := 100 in
  let issues0 : list (list piece) := [] in
  let '(score1, issues1) :=
    if critical_issues s >? 0 then
      (score0 - critical_issues s * 25,
       (issues0 ++ [[Int (critical_issues s); Text " critical Slither issues"]])%list)
    else (score0, issues0) in
  let '(score2, issues2) :=
    if high_severity m >? 0 then
      (score1 - high_severity m * 15,
       (issues1 ++ [[Int (high_severity m); Text " high-severity Mythril issues"]])%list)
    else (score1, issues1) in
  let medium_total := medium_severity m in
  let '(score3, issues3) :=
    if medium_total >? 0 then
      (score2 - medium_total * 5,
       (issues2 ++ [[Int medium_total; Text " medium-severity issues"]])%list)
    else (score2, issues2) in
  let '(status3, color3) :=
    if score3 >=? 95 then ("EXCELLENT", "green")
    else if score3 >=? 85 then ("GOOD", "yellowgreen")
    else if score3 >=? 70 then ("FAIR", "orange")
    else ("NEEDS_ATTENTION", "red") in
  {| score := Z.max 0 score3;
     status := status3;
     color := color3;
     issues := issues3 |}.

End Summary.

(** ** generate-security-summary.py: loading and reporting *)

Module Aggregator.
Import Os Summary.

(** What the aggregator takes from its environment beside the parsed files:
    whether a number that is not an integer reads as a float other than
    zero, the text of a file ([None] when opening or reading raises), the
    time stamp [datetime.now().strftime(...)] gives, and whether a path can
    be opened for writing (not when its directory is missing, or is no
    directory, or refuses the file). *)
Record env : Type := {
  nonzero_float : string -> bool;
  read_text : string -> option string;
  now : string;
  creatable : string -> bool
}.

(** [if v:] for a loaded value. *)
Definition truth (e : env) (v : json) : bool :=
  match v with
  | JNull => false
  | JBool b => b
  | JInt z => negb (z =? 0)%Z
  | JReal literal => nonzero_float e literal
  | JStr s => negb (s =? "")
  | JArr items => truthy items
  | JObj fields => truthy fields
  end.

(** The characters of a str kept as UTF-8: the bytes that do not continue
    a character. *)
Fixpoint code_points (s : string) : Z :=
  match s with
  | EmptyString => 0
  | String c rest =>
      let n := nat_of_ascii c in
      (if ((128 <=? n) && (n <=? 191))%nat then 0 else 1) + code_points rest
  end.

(** [len(v)] for a loaded value. *)
Definition py_len (v : json) : res Z :=
  match v with
  | JArr items => Ok (len items)
  | JObj fields => Ok (len fields)
  | JStr s => Ok (code_points s)
  | _ => Raise TypeError
  end.

(** The loaded value, [None] (the null of JSON) when loading raises. *)
Definition load_json_file (d : disk) (file_path : string) : proc json :=
  match json_load d file_path with
  | Some v => ret v
  | None =>
      (print [Text "Warning: Could not load "; Text file_path; Text ": ";
              ErrorText] ;;
       ret JNull)%proc
  end.

(** [try: data['summary_content'] = f.read() except Exception: pass] *)
Definition read_or_keep (e : env) (path : string) (content : string) : string :=
  match read_text e path with
  | Some text => text
  | None => content
  end.

Definition load_slither_data (e : env) (d : disk) (slither_dir : string)
  : proc slither_data :=
  let summary_path := join slither_dir "slither-summary.md" in
  let critical_path := join slither_dir "critical-issues.json" in
  let has := path_exists d summary_path in
  let content := if has then read_or_keep e summary_path "" else "" in
  let data (critical : Z) :=
    {| has_summary := has;
       critical_issues := critical;
       slither_total_issues := 0;
       slither_summary_content := content |} in
  if path_exists d critical_path then
    (critical_data <- load_json_file d critical_path ;;
     if truth e critical_data then
       n <- lift (py_len critical_data) ;;
       ret (data n)
     else ret (data 0))%proc
  else ret (data 0).

(** The body of the loop of [load_mythril_data], on the three counters. *)
Definition count_issue (counts : Z * Z * Z) (issue : json) : res (Z * Z * Z) :=
  (severity <- dict_get issue "severity" (JStr "Low") ;;
   let '(high, medium, low) := counts in
   if is_str "High" severity then Ok (high + 1, medium, low)%Z
   else if is_str "Medium" severity then Ok (high, medium + 1, low)%Z
   else Ok (high, medium, low + 1)%Z)%res.

Definition load_mythril_data (e : env) (d : disk) (mythril_dir : string)
  : proc mythril_data :=
  let summary_path := join mythril_dir "mythril-summary.json" in
  let markdown_path := join mythril_dir "mythril-summary.md" in
  let has := path_exists d summary_path in
  let content :=
    if path_exists d markdown_path then read_or_keep e markdown_path "" else "" in
  let data (counts : Z * Z * Z) (total : Z) :=
    let '(high, medium, low) := counts in
    {| has_results := has;
       high_severity := high;
       medium_severity := medium;
       low_severity := low;
       mythril_total_issues := total;
       mythril_summary_content := content |} in
  if has then
    (loaded <- load_json_file d summary_path ;;
     if truth e loaded then
       items <- lift (iter loaded) ;;
       counts <- lift (for_each count_issue items (0, 0, 0)%Z) ;;
       total <- lift (py_len loaded) ;;
       ret (data counts total)
     else ret (data (0, 0, 0)%Z 0%Z))%proc
  else ret (data (0, 0, 0)%Z 0%Z).

(** The blocks of [generate_security_summary], one per heading. *)

Definition write_executive_summary (path : string) (r : security_score)
  : proc unit :=
  (write path [Text ("## 📋 Executive Summary" ++ LF ++ LF)] ;;
   if (score r >=? 95)%Z then
     write path
       [Text ("✅ **EXCELLENT SECURITY POSTURE** - The PayRox Go Beyond contracts demonstrate exceptional security standards with minimal to no security issues detected."
              ++ LF ++ LF)]
   else if (score r >=? 85)%Z then
     write path
       [Text ("🟢 **GOOD SECURITY POSTURE** - The contracts show good security practices with only minor issues that should be addressed."
              ++ LF ++ LF)]
   else if (score r >=? 70)%Z then
     write path
       [Text ("🟡 **FAIR SECURITY POSTURE** - Some security issues detected that require attention before production deployment."
              ++ LF ++ LF)]
   else
     write path
       [Text ("🔴 **SECURITY ATTENTION REQUIRED** - Critical security issues detected that must be addressed immediately."
              ++ LF ++ LF)])%proc.

Definition write_detailed_analysis (path : string) (s : slither_data)
  (m : mythril_data) : proc unit :=
  (write path [Text ("## 🔍 Detailed Analysis" ++ LF ++ LF)] ;;
   write path [Text ("### 🐍 Slither Static Analysis" ++ LF ++ LF)] ;;
   (if has_summary s then
      if (critical_issues s =? 0)%Z then
        write path [Text ("✅ **No critical issues found**" ++ LF ++ LF)]
      else
        write path [Text "🚨 **"; Int (critical_issues s);
                    Text (" critical issues require immediate attention**"
                          ++ LF ++ LF)]
    else write path [Text ("⚠️ Slither analysis not available" ++ LF ++ LF)]) ;;
   write path [Text ("### 🔮 Mythril Symbolic Execution" ++ LF ++ LF)] ;;
   if has_results m then
     if (mythril_total_issues m =? 0)%Z then
       write path [Text ("✅ **No vulnerabilities detected**" ++ LF ++ LF)]
     else
       write path [Text ("📊 **Analysis Results**:" ++ LF)] ;;
       write path [Text "- High Severity: "; Int (high_severity m); Text LF] ;;
       write path [Text "- Medium Severity: "; Int (medium_severity m); Text LF] ;;
       write path [Text "- Low Severity: "; Int (low_severity m);
                   Text (LF ++ LF)]
   else write path [Text ("⚠️ Mythril analysis not available" ++ LF ++ LF)])%proc.

(** [for i, issue in enumerate(security_score['issues'], 1)] *)
Fixpoint write_numbered (path : string) (i : Z) (items : list (list piece))
  : proc unit :=
  match items with
  | [] => ret tt
  | issue :: rest =>
      (write path ([Int i; Text ". Address "] ++ issue ++ [Text LF])%list ;;
       write_numbered path (i + 1)%Z rest)%proc
  end.

Definition write_recommendations (path : string) (r : security_score)
  : proc unit :=
  (write path [Text ("## 🔧 Recommendations" ++ LF ++ LF)] ;;
   (if truthy (issues r) then
      write path [Text ("**Immediate Actions Required**:" ++ LF)] ;;
      write_numbered path 1 (issues r) ;;
      write path [Text LF]
    else
      write path [Text ("✅ No immediate security actions required" ++ LF ++ LF)]) ;;
   write path [Text ("**General Security Best Practices**:" ++ LF)] ;;
   write path [Text ("1. Regular security audits before major releases" ++ LF)] ;;
   write path [Text ("2. Multi-signature wallet for administrative functions" ++ LF)] ;;
   write path [Text ("3. Time-locked upgrades for critical changes" ++ LF)] ;;
   write path [Text ("4. Comprehensive testing on testnets" ++ LF)] ;;
   write path
     [Text ("5. Bug bounty program for ongoing security validation" ++ LF ++ LF)])%proc.

Definition write_fixed_text (path : string) : proc unit :=
  (write path [Text ("## 🏗️ PayRox Architecture Security Features" ++ LF ++ LF)] ;;
   write path [Text ("**Manifest-Router Architecture Benefits**:" ++ LF)] ;;
   write path
     [Text ("- ✅ **Storage Isolation**: Each facet uses unique namespaced storage"
            ++ LF)] ;;
   write path
     [Text ("- ✅ **EXTCODEHASH Verification**: Cryptographic validation before delegatecalls"
            ++ LF)] ;;
   write path
     [Text ("- ✅ **Emergency Controls**: Forbidden selectors for immediate threat response"
            ++ LF)] ;;
   write path
     [Text ("- ✅ **Deterministic Deployment**: CREATE2 for predictable and verifiable addresses"
            ++ LF)] ;;
   write path
     [Text ("- ✅ **Role-Based Access Control**: Granular permissions for security operations"
            ++ LF)] ;;
   write path
     [Text ("- ✅ **Pausable Operations**: Circuit breakers for emergency situations"
            ++ LF ++ LF)] ;;
   write path [Text ("## 📎 Appendix" ++ LF ++ LF)] ;;
   write path [Text ("**Analysis Tools Used**:" ++ LF)] ;;
   write path
     [Text ("- **Slither**: Static analysis for common vulnerability patterns"
            ++ LF)] ;;
   write path
     [Text ("- **Mythril**: Symbolic execution for complex vulnerability detection"
            ++ LF)] ;;
   write path
     [Text ("- **Manual Review**: Architecture and business logic validation"
            ++ LF ++ LF)] ;;
   write path
     [Text ("*For detailed technical findings, refer to the complete analysis reports in the security artifacts.*"
            ++ LF)])%proc.

(** [open(output_path, 'w')]: the path comes from the command line as it
    is, nothing has looked at it before, and opening it raises where the
    file cannot be created. *)
Definition open_output (e : env) (output_path : string) : proc unit :=
  if creatable e output_path then open_w output_path
  else lift (Raise OSError).

Definition generate_security_summary (e : env) (s : slither_data)
  (m : mythril_data) (output_path : string) : proc unit :=
  let security_score := calculate_security_score s m in
  let timestamp := now e in
  (open_output e output_path ;;
   write output_path
     [Text ("# 🛡️ PayRox Go Beyond Security Analysis Report" ++ LF ++ LF)] ;;
   write output_path [Text "**Generated**: "; Text timestamp; Text LF] ;;
   write output_path
     [Text "**Security Score**: "; Int (score security_score);
      Text ("/100" ++ LF)] ;;
   write output_path
     [Text "**Status**: "; Text (status security_score); Text (LF ++ LF)] ;;
   write_executive_summary output_path security_score ;;
   write_detailed_analysis output_path s m ;;
   write_recommendations output_path security_score ;;
   write_fixed_text output_path)%proc.

(** [main] once [parse_args] has returned its three required arguments;
    what argparse makes of the command line is left out. *)
Definition main (e : env) (d : disk) (slither_dir mythril_dir output : string)
  : proc unit :=
  (s <- load_slither_data e d slither_dir ;;
   m <- load_mythril_data e d mythril_dir ;;
   generate_security_summary e s m output ;;
   let security_score := calculate_security_score s m in
   print [Text "Security Analysis Complete!"] ;;
   print [Text "Overall Security Score: "; Int (score security_score);
          Text "/100 ("; Text (status security_score); Text ")"] ;;
   if truthy (issues security_score) then
     print [Text "Issues requiring attention:"] ;;
     each (fun issue => print ([Text "  - "] ++ issue)%list)
          (issues security_score)
   else print [Text "No critical security issues detected!"])%proc.

End Aggregator.

(** ** Vocabulary of the specification *)

(** The static-analysis tiers and the table of section 4.1, written after the
    specification: an ordered list of rows, the first row that matches
    decides, and what no row matches is informational. *)
Module Tiers.

Inductive tier : Type := Critical | High | Medium | Low | Informational.

Definition tier_key (t : tier) : string :=
  match t with
  | Critical => "critical"
  | High => "high"
  | Medium => "medium"
  | Low => "low"
  | Informational => "informational"
  end.

Definition tier_eqb (a b : tier) : bool :=
  match a, b with
  | Critical, Critical | High, High | Medium, Medium | Low, Low
  | Informational, Informational => true
  | _, _ => false
  end.

Definition row : Type := (string -> string -> bool) * tier.

Definition rule_table : list row :=
  [ (fun impact confidence => (impact =? "high") && (confidence =? "high"), Critical);
    (fun impact confidence => (impact =? "high") && (confidence =? "medium"), High);
    (fun impact confidence => (impact =? "medium") && (confidence =? "high"), High);
    (fun impact confidence => (impact =? "medium") && (confidence =? "medium"), Medium);
    (fun impact confidence => (impact =? "high") && (confidence =? "low"), Medium);
    (fun impact confidence => (impact =? "low") || (confidence =? "low"), Low) ].

Fixpoint first_match (rows : list row) (impact confidence : string) : tier :=
  match rows with
  | [] => Informational
  | (applies, t) :: rest =>
      if applies impact confidence then t else first_match rest impact confidence
  end.

Definition table_tier (impact confidence : string) : tier :=
  first_match rule_table impact confidence.

(** The lower-cased label of a detector, empty when the field is absent. *)
Definition label (key : string) (detector : json) : string :=
  match detector with
  | JObj fields =>
      match assoc key fields with
      | Some (JStr s) => lower s
      | _ => ""
      end
  | _ => ""
  end.

Definition str_or_absent (key : string) (fields : list (string * json)) : bool :=
  match assoc key fields with
  | None | Some (JStr _) => true
  | Some _ => false
  end.

(** A detector record: an object whose impact and confidence, when given,
    are strings. *)
Definition is_detector (detector : json) : bool :=
  match detector with
  | JObj fields => str_or_absent "impact" fields && str_or_absent "confidence" fields
  | _ => false
  end.

Definition tier_of (detector : json) : tier :=
  table_tier (label "impact" detector) (label "confidence" detector).

Definition in_tier (t : tier) (detector : json) : bool :=
  tier_eqb (tier_of detector) t.

(** The categories as the table sorts a list of detectors. *)
Definition tiered (detectors : list json) : groups :=
  map (fun t => (tier_key t, filter (in_tier t) detectors))
      [Critical; High; Medium; Low; Informational].

Definition high_high (detector : json) : bool :=
  (label "impact" detector =? "high") && (label "confidence" detector =? "high").

(** The report [load_slither_report] returns: the empty dict when the file
    cannot be loaded. *)
Definition report_of (d : disk) (report_path : string) : json :=
  match json_load d report_path with
  | Some v => v
  | None => JObj []
  end.

(** The detectors the loop of [categorize_findings] goes through: none when
    the report has no results. *)
Definition detectors_of (results : json) : res (list json) :=
  (has_results <- contains "results" results ;;
   if negb has_results then Ok []
   else
     inner <- getitem results "results" ;;
     listed <- getitem inner "detectors" ;;
     iter listed)%res.

(** The findings the Markdown summary prints by name need both names. *)
Definition has_names (detector : json) : bool :=
  match detector with
  | JObj fields =>
      match assoc "check" fields, assoc "description" fields with
      | Some _, Some _ => true
      | _, _ => false
      end
  | _ => false
  end.

Definition printable (detector : json) : bool :=
  in_tier Low detector || in_tier Informational detector || has_names detector.

(** The five categories, in the order [categorize_findings] creates them. *)
Definition shape (c h m l i : list json) : groups :=
  [("critical", c); ("high", h); ("medium", m); ("low", l); ("informational", i)].

Definition add_if (t t' : tier) (d : json) (l : list json) : list json :=
  if tier_eqb t' t then (l ++ [d])%list else l.

End Tiers.

(** The symbolic-execution groups. *)
Module Severities.

Definition labels : list string := ["High"; "Medium"; "Low"].

Definition known (s : string) : bool := existsb (String.eqb s) labels.

(** The group an issue goes to: its own label when that is one of the
    three, the lowest otherwise. *)
Definition severity_of (issue : json) : string :=
  match issue with
  | JObj fields =>
      match assoc "severity" fields with
      | Some (JStr s) => if known s then s else "Low"
      | _ => "Low"
      end
  | _ => "Low"
  end.

(** An issue record: an object whose severity, when given, is a scalar. *)
Definition is_issue (issue : json) : bool :=
  match issue with
  | JObj fields =>
      match assoc "severity" fields with
      | Some v => hashable v
      | None => true
      end
  | _ => false
  end.

(** A finding as the Markdown summary needs it: its file name, when given,
    is a string. *)
Definition is_finding (issue : json) : bool :=
  is_issue issue
  && match issue with
     | JObj fields => Tiers.str_or_absent "filename" fields
     | _ => false
     end.

Definition in_group (s : string) (issue : json) : bool := severity_of issue =? s.

(** What [load_mythril_reports] collects from the files [glob] lists. *)
Definition issues_in (d : disk) (paths : list string) : list json :=
  flat_map (fun p =>
              match json_load d p with
              | Some data =>
                  match Mythril.issues_of_report data with
                  | Ok more => more
                  | Raise _ => []
                  end
              | None => []
              end)
           paths.

Definition severity_field (record : json) : option string :=
  match record with
  | JObj fields =>
      match assoc "severity" fields with
      | Some (JStr s) => Some s
      | _ => None
      end
  | _ => None
  end.

(** The three groups, in the order [categorize_mythril_findings] creates
    them. *)
Definition shape3 (h m l : list json) : groups :=
  [("High", h); ("Medium", m); ("Low", l)].

(** The record [generate_mythril_summary] makes of an issue. *)
Definition record_of (severity : string) (issue : json) : json :=
  match Mythril.summary_record severity issue with
  | Ok record => record
  | Raise _ => JNull
  end.

End Severities.

(** How a step of a script relates the world before and after it. *)
Module Frames.

(** The step printed nothing and left every file but [path] as it was. *)
Definition keeps (path : string) (w w' : world) : Prop :=
  stdout w' = stdout w
  /\ forall q, q <> path -> read_file q w' = read_file q w.

(** [p] writes to [path] only, prints nothing and does not exit. *)
Definition writes_only {A : Type} (path : string) (p : proc A) : Prop :=
  forall w o w',
    p w = (o, w') -> keeps path w w' /\ forall code, o <> Exited code.

(** [p] neither raises nor exits. *)
Definition runs {A : Type} (p : proc A) : Prop :=
  forall w, exists a w', p w = (Done a, w').

End Frames.

(** Sample inputs. *)
Module Samples.

Definition disk_with (path : string) (content : option json) : disk :=
  {| path_exists := fun p => p =? path;
     json_load := fun p => if p =? path then content else None;
     glob := fun _ => [] |}.

(** The report of a static-analysis run that found nothing: its results
    object is empty. *)
Definition clean_report : json :=
  JObj [("success", JBool true); ("error", JNull); ("results", JObj [])].

Definition clean_disk : disk :=
  disk_with "reports/slither-report.json" (Some clean_report).

Definition detector (check impact confidence : string) : json :=
  JObj [("check", JStr check); ("impact", JStr impact);
        ("confidence", JStr confidence);
        ("description", JStr "found by the detector")].

Definition sample_detectors : list json :=
  [detector "reentrancy-eth" "High" "High";
   detector "unchecked-transfer" "High" "Medium";
   detector "naming-convention" "Informational" "High";
   detector "arbitrary-send" "HIGH" "high";
   JObj [("check", JStr "solc-version")]].

Definition sample_report : json :=
  JObj [("success", JBool true); ("error", JNull);
        ("results", JObj [("detectors", JArr sample_detectors)])].

Definition sample_disk : disk :=
  disk_with "reports/slither-report.json" (Some sample_report).

(** A report file that exists and does not parse. *)
Definition broken_disk : disk := disk_with "reports/slither-report.json" None.

Definition issue (title severity : string) : json :=
  JObj [("title", JStr title); ("severity", JStr severity);
        ("filename", JStr "contracts/Vault.sol")].

Definition sample_issues : list json :=
  [issue "Integer overflow" "High"; issue "Delegatecall" "Critical";
   JObj [("title", JStr "Unlabelled")]; issue "Timestamp" "Medium"].

(** A reports directory with one report that loads and one that does not. *)
Definition mythril_disk : disk :=
  {| path_exists := fun p => p =? "reports";
     json_load := fun p =>
       if p =? "reports/mythril-a.json"
       then Some (JObj [("issues", JArr sample_issues)]) else None;
     glob := fun pattern =>
       if pattern =? "reports/mythril-*.json"
       then ["reports/mythril-a.json"; "reports/mythril-b.json"] else [] |}.

Definition slither_counts (critical : Z) : Summary.slither_data :=
  {| Summary.has_summary := true;
     Summary.critical_issues := critical;
     Summary.slither_total_issues := 0;
     Summary.slither_summary_content := "" |}.

Definition mythril_counts (high medium : Z) : Summary.mythril_data :=
  {| Summary.has_results := true;
     Summary.high_severity := high;
     Summary.medium_severity := medium;
     Summary.low_severity := 0;
     Summary.mythril_total_issues := high + medium;
     Summary.mythril_summary_content := "" |}.

End Samples.

(** Vocabulary of the further properties. *)
Module More.
Import Frames.

(** [p] writes the pieces [ps] at the end of the open file [path], returns,
    and touches nothing else. *)
Definition appends (path : string) (ps : list piece) (p : proc unit) : Prop :=
  forall w c,
    read_file path w = Some c ->
    exists w',
      p w = (Done tt, w')
      /\ read_file path w' = Some (c ++ ps)%list
      /\ keeps path w w'.

(** Whatever [p] does, the file [path], once there, only grows at its end. *)
Definition extends {A : Type} (path : string) (p : proc A) : Prop :=
  forall w o w' c,
    p w = (o, w') ->
    read_file path w = Some c ->
    exists more, read_file path w' = Some (c ++ more)%list.

Fixpoint no_slash (s : string) : bool :=
  match s with
  | EmptyString => true
  | String c rest => negb (Ascii.eqb c "/") && no_slash rest
  end.

(** The Markdown summary of a report with nothing above the low tier. *)
Definition quiet_summary (total : Z) (low : list json) : list piece :=
  ([Text ("# 🐍 Slither Security Analysis Summary" ++ LF ++ LF);
    Text "📊 **Total Findings**: "; Int total; Text (LF ++ LF)]
   ++ (if truthy low then
         [Text "🔷 **Low Severity**: "; Int (len low); Text LF;
          Text "*(Note: "; Int (len low);
          Text (" low-severity findings - see full report for details)*"
                ++ LF ++ LF)]
       else [])
   ++ [Text ("## 🔧 Recommendations" ++ LF ++ LF);
       Text (LF ++ "📝 *Full detailed report available in security artifacts*"
             ++ LF)])%list.

Definition below_medium (detector : json) : bool :=
  Tiers.in_tier Tiers.Low detector || Tiers.in_tier Tiers.Informational detector.

(** Whether [load_mythril_reports] can use a report file. *)
Definition usable (d : disk) (report_path : string) : bool :=
  match json_load d report_path with
  | Some data =>
      match Mythril.issues_of_report data with
      | Ok _ => true
      | Raise _ => false
      end
  | None => false
  end.

Definition warning (report_path : string) : list piece :=
  [Text "Warning: Could not load "; Text report_path; Text ": "; ErrorText].

Definition warnings (d : disk) (paths : list string) : list (list piece) :=
  map warning (filter (fun p => negb (usable d p)) paths).

(** What the loader takes from one report file, told from the loaded value
    alone: nothing from an object without the key issues; under that key
    the items of an array, the keys of an object, the characters of a text;
    nothing from an array or a text in which the word issues does not
    occur. [None] is a file the loader gives up with a warning: one that
    does not load, a number, a truth value or null (no container to look
    into), issues bound to one of those (nothing to extend by), an array or
    a text in which the word occurs (no index of that name). *)
Definition taken_from (loaded : option json) : option (list json) :=
  match loaded with
  | Some (JObj fields) =>
      match assoc "issues" fields with
      | None => Some []
      | Some (JArr items) => Some items
      | Some (JObj inner) => Some (map (fun kv => JStr (fst kv)) inner)
      | Some (JStr text) => Some (map JStr (characters text))
      | Some _ => None
      end
  | Some (JArr items) =>
      if existsb (is_str "issues") items then None else Some []
  | Some (JStr text) =>
      if substring_of "issues" text then None else Some []
  | _ => None
  end.

Definition collected (d : disk) (paths : list string) : list json :=
  flat_map (fun p =>
              match taken_from (json_load d p) with
              | Some more => more
              | None => []
              end)
           paths.

Definition given_up (d : disk) (paths : list string) : list string :=
  filter (fun p =>
            match taken_from (json_load d p) with
            | Some _ => false
            | None => true
            end)
         paths.

(** Three report files: issues bound to a text of two characters, to null,
    and to an array. *)
Definition mixed_disk : disk :=
  {| path_exists := fun _ => true;
     json_load := fun p =>
       if p =? "r/mythril-a.json" then Some (JObj [("issues", JStr "日本")])
       else if p =? "r/mythril-b.json" then Some (JObj [("issues", JNull)])
       else if p =? "r/mythril-c.json"
            then Some (JObj [("issues", JArr [JInt 7; JNull])])
       else None;
     glob := fun pattern =>
       if pattern =? "r/mythril-*.json"
       then ["r/mythril-a.json"; "r/mythril-b.json"; "r/mythril-c.json";
             "r/mythril-d.json"]
       else [] |}.

(** A field of an object, or the default [dict.get] is given. *)
Definition field_or (key : string) (default : string) (issue : json) : json :=
  match issue with
  | JObj fields =>
      match assoc key fields with
      | Some v => v
      | None => JStr default
      end
  | _ => JStr default
  end.

(** An issue the Markdown summary can list: an object whose file name, when
    given, is a string. *)
Definition listable (issue : json) : bool :=
  match issue with
  | JObj fields => Tiers.str_or_absent "filename" fields
  | _ => false
  end.

Definition contract_of (issue : json) : string :=
  match field_or "filename" "Unknown" issue with
  | JStr s => Os.last_segment s
  | _ => ""
  end.

Definition bullet (issue : json) : list piece :=
  [Text "- **"; Fmt (field_or "title" "Unknown Issue" issue); Text "** in `";
   Text (contract_of issue); Text ("`" ++ LF)].

Definition icon_of (severity : string) : string :=
  match Mythril.icon severity with
  | Ok i => i
  | Raise _ => ""
  end.

(** The block of one severity in the Markdown summary: nothing for an empty
    group; otherwise a heading, the first five issues, a note on the rest
    when there are more, an empty line. *)
Definition severity_block (severity : string) (issues : list json) : list piece :=
  if truthy issues then
    ([Text (icon_of severity); Text " **"; Text severity; Text " Severity**: ";
      Int (len issues); Text (" issues" ++ LF ++ LF)]
     ++ flat_map bullet (firstn 5 issues)
     ++ (if (len issues >? 5)%Z then
           [Text "- *(and "; Int (len issues - 5); Text (" more)*" ++ LF)]
         else [])
     ++ [Text LF])%list
  else [].

(** The issues [main] gets through with: issue records of which the first
    five of each group can be listed. *)
Definition summarisable (issues : list json) : bool :=
  forallb Severities.is_issue issues
  && forallb (fun s => forallb listable
                         (firstn 5 (filter (Severities.in_group s) issues)))
             Severities.labels.

(** The Markdown summary of the symbolic-execution processor. *)
Definition markdown_text (issues : list json) : list piece :=
  (Text ("# 🔮 Mythril Symbolic Analysis Summary" ++ LF ++ LF)
   :: if (len issues =? 0)%Z then
        [Text ("✅ **No vulnerabilities detected!**" ++ LF ++ LF);
         Text ("Mythril symbolic execution found no security issues in the analyzed contracts."
               ++ LF)]
      else
        [Text "📊 **Total Issues Found**: "; Int (len issues); Text (LF ++ LF)]
        ++ severity_block "High" (filter (Severities.in_group "High") issues)
        ++ severity_block "Medium" (filter (Severities.in_group "Medium") issues)
        ++ severity_block "Low" (filter (Severities.in_group "Low") issues)
        ++ [Text ("## 🔍 Analysis Notes" ++ LF ++ LF);
            Text ("- Mythril uses symbolic execution to find potential vulnerabilities"
                  ++ LF);
            Text ("- Some findings may be false positives - manual review recommended"
                  ++ LF);
            Text ("- Focus on High severity issues for immediate attention" ++ LF);
            Text (LF ++ "📝 *Detailed analysis available in security artifacts*"
                  ++ LF)])%list.

(** The records of mythril-summary.json: the High issues, then the Medium,
    then the Low ones, each group in the order of the input. *)
Definition records_of (issues : list json) : list json :=
  (map (Severities.record_of "High") (filter (Severities.in_group "High") issues)
   ++ map (Severities.record_of "Medium")
          (filter (Severities.in_group "Medium") issues)
   ++ map (Severities.record_of "Low") (filter (Severities.in_group "Low") issues))%list.

Definition mythril_lines (issues : list json) : list (list piece) :=
  let high := filter (Severities.in_group "High") issues in
  let medium := filter (Severities.in_group "Medium") issues in
  let low := filter (Severities.in_group "Low") issues in
  [[Text "Mythril analysis complete:"];
   [Text "  High: "; Int (len high)];
   [Text "  Medium: "; Int (len medium)];
   [Text "  Low: "; Int (len low)];
   [Text "  Total: "; Int (len issues)];
   if truthy high then
     [Text "⚠️ "; Int (len high);
      Text " high-severity findings require manual review"]
   else [Text "✅ No high-severity vulnerabilities found"]].

Definition is_object (v : json) : bool :=
  match v with
  | JObj _ => true
  | _ => false
  end.

(** Whether a record of mythril-summary.json counts for a severity. *)
Definition has_severity (s : string) (record : json) : bool :=
  is_str s (field_or "severity" "Low" record).

Definition neither (record : json) : bool :=
  negb (has_severity "High" record) && negb (has_severity "Medium" record).

(** What [load_slither_data] can take for critical-issues.json: nothing,
    a file that does not load, a value that is false, or one with a length. *)
Definition slither_loadable (e : Aggregator.env) (d : disk) (slither_dir : string)
  : bool :=
  let critical_path := Os.join slither_dir "critical-issues.json" in
  negb (path_exists d critical_path)
  || match json_load d critical_path with
     | None => true
     | Some v =>
         negb (Aggregator.truth e v)
         || match Aggregator.py_len v with Ok _ => true | Raise _ => false end
     end.

(** What [load_mythril_data] can take for mythril-summary.json: nothing, a
    file that does not load, a value that is false, or objects to loop over. *)
Definition mythril_loadable (e : Aggregator.env) (d : disk) (mythril_dir : string)
  : bool :=
  let summary_path := Os.join mythril_dir "mythril-summary.json" in
  negb (path_exists d summary_path)
  || match json_load d summary_path with
     | None => true
     | Some v =>
         negb (Aggregator.truth e v)
         || match iter v with
            | Ok items => forallb is_object items
            | Raise _ => false
            end
     end.

(** The paragraph of the executive summary that goes with a status. *)
Definition paragraph (status : string) : string :=
  if status =? "EXCELLENT" then
    "✅ **EXCELLENT SECURITY POSTURE** - The PayRox Go Beyond contracts demonstrate exceptional security standards with minimal to no security issues detected."
  else if status =? "GOOD" then
    "🟢 **GOOD SECURITY POSTURE** - The contracts show good security practices with only minor issues that should be addressed."
  else if status =? "FAIR" then
    "🟡 **FAIR SECURITY POSTURE** - Some security issues detected that require attention before production deployment."
  else
    "🔴 **SECURITY ATTENTION REQUIRED** - Critical security issues detected that must be addressed immediately.".

(** [p], run on the open file [path], leaves it starting with what it had
    and then [ps], however it ends. *)
Definition starts {A : Type} (path : string) (ps : list piece) (p : proc A) : Prop :=
  forall w c o w',
    read_file path w = Some c ->
    p w = (o, w') ->
    exists more, read_file path w' = Some (c ++ ps ++ more)%list.

Definition sample_env : Aggregator.env :=
  {| Aggregator.nonzero_float := fun _ => true;
     Aggregator.read_text := fun _ => None;
     Aggregator.now := "2025-01-01 00:00:00 UTC";
     Aggregator.creatable := fun path => negb (String.prefix "out/" path) |}.

(** More sample inputs. *)

(** A report whose only detector is in the high tier and has no check. *)
Definition unnamed_disk : disk :=
  Samples.disk_with "reports/slither-report.json"
    (Some (JObj [("results",
                  JObj [("detectors",
                         JArr [JObj [("impact", JStr "High");
                                     ("confidence", JStr "Medium")]])])])).

Definition quiet_detectors : list json :=
  [Samples.detector "naming-convention" "Informational" "High";
   JObj [("impact", JStr "Low"); ("confidence", JStr "High")]].

(** A reports directory whose one report lists a string among its issues. *)
Definition malformed_disk : disk :=
  {| path_exists := fun p => p =? "reports";
     json_load := fun p =>
       if p =? "reports/mythril-a.json"
       then Some (JObj [("issues", JArr [Samples.issue "Overflow" "High"; JStr "High"])])
       else None;
     glob := fun pattern =>
       if pattern =? "reports/mythril-*.json" then ["reports/mythril-a.json"] else [] |}.

(** The artifacts of the two processors on the sample inputs, read back. *)
Definition artifact_disk : disk :=
  {| path_exists := fun p =>
       (p =? "reports/critical-issues.json") || (p =? "reports/mythril-summary.json");
     json_load := fun p =>
       if p =? "reports/critical-issues.json"
       then Some (JArr (filter Tiers.high_high Samples.sample_detectors))
       else if p =? "reports/mythril-summary.json"
       then Some (JArr (records_of Samples.sample_issues))
       else None;
     glob := fun _ => [] |}.

Definition empty_disk : disk :=
  {| path_exists := fun _ => false;
     json_load := fun _ => None;
     glob := fun _ => [] |}.

End More.

(** * Properties *)

(** ** Helper lemmas: Python operations *)

Lemma rbind_ok {A B : Type} (m : res A) (k : A -> res B) (b : B) :
  rbind m k = Ok b -> exists a, m = Ok a /\ k a = Ok b.
Proof.
  destruct m as [a | e]; simpl; intros H.
  - exists a. split; [reflexivity | exact H].
  - discriminate H.
Qed.

Lemma for_each_app {A S : Type} (body : S -> A -> res S) (xs ys : list A) (s : S) :
  for_each body (xs ++ ys) s = rbind (for_each body xs s) (for_each body ys).
Proof.
  revert s. induction xs as [| x xs IH]; intros s; simpl.
  - reflexivity.
  - destruct (body s x) as [s' | e]; simpl; [apply IH | reflexivity].
Qed.

(** ** The static-analysis processor *)

Section SlitherFacts.
Import Tiers Slither.

Lemma append_to_shape (t : tier) (d : json) (c h m l i : list json) :
  append_to (tier_key t) d (shape c h m l i)
  = Ok (shape (add_if Critical t d c) (add_if High t d h) (add_if Medium t d m)
              (add_if Low t d l) (add_if Informational t d i)).
Proof. destruct t; reflexivity. Qed.

Ltac split_tests :=
  repeat match goal with
         | |- context [String.eqb ?a ?b] =>
             destruct (String.eqb a b) eqn:?; cbn [andb orb negb]
         end.

Lemma table_tier_chain (impact confidence : string) (d : json) (g : groups) :
  (if (impact =? "high") && (confidence =? "high") then
     append_to "critical" d g
   else if (impact =? "high") && (confidence =? "medium")
           || (impact =? "medium") && (confidence =? "high") then
     append_to "high" d g
   else if (impact =? "medium") && (confidence =? "medium")
           || (impact =? "high") && (confidence =? "low") then
     append_to "medium" d g
   else if (impact =? "low") || (confidence =? "low") then
     append_to "low" d g
   else
     append_to "informational" d g)
  = append_to (tier_key (table_tier impact confidence)) d g.
Proof.
  unfold table_tier, rule_table, first_match.
  split_tests; reflexivity.
Qed.

Lemma categorize_detector_tier (g : groups) (d : json) :
  is_detector d = true ->
  categorize_detector g d = append_to (tier_key (tier_of d)) d g.
Proof.
  intros Hd. unfold tier_of. rewrite <- table_tier_chain.
  destruct d as [| | | | | | fields]; try discriminate Hd.
  unfold is_detector, str_or_absent in Hd.
  unfold categorize_detector, label, dict_get.
  destruct (assoc "impact" fields) as [[| | | | si | |] |];
    try discriminate Hd;
    destruct (assoc "confidence" fields) as [[| | | | sc | |] |];
    try discriminate Hd; reflexivity.
Qed.

Lemma categorize_detector_ok (g g' : groups) (d : json) :
  categorize_detector g d = Ok g' -> is_detector d = true.
Proof.
  unfold categorize_detector, is_detector, str_or_absent, dict_get.
  destruct d as [| | | | | | fields]; simpl; try discriminate.
  destruct (assoc "impact" fields) as [[| | | | si | |] |];
    simpl; try discriminate;
    destruct (assoc "confidence" fields) as [[| | | | sc | |] |];
    simpl; try discriminate; reflexivity.
Qed.

End SlitherFacts.

Section SlitherCategories.
Import Tiers Slither.

Lemma categorize_loop (detectors : list json) :
  forall c h m l i,
    forallb is_detector detectors = true ->
    for_each categorize_detector detectors (shape c h m l i)
    = Ok (shape (c ++ filter (in_tier Critical) detectors)
                (h ++ filter (in_tier High) detectors)
                (m ++ filter (in_tier Medium) detectors)
                (l ++ filter (in_tier Low) detectors)
                (i ++ filter (in_tier Informational) detectors))%list.
Proof.
  induction detectors as [| d rest IH]; intros c h m l i Hall; simpl.
  - rewrite !app_nil_r. reflexivity.
  - simpl in Hall. apply andb_prop in Hall. destruct Hall as [Hd Hrest].
    rewrite (categorize_detector_tier _ _ Hd), append_to_shape. simpl.
    rewrite (IH _ _ _ _ _ Hrest).
    unfold add_if, in_tier.
    destruct (tier_of d); simpl; rewrite <- ?app_assoc; reflexivity.
Qed.

Lemma categorize_loop_ok (detectors : list json) :
  forall g g',
    for_each categorize_detector detectors g = Ok g' ->
    forallb is_detector detectors = true.
Proof.
  induction detectors as [| d rest IH]; intros g g' H; simpl in *.
  - reflexivity.
  - apply rbind_ok in H. destruct H as [g1 [Hd Hrest]].
    rewrite (categorize_detector_ok _ _ _ Hd). simpl. exact (IH _ _ Hrest).
Qed.

Lemma categorize_findings_loop (results : json) :
  categorize_findings results
  = rbind (detectors_of results)
          (fun detectors => for_each categorize_detector detectors empty_categories).
Proof.
  unfold categorize_findings, detectors_of.
  destruct (contains "results" results) as [[|] | e]; simpl; try reflexivity.
  destruct (getitem results "results") as [inner | e]; simpl; try reflexivity.
  destruct (getitem inner "detectors") as [listed | e]; simpl; reflexivity.
Qed.

Lemma categorize_findings_tiered (results : json) (detectors : list json) :
  detectors_of results = Ok detectors ->
  forallb is_detector detectors = true ->
  categorize_findings results = Ok (tiered detectors).
Proof.
  intros Hdet Hall. rewrite categorize_findings_loop, Hdet. simpl.
  exact (categorize_loop detectors [] [] [] [] [] Hall).
Qed.

(** Whenever [categorize_findings] returns, it went through a list of
    detector records and returns them sorted by the table. *)
Lemma categorize_findings_returns (results : json) (g : groups) :
  categorize_findings results = Ok g ->
  exists detectors,
    detectors_of results = Ok detectors
    /\ forallb is_detector detectors = true
    /\ g = tiered detectors.
Proof.
  intros H. rewrite categorize_findings_loop in H.
  apply rbind_ok in H. destruct H as [detectors [Hdet Hloop]].
  exists detectors. split; [exact Hdet |].
  pose proof (categorize_loop_ok _ _ _ Hloop) as Hall.
  split; [exact Hall |].
  change empty_categories with (shape [] [] [] [] []) in Hloop.
  rewrite (categorize_loop detectors [] [] [] [] [] Hall) in Hloop.
  now inversion Hloop.
Qed.

Lemma high_high_critical (d : json) : in_tier Critical d = high_high d.
Proof.
  unfold in_tier, tier_of, table_tier, rule_table, first_match, high_high.
  repeat match goal with
         | |- context [String.eqb ?a ?b] =>
             destruct (String.eqb a b) eqn:?; cbn [andb orb negb]
         end; reflexivity.
Qed.

Lemma high_high_labels (d : json) :
  high_high d = true <-> label "impact" d = "high" /\ label "confidence" d = "high".
Proof.
  unfold high_high. rewrite andb_true_iff, !String.eqb_eq. reflexivity.
Qed.

(** The table, row by row. *)
Lemma table_tier_rows (impact confidence : string) :
  (impact = "high" /\ confidence = "high" ->
   table_tier impact confidence = Critical)
  /\ (impact = "high" /\ confidence = "medium"
      \/ impact = "medium" /\ confidence = "high" ->
      table_tier impact confidence = High)
  /\ (impact = "medium" /\ confidence = "medium"
      \/ impact = "high" /\ confidence = "low" ->
      table_tier impact confidence = Medium)
  /\ (impact = "low" \/ confidence = "low" ->
      ~ (impact = "high" /\ confidence = "low") ->
      table_tier impact confidence = Low)
  /\ (impact <> "low" -> confidence <> "low" ->
      impact <> "high" \/ confidence <> "high" /\ confidence <> "medium" ->
      impact <> "medium" \/ confidence <> "high" /\ confidence <> "medium" ->
      table_tier impact confidence = Informational).
Proof.
  unfold table_tier, rule_table, first_match.
  destruct (String.eqb_spec impact "high"), (String.eqb_spec impact "medium"),
    (String.eqb_spec impact "low"), (String.eqb_spec confidence "high"),
    (String.eqb_spec confidence "medium"), (String.eqb_spec confidence "low");
    subst; cbn [andb orb];
    repeat split; intros; try reflexivity; try discriminate;
    intuition congruence.
Qed.

Lemma tier_eqb_eq (a b : tier) : tier_eqb a b = true <-> a = b.
Proof. destruct a, b; simpl; split; intros H; congruence. Qed.

(** C1: every detector record goes to the one tier that the first matching
    row of the table gives for its lower-cased impact and confidence, so a
    report's categories are its detectors sorted by the table; the critical
    tier holds exactly the detectors whose lower-cased impact and confidence
    both read high. *)
Theorem categorize_findings_first_match (results : json) (detectors : list json) :
  detectors_of results = Ok detectors ->
  forallb is_detector detectors = true ->
  (forall g d, In d detectors ->
     categorize_detector g d
     = append_to (tier_key (table_tier (label "impact" d) (label "confidence" d))) d g)
  /\ categorize_findings results
     = Ok (shape (filter (in_tier Critical) detectors)
                 (filter (in_tier High) detectors)
                 (filter (in_tier Medium) detectors)
                 (filter (in_tier Low) detectors)
                 (filter (in_tier Informational) detectors))
  /\ (forall d, exists t, in_tier t d = true /\ forall t', in_tier t' d = true -> t' = t)
  /\ (forall d, In d (filter (in_tier Critical) detectors)
                <-> In d detectors
                    /\ label "impact" d = "high" /\ label "confidence" d = "high").
Proof.
  intros Hdet Hall. repeat split.
  - intros g d Hin. apply categorize_detector_tier.
    rewrite forallb_forall in Hall. exact (Hall d Hin).
  - exact (categorize_findings_tiered _ _ Hdet Hall).
  - intros d. exists (tier_of d). unfold in_tier. split.
    + apply tier_eqb_eq. reflexivity.
    + intros t' H. apply tier_eqb_eq in H. congruence.
  - rewrite filter_In, high_high_critical, high_high_labels in H. tauto.
  - rewrite filter_In, high_high_critical, high_high_labels in H. tauto.
  - rewrite filter_In, high_high_critical, high_high_labels in H. tauto.
  - intros [Hin Hl]. rewrite filter_In, high_high_critical, high_high_labels. tauto.
Qed.

(** C9: a report whose results object has no detectors key makes
    [categorize_findings] raise KeyError; it returns only when the key is
    there and its value can be looped over. *)
Theorem categorize_findings_needs_detectors
  (fields inner : list (string * json)) :
  assoc "results" fields = Some (JObj inner) ->
  (assoc "detectors" inner = None ->
   categorize_findings (JObj fields) = Raise (KeyError (JStr "detectors")))
  /\ (forall g, categorize_findings (JObj fields) = Ok g ->
        exists listed detectors,
          assoc "detectors" inner = Some listed /\ iter listed = Ok detectors).
Proof.
  intros Hres. unfold categorize_findings. simpl. rewrite Hres. simpl. split.
  - intros Hnone. rewrite Hnone. reflexivity.
  - intros g H. destruct (assoc "detectors" inner) as [listed |]; simpl in H.
    + destruct (iter listed) as [detectors | e] eqn:Hiter; simpl in H.
      * exists listed, detectors. split; [reflexivity | exact Hiter].
      * discriminate H.
    + discriminate H.
Qed.

End SlitherCategories.

(** ** Helper lemmas: files and steps *)

Section ProcFacts.
Import Frames.

Lemma assoc_set_file_same (path : string) (c : list piece) fs :
  assoc path (set_file path c fs) = Some c.
Proof.
  induction fs as [| [p c'] rest IH]; simpl.
  - rewrite String.eqb_refl. reflexivity.
  - destruct (p =? path) eqn:E; simpl; rewrite E; [reflexivity | exact IH].
Qed.

Lemma assoc_set_file_other (path q : string) (c : list piece) fs :
  q <> path -> assoc q (set_file path c fs) = assoc q fs.
Proof.
  intros Hne. induction fs as [| [p c'] rest IH]; simpl.
  - destruct (String.eqb_spec path q) as [E | _]; [congruence | reflexivity].
  - destruct (String.eqb_spec p path) as [E | _]; simpl.
    + subst p. destruct (String.eqb_spec path q) as [E | _]; [congruence | reflexivity].
    + destruct (p =? q); [reflexivity | exact IH].
Qed.

Lemma keeps_refl (path : string) (w : world) : keeps path w w.
Proof. split; [reflexivity | intros; reflexivity]. Qed.

Lemma keeps_trans (path : string) (w1 w2 w3 : world) :
  keeps path w1 w2 -> keeps path w2 w3 -> keeps path w1 w3.
Proof.
  intros [Hs1 Hf1] [Hs2 Hf2]. split.
  - congruence.
  - intros q Hq. rewrite (Hf2 q Hq). exact (Hf1 q Hq).
Qed.

Lemma writes_only_ret {A : Type} (path : string) (a : A) :
  writes_only path (ret a).
Proof.
  intros w o w' H. inversion H; subst. split; [apply keeps_refl | discriminate].
Qed.

Lemma writes_only_lift {A : Type} (path : string) (r : res A) :
  writes_only path (lift r).
Proof.
  intros w o w' H. unfold lift in H.
  destruct r; inversion H; subst; (split; [apply keeps_refl | discriminate]).
Qed.

Lemma writes_only_open_w (path : string) : writes_only path (open_w path).
Proof.
  intros w o w' H. inversion H; subst. split; [| discriminate].
  split; [reflexivity |]. intros q Hq. unfold read_file. simpl.
  apply assoc_set_file_other. exact Hq.
Qed.

Lemma writes_only_write (path : string) (ps : list piece) :
  writes_only path (write path ps).
Proof.
  intros w o w' H. inversion H; subst. split; [| discriminate].
  split; [reflexivity |]. intros q Hq. unfold read_file at 1. simpl.
  apply assoc_set_file_other. exact Hq.
Qed.

Lemma writes_only_bind {A B : Type} (path : string) (m : proc A) (k : A -> proc B) :
  writes_only path m -> (forall a, writes_only path (k a)) ->
  writes_only path (bind m k).
Proof.
  intros Hm Hk w o w' H. unfold bind in H.
  destruct (m w) as [[a | e | c] w1] eqn:Em.
  - destruct (Hm _ _ _ Em) as [K1 _]. destruct (Hk a _ _ _ H) as [K2 Hx].
    split; [exact (keeps_trans _ _ _ _ K1 K2) | exact Hx].
  - inversion H; subst. destruct (Hm _ _ _ Em) as [K1 _].
    split; [exact K1 | discriminate].
  - destruct (Hm _ _ _ Em) as [_ Hx]. exfalso. exact (Hx c eq_refl).
Qed.

Lemma writes_only_each {A : Type} (path : string) (body : A -> proc unit) xs :
  (forall x, writes_only path (body x)) -> writes_only path (each body xs).
Proof.
  intros Hb. induction xs as [| x rest IH]; simpl.
  - apply writes_only_ret.
  - apply writes_only_bind; [apply Hb | intros _; exact IH].
Qed.

Lemma writes_only_if {A : Type} (path : string) (b : bool) (p q : proc A) :
  writes_only path p -> writes_only path q ->
  writes_only path (if b then p else q).
Proof. destruct b; tauto. Qed.

Lemma runs_ret {A : Type} (a : A) : runs (ret a).
Proof. intros w. exists a, w. reflexivity. Qed.

Lemma runs_open_w (path : string) : runs (open_w path).
Proof. intros w. eexists _, _. reflexivity. Qed.

Lemma runs_write (path : string) (ps : list piece) : runs (write path ps).
Proof. intros w. eexists _, _. reflexivity. Qed.

Lemma runs_print (line : list piece) : runs (print line).
Proof. intros w. eexists _, _. reflexivity. Qed.

Lemma runs_bind {A B : Type} (m : proc A) (k : A -> proc B) :
  runs m -> (forall a, runs (k a)) -> runs (bind m k).
Proof.
  intros Hm Hk w. destruct (Hm w) as [a [w1 Em]].
  destruct (Hk a w1) as [b [w2 Ek]].
  exists b, w2. unfold bind. rewrite Em. exact Ek.
Qed.

Lemma runs_lift {A B : Type} (r : res A) (a : A) (k : A -> proc B) :
  r = Ok a -> runs (k a) -> runs (bind (lift r) k).
Proof.
  intros Hr Hk w. subst r. destruct (Hk w) as [b [w2 Ek]].
  exists b, w2. unfold bind, lift. exact Ek.
Qed.

Lemma runs_each {A : Type} (body : A -> proc unit) (xs : list A) :
  (forall x, In x xs -> runs (body x)) -> runs (each body xs).
Proof.
  induction xs as [| x rest IH]; intros Hb; simpl.
  - apply runs_ret.
  - apply runs_bind.
    + apply Hb. left. reflexivity.
    + intros _. apply IH. intros y Hy. apply Hb. right. exact Hy.
Qed.

Lemma runs_if {A : Type} (b : bool) (p q : proc A) :
  runs p -> runs q -> runs (if b then p else q).
Proof. destruct b; tauto. Qed.

(** Two files of one directory with different names are different files. *)
Lemma append_same_prefix (p a b : string) : (p ++ a = p ++ b)%string -> a = b.
Proof.
  induction p as [| c p IH]; simpl; intros H.
  - exact H.
  - inversion H. auto.
Qed.

Lemma join_injective (dir a b : string) : Os.join dir a = Os.join dir b -> a = b.
Proof.
  unfold Os.join. destruct ((dir =? "") || Os.ends_with_slash dir); intros H.
  - exact (append_same_prefix _ _ _ H).
  - apply append_same_prefix in H. now inversion H.
Qed.

End ProcFacts.

(** Steps built from writes to one file write to that file only. *)
Ltac frame :=
  repeat first
    [ apply writes_only_ret
    | apply writes_only_lift
    | apply writes_only_open_w
    | apply writes_only_write
    | apply writes_only_if
    | apply writes_only_each; intro
    | apply writes_only_bind; [| intro] ].

(** ** The static-analysis processor: a run *)

Section SlitherRun.
Import Tiers Slither Frames Os.

Lemma load_slither_report_run (d : disk) (path : string) (w : world) :
  exists w',
    load_slither_report d path w = (Done (report_of d path), w')
    /\ files w' = files w.
Proof.
  unfold load_slither_report, report_of.
  destruct (json_load d path); eexists; split; reflexivity.
Qed.

Lemma generate_summary_markdown_writes_only (g : groups) (dir : string) :
  writes_only (join dir "slither-summary.md") (generate_summary_markdown g dir).
Proof.
  unfold generate_summary_markdown, write_tier, write_if, write_findings.
  frame.
Qed.

Lemma runs_write_findings (path : string) (findings : list json) :
  (forall x, In x findings -> has_names x = true) ->
  runs (write_findings path findings).
Proof.
  intros Hall. unfold write_findings. apply runs_each. intros x Hx.
  specialize (Hall x Hx). unfold has_names in Hall.
  destruct x as [| | | | | | fields]; try discriminate Hall.
  destruct (assoc "check" fields) as [c |] eqn:Ec; try discriminate Hall.
  destruct (assoc "description" fields) as [ds |] eqn:Ed; try discriminate Hall.
  apply (runs_lift _ c); [simpl; rewrite Ec; reflexivity |].
  apply (runs_lift _ ds); [simpl; rewrite Ed; reflexivity |].
  apply runs_write.
Qed.

Lemma runs_write_tier (path heading : string) (findings : list json) :
  (forall x, In x findings -> has_names x = true) ->
  runs (write_tier path heading findings).
Proof.
  intros Hall. unfold write_tier. apply runs_if; [| apply runs_ret].
  apply runs_bind; [apply runs_write | intros _].
  apply runs_bind; [apply runs_write_findings; exact Hall | intros _].
  apply runs_write.
Qed.

Lemma printed_by_name (t : tier) (detectors : list json) :
  forallb printable detectors = true ->
  t <> Low -> t <> Informational ->
  forall x, In x (filter (in_tier t) detectors) -> has_names x = true.
Proof.
  intros Hall Hl Hi x Hx. apply filter_In in Hx. destruct Hx as [Hin Ht].
  rewrite forallb_forall in Hall. specialize (Hall x Hin).
  unfold printable, in_tier in *. apply tier_eqb_eq in Ht.
  rewrite Ht in Hall. destruct t; simpl in Hall; congruence.
Qed.

Lemma generate_summary_markdown_runs (detectors : list json) (dir : string) :
  forallb printable detectors = true ->
  runs (generate_summary_markdown (tiered detectors) dir).
Proof.
  intros Hall. unfold generate_summary_markdown.
  apply runs_bind; [apply runs_open_w | intros _].
  apply runs_bind; [apply runs_write | intros _].
  apply runs_if.
  { apply runs_bind; [apply runs_write | intros _]. apply runs_write. }
  apply runs_bind; [apply runs_write | intros _].
  eapply runs_lift; [reflexivity |].
  apply runs_bind;
    [apply runs_write_tier, (printed_by_name Critical); [exact Hall | discriminate ..]
    | intros _].
  eapply runs_lift; [reflexivity |].
  apply runs_bind;
    [apply runs_write_tier, (printed_by_name High); [exact Hall | discriminate ..]
    | intros _].
  eapply runs_lift; [reflexivity |].
  apply runs_bind;
    [apply runs_write_tier, (printed_by_name Medium); [exact Hall | discriminate ..]
    | intros _].
  eapply runs_lift; [reflexivity |].
  apply runs_bind.
  { apply runs_if; [| apply runs_ret].
    apply runs_bind; [apply runs_write | intros _]. apply runs_write. }
  intros _.
  unfold write_if.
  repeat (apply runs_bind; [first [apply runs_write | apply runs_if; [apply runs_write | apply runs_ret]] | intros _]).
  apply runs_write.
Qed.

End SlitherRun.

Section SlitherMain.
Import Tiers Slither Frames Os Samples.

Lemma main_reaches_exit (prog path : string) (d : disk) (detectors : list json)
  (w0 w1 : world) :
  path_exists d path = true ->
  categorize_findings (report_of d path) = Ok (tiered detectors) ->
  load_slither_report d path fresh = (Done (report_of d path), w0) ->
  generate_summary_markdown (tiered detectors) (dirname path) w0 = (Done tt, w1) ->
  exists w2,
    run (main [prog; path] d)
    = ((if truthy (filter (in_tier Critical) detectors) then 1 else 0), w2)
    /\ read_file (join (dirname path) "critical-issues.json") w2
       = Some [Dump (JArr (filter (in_tier Critical) detectors))]
    /\ forall q, q <> join (dirname path) "critical-issues.json" ->
                 read_file q w2 = read_file q w1.
Proof.
  intros Hex Hcat Hload Hgen.
  unfold run, main. cbn [length Nat.eqb negb nth]. rewrite Hex. cbn [negb].
  unfold bind. rewrite Hload. unfold lift at 1. rewrite Hcat, Hgen.
  unfold save_critical_issues.
  remember (join (dirname path) "critical-issues.json") as cp.
  unfold bind, open_w, write, print, lift, sys_exit, read_file.
  cbn [files stdout tiered map tier_key group assoc String.eqb Ascii.eqb Bool.eqb fst snd].
  rewrite assoc_set_file_same.
  destruct (filter (in_tier Critical) detectors) as [| x crit] eqn:Ecrit;
    cbn [truthy exit_status app];
    (eexists; split; [reflexivity |]);
    unfold read_file; cbn [files];
    (split; [apply assoc_set_file_same |]);
    intros q Hq; rewrite !assoc_set_file_other by exact Hq; reflexivity.
Qed.

Lemma main_missing_report (prog path : string) (d : disk) :
  path_exists d path = false ->
  exists w, run (main [prog; path] d) = (1, w) /\ files w = [].
Proof.
  intros Hex. unfold run, main. cbn [length Nat.eqb negb nth]. rewrite Hex.
  eexists. split; reflexivity.
Qed.

Lemma main_stops_in_categorize (prog path : string) (d : disk) (e : exn) :
  path_exists d path = true ->
  categorize_findings (report_of d path) = Raise e ->
  exists w, run (main [prog; path] d) = (1, w) /\ files w = [].
Proof.
  intros Hex Hcat.
  destruct (load_slither_report_run d path fresh) as [w0 [Hload Hfiles]].
  exists w0. split; [| exact Hfiles].
  unfold run, main. cbn [length Nat.eqb negb nth]. rewrite Hex. cbn [negb].
  unfold bind. rewrite Hload. unfold lift at 1. rewrite Hcat. reflexivity.
Qed.

Lemma main_stops_in_summary (prog path : string) (d : disk) (g : groups)
  (e : exn) (w0 w1 : world) :
  path_exists d path = true ->
  categorize_findings (report_of d path) = Ok g ->
  load_slither_report d path fresh = (Done (report_of d path), w0) ->
  generate_summary_markdown g (dirname path) w0 = (Raised e, w1) ->
  run (main [prog; path] d) = (1, w1).
Proof.
  intros Hex Hcat Hload Hgen.
  unfold run, main. cbn [length Nat.eqb negb nth]. rewrite Hex. cbn [negb].
  unfold bind. rewrite Hload. unfold lift at 1. rewrite Hcat, Hgen. reflexivity.
Qed.

Lemma summary_is_not_critical (dir : string) :
  join dir "critical-issues.json" <> join dir "slither-summary.md".
Proof. intros H. apply join_injective in H. discriminate H. Qed.

Lemma filter_critical_high_high (detectors : list json) :
  filter (in_tier Critical) detectors = filter high_high detectors.
Proof. apply filter_ext. exact high_high_critical. Qed.

(** The run on a report whose detectors are records that the summary can
    print: both files are written and the status tells whether a detector
    is high/high. *)
Lemma main_on_detector_records (prog path : string) (d : disk)
  (detectors : list json) :
  path_exists d path = true ->
  detectors_of (report_of d path) = Ok detectors ->
  forallb is_detector detectors = true ->
  forallb printable detectors = true ->
  exists w,
    run (main [prog; path] d)
    = ((if existsb high_high detectors then 1 else 0), w)
    /\ read_file (join (dirname path) "critical-issues.json") w
       = Some [Dump (JArr (filter high_high detectors))].
Proof.
  intros Hex Hdet Hrec Hprint.
  pose proof (categorize_findings_tiered _ _ Hdet Hrec) as Hcat.
  destruct (load_slither_report_run d path fresh) as [w0 [Hload _]].
  destruct (generate_summary_markdown_runs detectors (dirname path) Hprint w0)
    as [[] [w1 Hgen]].
  destruct (main_reaches_exit prog path d detectors w0 w1 Hex Hcat Hload Hgen)
    as [w2 [Hrun [Hfile _]]].
  exists w2. rewrite Hrun, Hfile, filter_critical_high_high. split; [| reflexivity].
  f_equal. clear. induction detectors as [| x rest IH]; simpl.
  - reflexivity.
  - destruct (high_high x); simpl; [reflexivity | exact IH].
Qed.

(** C5: on an existing report whose detectors are records that the summary
    can print, the run writes critical-issues.json beside the report, and
    the file is the dump of one array, the critical tier that
    categorize_findings built: the detectors of the report whose lower-cased
    impact and confidence both read high, the loaded values themselves, in
    the order of the report, as many as the report has such detectors.
    No run leaves a critical-issues.json that holds anything else. *)
Theorem critical_issues_json_content (prog path : string) (d : disk) :
  let written :=
    read_file (join (dirname path) "critical-issues.json")
              (snd (run (main [prog; path] d))) in
  (forall detectors : list json,
      path_exists d path = true ->
      detectors_of (report_of d path) = Ok detectors ->
      forallb is_detector detectors = true ->
      forallb printable detectors = true ->
      exists g,
        categorize_findings (report_of d path) = Ok g
        /\ group "critical" g = Ok (filter high_high detectors)
        /\ written = Some [Dump (JArr (filter high_high detectors))]
        /\ length (filter high_high detectors)
           = count_occ Bool.bool_dec (map high_high detectors) true)
  /\ (forall content : list piece,
        written = Some content ->
        exists detectors,
          detectors_of (report_of d path) = Ok detectors
          /\ content = [Dump (JArr (filter high_high detectors))]
          /\ length (filter high_high detectors)
             = count_occ Bool.bool_dec (map high_high detectors) true).
Proof.
  cbv zeta.
  assert (Hcount : forall l : list json,
             length (filter high_high l)
             = count_occ Bool.bool_dec (map high_high l) true).
  { induction l as [| x rest IH]; simpl; [reflexivity |].
    destruct (high_high x); simpl; [f_equal; exact IH | exact IH]. }
  split.
  - intros detectors Hex Hdet Hrec Hprint.
    pose proof (categorize_findings_tiered _ _ Hdet Hrec) as Hcat.
    exists (tiered detectors). split; [exact Hcat |].
    split; [rewrite <- filter_critical_high_high; reflexivity |].
    split; [| apply Hcount].
    destruct (load_slither_report_run d path fresh) as [w0 [Hload _]].
    destruct (generate_summary_markdown_runs detectors (dirname path) Hprint w0)
      as [[] [w1 Hgen]].
    destruct (main_reaches_exit prog path d detectors w0 w1 Hex Hcat Hload Hgen)
      as [w2 [Hrun [Hfile _]]].
    rewrite Hrun. cbn [snd]. rewrite Hfile, filter_critical_high_high. reflexivity.
  - intros content Hread.
    destruct (path_exists d path) eqn:Hex.
    2:{ destruct (main_missing_report prog path d Hex) as [w [Hrun Hnone]].
        rewrite Hrun in Hread. unfold read_file in Hread. simpl in Hread.
        rewrite Hnone in Hread. discriminate Hread. }
    destruct (categorize_findings (report_of d path)) as [g | e] eqn:Hcat.
    2:{ destruct (main_stops_in_categorize prog path d e Hex Hcat) as [w [Hrun Hnone]].
        rewrite Hrun in Hread. unfold read_file in Hread. simpl in Hread.
        rewrite Hnone in Hread. discriminate Hread. }
    destruct (categorize_findings_returns _ _ Hcat) as [detectors [Hdet [Hrec Hg]]].
    subst g. exists detectors. split; [exact Hdet |]. split; [| apply Hcount].
    destruct (load_slither_report_run d path fresh) as [w0 [Hload Hnone]].
    destruct (generate_summary_markdown (tiered detectors) (dirname path) w0)
      as [o w1] eqn:Hgen.
    destruct (generate_summary_markdown_writes_only _ _ _ _ _ Hgen) as [[_ Hkeep] Hnoexit].
    destruct o as [[] | e | code].
    + destruct (main_reaches_exit prog path d detectors w0 w1 Hex Hcat Hload Hgen)
        as [w2 [Hrun [Hfile _]]].
      rewrite Hrun in Hread. simpl in Hread. rewrite Hfile in Hread.
      rewrite <- filter_critical_high_high. now inversion Hread.
    + rewrite (main_stops_in_summary prog path d _ e w0 w1 Hex Hcat Hload Hgen) in Hread.
      simpl in Hread. rewrite (Hkeep _ (summary_is_not_critical _)) in Hread.
      unfold read_file in Hread. rewrite Hnone in Hread. discriminate Hread.
    + exfalso. exact (Hnoexit code eq_refl).
Qed.


Lemma generate_summary_markdown_empty (dir : string) (w : world) :
  exists w1,
    generate_summary_markdown empty_categories dir w = (Done tt, w1)
    /\ read_file (join dir "slither-summary.md") w1
       = Some [Text ("# 🐍 Slither Security Analysis Summary" ++ LF ++ LF);
               Text ("✅ **No security issues found!**" ++ LF ++ LF);
               Text ("The PayRox Go Beyond contracts passed all Slither security checks."
                     ++ LF)].
Proof.
  unfold generate_summary_markdown.
  remember (join dir "slither-summary.md") as sp.
  unfold bind, open_w, write, read_file. cbn [total_findings empty_categories
    values map snd len length fold_right Z.of_nat Z.add Z.eqb files stdout].
  rewrite !assoc_set_file_same.
  eexists. split; [reflexivity |].
  cbn [files]. rewrite assoc_set_file_same. reflexivity.
Qed.

(** C7: when the report cannot be loaded, or loads as an object with no
    results key, every tier is empty, the summary says that no issue was
    found, critical-issues.json holds the empty array and the status is 0. *)
Theorem unloadable_report_is_no_findings (prog path : string) (d : disk) :
  path_exists d path = true ->
  json_load d path = None
  \/ (exists fields,
        json_load d path = Some (JObj fields) /\ assoc "results" fields = None) ->
  (exists results w0,
      load_slither_report d path fresh = (Done results, w0)
      /\ categorize_findings results = Ok empty_categories)
  /\ fst (run (main [prog; path] d)) = 0
  /\ read_file (join (dirname path) "critical-issues.json")
               (snd (run (main [prog; path] d)))
     = Some [Dump (JArr [])]
  /\ read_file (join (dirname path) "slither-summary.md")
               (snd (run (main [prog; path] d)))
     = Some [Text ("# 🐍 Slither Security Analysis Summary" ++ LF ++ LF);
             Text ("✅ **No security issues found!**" ++ LF ++ LF);
             Text ("The PayRox Go Beyond contracts passed all Slither security checks."
                   ++ LF)].
Proof.
  intros Hex Hbad.
  assert (Hcat : categorize_findings (report_of d path) = Ok (tiered [])).
  { unfold report_of.
    destruct Hbad as [Hnone | [fields [Hsome Hkey]]].
    - rewrite Hnone. reflexivity.
    - rewrite Hsome. unfold categorize_findings. simpl. rewrite Hkey. reflexivity. }
  destruct (load_slither_report_run d path fresh) as [w0 [Hload _]].
  destruct (generate_summary_markdown_empty (dirname path) w0) as [w1 [Hgen Hsummary]].
  destruct (main_reaches_exit prog path d [] w0 w1 Hex Hcat Hload Hgen)
    as [w2 [Hrun [Hfile Hrest]]].
  rewrite Hrun. simpl. repeat split.
  - exists (report_of d path), w0. split; [exact Hload | exact Hcat].
  - exact Hfile.
  - rewrite Hrest; [exact Hsummary |].
    intros H. exact (summary_is_not_critical _ (eq_sym H)).
Qed.

(** C4, at a report of a run that found nothing, whose results object is
    empty: [categorize_findings] raises KeyError, nothing is written, and the
    status is 1 although no detector is high/high. *)
Theorem main_fails_on_results_without_detectors :
  categorize_findings clean_report = Raise (KeyError (JStr "detectors"))
  /\ run (main ["process-slither.py"; "reports/slither-report.json"] clean_disk)
     = (1, fresh).
Proof. split; reflexivity. Qed.

End SlitherMain.

(** ** The symbolic-execution processor *)

Section MythrilGroups.
Import Severities Mythril.

Lemma severity_of_label (issue : json) :
  severity_of issue = "High" \/ severity_of issue = "Medium"
  \/ severity_of issue = "Low".
Proof.
  unfold severity_of, known, labels.
  destruct issue as [| | | | | | fields]; auto.
  destruct (assoc "severity" fields) as [[| | | | s | |] |]; auto.
  simpl. destruct (String.eqb_spec s "High"); simpl; auto.
  destruct (String.eqb_spec s "Medium"); simpl; auto.
  destruct (String.eqb_spec s "Low"); simpl; auto.
Qed.

Lemma has_key_known (s : string) (h m l : list json) :
  has_key s (shape3 h m l) = known s.
Proof.
  unfold has_key, shape3, known, labels. cbn [assoc existsb].
  rewrite (String.eqb_sym "High" s), (String.eqb_sym "Medium" s),
    (String.eqb_sym "Low" s).
  destruct (s =? "High"), (s =? "Medium"), (s =? "Low"); reflexivity.
Qed.

Lemma categorize_issue_group (issue : json) (h m l : list json) :
  is_issue issue = true ->
  categorize_issue (shape3 h m l) issue
  = append_to (severity_of issue) issue (shape3 h m l).
Proof.
  intros Hi. destruct issue as [| | | | | | fields]; try discriminate Hi.
  unfold is_issue in Hi. unfold categorize_issue, severity_of, dict_get.
  destruct (assoc "severity" fields) as [v |]; [| reflexivity].
  destruct v as [| b | z | r | s | items | obj];
    try discriminate Hi; try reflexivity.
  cbn [rbind key_in hashable]. rewrite has_key_known.
  destruct (known s); reflexivity.
Qed.

Lemma categorize_issue_ok (g g' : groups) (issue : json) :
  categorize_issue g issue = Ok g' -> is_issue issue = true.
Proof.
  unfold categorize_issue, is_issue, dict_get, key_in.
  destruct issue as [| | | | | | fields]; simpl; try discriminate.
  destruct (assoc "severity" fields) as [v |]; [| reflexivity].
  destruct v; simpl; try discriminate; reflexivity.
Qed.

Lemma append_to_group (issue : json) (h m l : list json) :
  append_to (severity_of issue) issue (shape3 h m l)
  = Ok (shape3 (h ++ filter (in_group "High") [issue])
               (m ++ filter (in_group "Medium") [issue])
               (l ++ filter (in_group "Low") [issue]))%list.
Proof.
  unfold in_group. simpl.
  destruct (severity_of_label issue) as [E | [E | E]]; rewrite E; simpl;
    rewrite ?app_nil_r; reflexivity.
Qed.

Lemma categorize_issues_loop (issues : list json) :
  forall h m l,
    forallb is_issue issues = true ->
    for_each categorize_issue issues (shape3 h m l)
    = Ok (shape3 (h ++ filter (in_group "High") issues)
                 (m ++ filter (in_group "Medium") issues)
                 (l ++ filter (in_group "Low") issues))%list.
Proof.
  induction issues as [| issue rest IH]; intros h m l Hall.
  - simpl. rewrite !app_nil_r. reflexivity.
  - simpl in Hall. apply andb_prop in Hall. destruct Hall as [Hi Hrest].
    cbn [for_each]. rewrite (categorize_issue_group _ _ _ _ Hi), append_to_group.
    cbn [rbind]. rewrite (IH _ _ _ Hrest), <- !app_assoc.
    change (issue :: rest) with ([issue] ++ rest)%list.
    rewrite !filter_app. reflexivity.
Qed.

Lemma categorize_issues_ok (issues : list json) :
  forall g g',
    for_each categorize_issue issues g = Ok g' ->
    forallb is_issue issues = true.
Proof.
  induction issues as [| issue rest IH]; intros g g' H; simpl in *.
  - reflexivity.
  - apply rbind_ok in H. destruct H as [g1 [Hi Hrest]].
    rewrite (categorize_issue_ok _ _ _ Hi). simpl. exact (IH _ _ Hrest).
Qed.

Lemma categorize_mythril_findings_grouped (issues : list json) :
  forallb is_issue issues = true ->
  categorize_mythril_findings issues
  = Ok (shape3 (filter (in_group "High") issues)
               (filter (in_group "Medium") issues)
               (filter (in_group "Low") issues)).
Proof.
  intros Hall. exact (categorize_issues_loop issues [] [] [] Hall).
Qed.

(** Three tests of which each item passes exactly one split a list. *)
Lemma three_way_split {A : Type} (p q r : A -> bool) (xs : list A) :
  (forall x, (p x = true /\ q x = false /\ r x = false)
             \/ (p x = false /\ q x = true /\ r x = false)
             \/ (p x = false /\ q x = false /\ r x = true)) ->
  Permutation (filter p xs ++ filter q xs ++ filter r xs) xs.
Proof.
  intros Hone. induction xs as [| x rest IH]; simpl.
  - constructor.
  - destruct (Hone x) as [[Hp [Hq Hr]] | [[Hp [Hq Hr]] | [Hp [Hq Hr]]]];
      rewrite Hp, Hq, Hr; simpl.
    + constructor. exact IH.
    + apply Permutation_sym, Permutation_cons_app, Permutation_sym. exact IH.
    + apply Permutation_sym.
      rewrite app_assoc. apply Permutation_cons_app.
      rewrite <- app_assoc. apply Permutation_sym. exact IH.
Qed.

Lemma one_group (issue : json) :
  (in_group "High" issue = true /\ in_group "Medium" issue = false
   /\ in_group "Low" issue = false)
  \/ (in_group "High" issue = false /\ in_group "Medium" issue = true
      /\ in_group "Low" issue = false)
  \/ (in_group "High" issue = false /\ in_group "Medium" issue = false
      /\ in_group "Low" issue = true).
Proof.
  unfold in_group.
  destruct (severity_of_label issue) as [E | [E | E]]; rewrite E; simpl; tauto.
Qed.


End MythrilGroups.

Section MythrilSummary.
Import Severities Mythril Frames Os.

Lemma summary_record_of_object (severity : string) (fields : list (string * json)) :
  exists record,
    summary_record severity (JObj fields) = Ok record
    /\ severity_field record = Some severity.
Proof.
  unfold summary_record, dict_get.
  destruct (assoc "title" fields), (assoc "description" fields),
    (assoc "filename" fields), (assoc "function" fields),
    (assoc "swc-id" fields); eexists; split; reflexivity.
Qed.

Lemma record_of_issue (severity : string) (issue : json) :
  is_issue issue = true ->
  summary_record severity issue = Ok (record_of severity issue)
  /\ severity_field (record_of severity issue) = Some severity.
Proof.
  intros Hi. destruct issue as [| | | | | | fields]; try discriminate Hi.
  destruct (summary_record_of_object severity fields) as [record [Hr Hs]].
  unfold record_of. rewrite Hr. split; [reflexivity | exact Hs].
Qed.

Lemma records_loop (severity : string) (issues : list json) :
  forall acc,
    forallb is_issue issues = true ->
    for_each (fun acc issue =>
                rbind (summary_record severity issue)
                      (fun record => Ok (acc ++ [record])%list))
             issues acc
    = Ok (acc ++ map (record_of severity) issues)%list.
Proof.
  induction issues as [| issue rest IH]; intros acc Hall; simpl.
  - rewrite app_nil_r. reflexivity.
  - simpl in Hall. apply andb_prop in Hall. destruct Hall as [Hi Hrest].
    destruct (record_of_issue severity issue Hi) as [Hr _].
    rewrite Hr. simpl. rewrite (IH _ Hrest), <- app_assoc. reflexivity.
Qed.

Lemma all_issues_of_groups (h m l : list json) :
  forallb is_issue h = true -> forallb is_issue m = true ->
  forallb is_issue l = true ->
  all_issues_of (shape3 h m l) []
  = Ok (map (record_of "High") h ++ map (record_of "Medium") m
        ++ map (record_of "Low") l)%list.
Proof.
  intros Hh Hm Hl. unfold shape3. cbn [all_issues_of].
  rewrite (records_loop "High" h [] Hh). cbn [rbind app].
  rewrite (records_loop "Medium" m _ Hm). cbn [rbind].
  rewrite (records_loop "Low" l _ Hl). cbn [rbind].
  rewrite <- app_assoc. reflexivity.
Qed.

Lemma forallb_filter {A : Type} (p q : A -> bool) (xs : list A) :
  forallb p xs = true -> forallb p (filter q xs) = true.
Proof.
  rewrite !forallb_forall. intros H x Hx. apply filter_In in Hx. apply H, Hx.
Qed.

Lemma write_markdown_writes_only (g : groups) (all_issues : list json)
  (path : string) :
  writes_only path (write_markdown g all_issues path).
Proof.
  unfold write_markdown, write_severity. frame.
Qed.

Lemma markdown_is_not_json (dir : string) :
  join dir "mythril-summary.json" <> join dir "mythril-summary.md".
Proof. intros H. apply join_injective in H. discriminate H. Qed.

(** The JSON summary is on disk once its [with] block is over, whatever
    happens to the Markdown one. *)
Lemma generate_mythril_summary_json (g : groups) (records : list json)
  (dir : string) (w : world) :
  all_issues_of g [] = Ok records ->
  read_file (join dir "mythril-summary.json")
            (snd (generate_mythril_summary g dir w))
  = Some [Dump (JArr records)].
Proof.
  intros Hrec. unfold generate_mythril_summary. rewrite Hrec.
  remember (join dir "mythril-summary.json") as sp.
  unfold bind at 1 2 3. unfold lift, open_w, write at 1.
  match goal with
  | |- context [write_markdown ?a ?b ?c ?w1] =>
      destruct (write_markdown a b c w1) as [o w2] eqn:Hmd
  end.
  destruct (write_markdown_writes_only _ _ _ _ _ _ Hmd) as [[_ Hkeep] _].
  assert (Hsame : read_file sp w2 = Some [Dump (JArr records)]).
  { rewrite Hkeep by (subst sp; apply markdown_is_not_json).
    unfold read_file. cbn [files]. rewrite !assoc_set_file_same. reflexivity. }
  destruct o; exact Hsame.
Qed.

(** C10: the three groups split the issue list (together they are a
    rearrangement of it and every issue passes the test of exactly one
    group), and mythril-summary.json gets one record per issue, each with
    a severity among High, Medium and Low. *)
Theorem mythril_groups_partition (issues : list json) :
  forallb is_issue issues = true ->
  let h := filter (in_group "High") issues in
  let m := filter (in_group "Medium") issues in
  let l := filter (in_group "Low") issues in
  categorize_mythril_findings issues = Ok [("High", h); ("Medium", m); ("Low", l)]
  /\ Permutation (h ++ m ++ l) issues
  /\ (forall issue,
        exists s, In s labels /\ in_group s issue = true
                  /\ forall s', in_group s' issue = true -> s' = s)
  /\ exists records,
       all_issues_of [("High", h); ("Medium", m); ("Low", l)] [] = Ok records
       /\ (forall dir w,
             read_file (join dir "mythril-summary.json")
                       (snd (generate_mythril_summary
                               [("High", h); ("Medium", m); ("Low", l)] dir w))
             = Some [Dump (JArr records)])
       /\ length records = length issues
       /\ forall record, In record records ->
            exists s, In s labels /\ severity_field record = Some s.
Proof.
  intros Hall h m l.
  assert (Hperm : Permutation (h ++ m ++ l) issues)
    by (apply three_way_split; exact one_group).
  assert (Hrec := all_issues_of_groups h m l
                    (forallb_filter _ _ _ Hall) (forallb_filter _ _ _ Hall)
                    (forallb_filter _ _ _ Hall)).
  split; [exact (categorize_mythril_findings_grouped issues Hall) |].
  split; [exact Hperm |]. split.
  - intros issue. exists (severity_of issue). split; [| split].
    + unfold labels. destruct (severity_of_label issue) as [E | [E | E]];
        rewrite E; simpl; auto.
    + unfold in_group. apply String.eqb_refl.
    + unfold in_group. intros s' H. apply String.eqb_eq in H. congruence.
  - eexists. split; [exact Hrec |]. split; [| split].
    + intros dir w. apply generate_mythril_summary_json. exact Hrec.
    + rewrite !length_app, !length_map, <- !length_app.
      exact (Permutation_length Hperm).
    + intros record Hin.
      assert (Hone : forall s xs, forallb is_issue xs = true ->
                 In record (map (record_of s) xs) -> severity_field record = Some s).
      { intros s xs Hxs Hr. apply in_map_iff in Hr. destruct Hr as [x [Ex Hx]].
        rewrite forallb_forall in Hxs. subst record.
        apply record_of_issue, Hxs, Hx. }
      apply in_app_or in Hin. destruct Hin as [Hin | Hin].
      { exists "High". split; [simpl; auto |].
        exact (Hone _ _ (forallb_filter _ _ _ Hall) Hin). }
      apply in_app_or in Hin. destruct Hin as [Hin | Hin].
      { exists "Medium". split; [simpl; auto |].
        exact (Hone _ _ (forallb_filter _ _ _ Hall) Hin). }
      exists "Low". split; [simpl; auto |].
      exact (Hone _ _ (forallb_filter _ _ _ Hall) Hin).
Qed.

End MythrilSummary.

Section MythrilRun.
Import Severities Mythril Frames Os.

Lemma load_each_run (d : disk) (paths : list string) :
  forall reports w,
    exists w',
      load_each d paths reports w = (Done (reports ++ issues_in d paths)%list, w')
      /\ files w' = files w.
Proof.
  induction paths as [| p rest IH]; intros reports w; simpl.
  - exists w. rewrite app_nil_r. split; reflexivity.
  - destruct (json_load d p) as [data |].
    + destruct (issues_of_report data) as [more | e].
      * destruct (IH (reports ++ more)%list w) as [w' [Hrun Hfiles]].
        exists w'. rewrite Hrun, <- app_assoc. split; [reflexivity | exact Hfiles].
      * unfold bind, print.
        match goal with
        | |- context [load_each d rest reports ?w1] =>
            destruct (IH reports w1) as [w' [Hrun Hfiles]]
        end.
        exists w'. rewrite Hrun. split; [reflexivity | exact Hfiles].
    + unfold bind, print.
      match goal with
      | |- context [load_each d rest reports ?w1] =>
          destruct (IH reports w1) as [w' [Hrun Hfiles]]
      end.
      exists w'. rewrite Hrun. split; [reflexivity | exact Hfiles].
Qed.

Lemma finding_is_issue (issue : json) : is_finding issue = true -> is_issue issue = true.
Proof. unfold is_finding. intros H. apply andb_prop in H. tauto. Qed.

Lemma findings_are_issues (issues : list json) :
  forallb is_finding issues = true -> forallb is_issue issues = true.
Proof.
  rewrite !forallb_forall. intros H x Hx. apply finding_is_issue, H, Hx.
Qed.

Lemma in_firstn {A : Type} (n : nat) (xs : list A) (x : A) :
  In x (firstn n xs) -> In x xs.
Proof.
  revert xs. induction n as [| n IH]; intros [| y rest]; simpl; try tauto.
  intros [E | H]; [left; exact E | right; exact (IH _ H)].
Qed.

Lemma dict_get_object (fields : list (string * json)) (key : string) (default : json) :
  dict_get (JObj fields) key default
  = Ok (match assoc key fields with Some v => v | None => default end).
Proof. unfold dict_get. destruct (assoc key fields); reflexivity. Qed.

Lemma runs_write_severity (path : string) (g : groups) (severity : string) :
  In severity labels ->
  forallb is_finding (group_or_empty severity g) = true ->
  runs (write_severity path g severity).
Proof.
  intros Hs Hall. unfold write_severity. apply runs_if; [| apply runs_ret].
  assert (Hicon : exists i, icon severity = Ok i).
  { unfold labels in Hs. simpl in Hs.
    destruct Hs as [E | [E | [E | []]]]; subst severity; eexists; reflexivity. }
  destruct Hicon as [i Hicon].
  apply (runs_lift _ i); [exact Hicon |].
  apply runs_bind; [apply runs_write | intros _].
  apply runs_bind.
  { apply runs_each. intros x Hx. apply in_firstn in Hx.
    rewrite forallb_forall in Hall. specialize (Hall x Hx).
    unfold is_finding in Hall. apply andb_prop in Hall. destruct Hall as [_ Hf].
    destruct x as [| | | | | | fields]; try discriminate Hf.
    unfold Tiers.str_or_absent in Hf.
    eapply runs_lift; [apply dict_get_object |].
    eapply runs_lift; [apply dict_get_object |].
    destruct (assoc "filename" fields) as [[| | | | name | |] |];
      try discriminate Hf;
      (eapply runs_lift; [reflexivity |]);
      apply runs_write. }
  intros _. apply runs_bind; [| intros _; apply runs_write].
  apply runs_if; [apply runs_write | apply runs_ret].
Qed.

Lemma write_markdown_runs (h m l all_issues : list json) (path : string) :
  forallb is_finding h = true -> forallb is_finding m = true ->
  forallb is_finding l = true ->
  runs (write_markdown (shape3 h m l) all_issues path).
Proof.
  intros Hh Hm Hl. unfold write_markdown.
  apply runs_bind; [apply runs_open_w | intros _].
  apply runs_bind; [apply runs_write | intros _].
  apply runs_if.
  { apply runs_bind; [apply runs_write | intros _]. apply runs_write. }
  apply runs_bind; [apply runs_write | intros _].
  apply runs_bind.
  { apply runs_each. intros s Hs.
    apply runs_write_severity; [exact Hs |].
    simpl in Hs. destruct Hs as [E | [E | [E | []]]]; subst s; assumption. }
  intros _.
  repeat (apply runs_bind; [apply runs_write | intros _]).
  apply runs_write.
Qed.

Lemma generate_mythril_summary_runs (issues : list json) (dir : string) :
  forallb is_finding issues = true ->
  runs (generate_mythril_summary
          (shape3 (filter (in_group "High") issues)
                  (filter (in_group "Medium") issues)
                  (filter (in_group "Low") issues)) dir).
Proof.
  intros Hall. unfold generate_mythril_summary.
  pose proof (findings_are_issues _ Hall) as Hissues.
  eapply runs_lift.
  { apply all_issues_of_groups; apply forallb_filter; exact Hissues. }
  apply runs_bind; [apply runs_open_w | intros _].
  apply runs_bind; [apply runs_write | intros _].
  apply write_markdown_runs; apply forallb_filter; exact Hall.
Qed.

(** C8: on an existing directory whose reports hold finding records, the
    run ends with status 0 however many findings there are and whatever
    their severities; the High ones only change the last line printed. *)
Theorem mythril_main_never_fails (prog dir : string) (d : disk) :
  path_exists d dir = true ->
  let issues := issues_in d (glob d (join dir "mythril-*.json")) in
  forallb is_finding issues = true ->
  let high := filter (in_group "High") issues in
  fst (run (main [prog; dir] d)) = 0
  /\ last (stdout (snd (run (main [prog; dir] d)))) []
     = if truthy high then
         [Text "⚠️ "; Int (len high);
          Text " high-severity findings require manual review"]
       else [Text "✅ No high-severity vulnerabilities found"].
Proof.
  intros Hex issues Hall high.
  assert (Hrun : exists w,
             run (main [prog; dir] d) = (0, w)
             /\ last (stdout w) []
                = if truthy high then
                    [Text "⚠️ "; Int (len high);
                     Text " high-severity findings require manual review"]
                  else [Text "✅ No high-severity vulnerabilities found"]).
  { unfold run, main. cbn [length Nat.eqb negb nth]. rewrite Hex. cbn [negb].
    unfold bind at 1. unfold load_mythril_reports.
    destruct (load_each_run d (glob d (join dir "mythril-*.json")) [] fresh)
      as [w0 [Hload _]].
    rewrite Hload. cbn [app]. fold issues.
    unfold bind at 1. unfold lift at 1.
    rewrite (categorize_mythril_findings_grouped issues (findings_are_issues _ Hall)).
    unfold bind at 1.
    destruct (generate_mythril_summary_runs issues dir Hall w0) as [[] [w1 Hgen]].
    rewrite Hgen.
    unfold bind, print.
    cbn [shape3 group_or_empty assoc String.eqb Ascii.eqb Bool.eqb].
    fold high. destruct high as [| x rest]; cbn;
      (eexists; split; [reflexivity |]); cbn [stdout];
      rewrite last_last; reflexivity. }
  destruct Hrun as [w [Hrun Hlast]]. rewrite Hrun. split; [reflexivity | exact Hlast].
Qed.

End MythrilRun.

(** ** The summary aggregator *)

Section SummaryScore.
Import Summary.
Local Open Scope Z_scope.

Ltac split_score :=
  unfold calculate_security_score;
  repeat (match goal with
          | |- context [Z.gtb ?a ?b] =>
              let E := fresh "E" in
              destruct (Z.gtb a b) eqn:E;
              [ apply Z.gtb_lt in E
              | rewrite Z.gtb_ltb in E; apply Z.ltb_ge in E ]
          | |- context [Z.geb ?a ?b] =>
              let E := fresh "E" in
              destruct (Z.geb a b) eqn:E;
              [ apply Z.geb_le in E
              | rewrite Z.geb_leb in E; apply Z.leb_gt in E ]
          end;
          cbn [score status color issues]).

(** The score for any counts: a count that is not positive deducts nothing. *)
Lemma score_value (s : slither_data) (m : mythril_data) :
  score (calculate_security_score s m)
  = Z.max 0 (100 - 25 * Z.max 0 (critical_issues s)
                 - 15 * Z.max 0 (high_severity m)
                 - 5 * Z.max 0 (medium_severity m)).
Proof. split_score; lia. Qed.

(** C2: for counts that are not negative the score is
    max(0, 100 - 25 c - 15 h - 5 m); it does not grow when a count grows,
    and it is 100 when the three counts are 0. *)
Theorem score_formula (s s' : slither_data) (m m' : mythril_data) :
  0 <= critical_issues s -> 0 <= high_severity m -> 0 <= medium_severity m ->
  score (calculate_security_score s m)
  = Z.max 0 (100 - 25 * critical_issues s - 15 * high_severity m
                 - 5 * medium_severity m)
  /\ (critical_issues s <= critical_issues s' ->
      high_severity m <= high_severity m' ->
      medium_severity m <= medium_severity m' ->
      score (calculate_security_score s' m') <= score (calculate_security_score s m))
  /\ (critical_issues s = 0 -> high_severity m = 0 -> medium_severity m = 0 ->
      score (calculate_security_score s m) = 100).
Proof.
  intros Hc Hh Hm. rewrite !score_value. repeat split; intros; lia.
Qed.

(** C3: the status is EXCELLENT from 95 up, GOOD from 85 to 94, FAIR from
    70 to 84 and NEEDS_ATTENTION below 70, for a score that is always
    between 0 and 100; one critical issue alone gives 75 and FAIR, two high
    and three medium symbolic-execution issues give 55 and NEEDS_ATTENTION. *)
Theorem status_bands (s : slither_data) (m : mythril_data) :
  let r := calculate_security_score s m in
  0 <= score r <= 100
  /\ (95 <= score r -> status r = "EXCELLENT")
  /\ (85 <= score r < 95 -> status r = "GOOD")
  /\ (70 <= score r < 85 -> status r = "FAIR")
  /\ (score r < 70 -> status r = "NEEDS_ATTENTION")
  /\ (critical_issues s = 1 -> high_severity m = 0 -> medium_severity m = 0 ->
      score r = 75 /\ status r = "FAIR")
  /\ (critical_issues s = 0 -> high_severity m = 2 -> medium_severity m = 3 ->
      score r = 55 /\ status r = "NEEDS_ATTENTION").
Proof.
  intros r. subst r. split_score; repeat split; intros; try reflexivity; lia.
Qed.

End SummaryScore.

(** ** The theorems at sample inputs *)

Section SampleRuns.
Import Samples Tiers Severities Frames Os.
Local Open Scope Z_scope.

Lemma categorize_findings_first_match_witness :
  detectors_of sample_report = Ok sample_detectors
  /\ forallb is_detector sample_detectors = true
  /\ Slither.categorize_findings sample_report
     = Ok (shape [detector "reentrancy-eth" "High" "High";
                  detector "arbitrary-send" "HIGH" "high"]
                 [detector "unchecked-transfer" "High" "Medium"]
                 [] []
                 [detector "naming-convention" "Informational" "High";
                  JObj [("check", JStr "solc-version")]]).
Proof.
  split; [reflexivity |]. split; [reflexivity |].
  exact (proj1 (proj2 (categorize_findings_first_match
                         sample_report sample_detectors eq_refl eq_refl))).
Defined.

Lemma categorize_findings_needs_detectors_witness :
  assoc "results" [("success", JBool true); ("error", JNull); ("results", JObj [])]
  = Some (JObj [])
  /\ Slither.categorize_findings clean_report = Raise (KeyError (JStr "detectors")).
Proof.
  split; [reflexivity |].
  exact (proj1 (categorize_findings_needs_detectors
                  [("success", JBool true); ("error", JNull); ("results", JObj [])]
                  [] eq_refl) eq_refl).
Defined.

Lemma critical_issues_json_content_witness :
  path_exists sample_disk "reports/slither-report.json" = true
  /\ detectors_of (report_of sample_disk "reports/slither-report.json")
     = Ok sample_detectors
  /\ forallb is_detector sample_detectors = true
  /\ forallb printable sample_detectors = true
  /\ exists g,
       Slither.categorize_findings (report_of sample_disk "reports/slither-report.json") = Ok g
       /\ group "critical" g = Ok (filter high_high sample_detectors)
       /\ read_file (join (dirname "reports/slither-report.json") "critical-issues.json")
                    (snd (run (Slither.main
                                 ["process-slither.py"; "reports/slither-report.json"]
                                 sample_disk)))
          = Some [Dump (JArr (filter high_high sample_detectors))]
       /\ length (filter high_high sample_detectors)
          = count_occ Bool.bool_dec (map high_high sample_detectors) true.
Proof.
  repeat (split; [reflexivity |]).
  exact (proj1 (critical_issues_json_content
                  "process-slither.py" "reports/slither-report.json" sample_disk)
               sample_detectors eq_refl eq_refl eq_refl eq_refl).
Defined.

Lemma unloadable_report_is_no_findings_witness :
  path_exists broken_disk "reports/slither-report.json" = true
  /\ json_load broken_disk "reports/slither-report.json" = None
  /\ fst (run (Slither.main ["process-slither.py"; "reports/slither-report.json"]
                            broken_disk)) = 0
  /\ read_file "reports/critical-issues.json"
               (snd (run (Slither.main
                            ["process-slither.py"; "reports/slither-report.json"]
                            broken_disk)))
     = Some [Dump (JArr [])].
Proof.
  split; [reflexivity |]. split; [reflexivity |].
  pose proof (unloadable_report_is_no_findings
                "process-slither.py" "reports/slither-report.json" broken_disk
                eq_refl (or_introl eq_refl)) as [_ [Hstatus [Hfile _]]].
  split; [exact Hstatus | exact Hfile].
Defined.


Lemma mythril_groups_partition_witness :
  forallb is_issue sample_issues = true
  /\ Mythril.categorize_mythril_findings sample_issues
     = Ok [("High", [issue "Integer overflow" "High"]);
           ("Medium", [issue "Timestamp" "Medium"]);
           ("Low", [issue "Delegatecall" "Critical";
                    JObj [("title", JStr "Unlabelled")]])].
Proof.
  split; [reflexivity |].
  exact (proj1 (mythril_groups_partition sample_issues eq_refl)).
Defined.

Lemma mythril_main_never_fails_witness :
  path_exists mythril_disk "reports" = true
  /\ issues_in mythril_disk (glob mythril_disk (join "reports" "mythril-*.json"))
     = sample_issues
  /\ forallb is_finding sample_issues = true
  /\ fst (run (Mythril.main ["process-mythril.py"; "reports"] mythril_disk)) = 0.
Proof.
  split; [reflexivity |]. split; [reflexivity |]. split; [reflexivity |].
  exact (proj1 (mythril_main_never_fails
                  "process-mythril.py" "reports" mythril_disk eq_refl eq_refl)).
Defined.

Lemma score_formula_witness :
  0 <= 2 /\ 0 <= 1 /\ 0 <= 3
  /\ Summary.score (Summary.calculate_security_score
                      (slither_counts 2) (mythril_counts 1 3))
     = Z.max 0 (100 - 25 * 2 - 15 * 1 - 5 * 3).
Proof.
  split; [lia |]. split; [lia |]. split; [lia |].
  exact (proj1 (score_formula (slither_counts 2) (slither_counts 2)
                  (mythril_counts 1 3) (mythril_counts 1 3)
                  ltac:(simpl; lia) ltac:(simpl; lia) ltac:(simpl; lia))).
Defined.

Lemma status_bands_witness :
  Summary.score (Summary.calculate_security_score
                   (slither_counts 1) (mythril_counts 0 0)) = 75
  /\ Summary.status (Summary.calculate_security_score
                       (slither_counts 1) (mythril_counts 0 0)) = "FAIR".
Proof.
  exact (proj1 (proj2 (proj2 (proj2 (proj2 (proj2
           (status_bands (slither_counts 1) (mythril_counts 0 0)))))))
           eq_refl eq_refl eq_refl).
Defined.

(** Outside the records the theorems above are about, a step raises and
    the interpreter ends the run with status 1. *)

Example high_finding_without_check_stops_the_summary :
  run (Slither.main ["process-slither.py"; "reports/slither-report.json"]
         (disk_with "reports/slither-report.json"
            (Some (JObj [("results",
                          JObj [("detectors",
                                 JArr [JObj [("impact", JStr "High");
                                             ("confidence", JStr "Medium")]])])]))))
  = (1, {| files := [("reports/slither-summary.md",
                      [Text ("# 🐍 Slither Security Analysis Summary" ++ LF ++ LF);
                       Text "📊 **Total Findings**: "; Int 1; Text (LF ++ LF);
                       Text "⚠️ **High Severity**: "; Int 1; Text LF])];
           stdout := [] |}).
Proof. reflexivity. Qed.

Example report_that_is_null_raises :
  Slither.categorize_findings JNull = Raise TypeError.
Proof. reflexivity. Qed.

Example detector_with_null_impact_raises :
  Slither.categorize_findings
    (JObj [("results",
            JObj [("detectors", JArr [JObj [("impact", JNull)]])])])
  = Raise AttributeError.
Proof. reflexivity. Qed.

Example issue_with_list_severity_raises :
  Mythril.categorize_mythril_findings [JObj [("severity", JArr [JStr "High"])]]
  = Raise TypeError.
Proof. reflexivity. Qed.

Example issue_that_is_no_object_raises :
  Mythril.categorize_mythril_findings [JStr "High"] = Raise AttributeError.
Proof. reflexivity. Qed.

End SampleRuns.

(** * Further properties *)

(** ** Steps that return, and what they append *)

Section StepFacts.
Import Frames More.

Lemma bind_done {A B : Type} (m : proc A) (k : A -> proc B) (w w' : world) (b : B) :
  bind m k w = (Done b, w') ->
  exists a w1, m w = (Done a, w1) /\ k a w1 = (Done b, w').
Proof.
  unfold bind. destruct (m w) as [[a | e | c] w1]; intros H; try discriminate H.
  exists a, w1. split; [reflexivity | exact H].
Qed.

Lemma lift_done {A : Type} (r : res A) (w w' : world) (a : A) :
  lift r w = (Done a, w') -> r = Ok a /\ w' = w.
Proof.
  unfold lift. destruct r; intros H; inversion H. split; reflexivity.
Qed.

Lemma each_done {A : Type} (body : A -> proc unit) (xs : list A) :
  forall w w',
    each body xs w = (Done tt, w') ->
    forall x, In x xs -> exists w1 w2, body x w1 = (Done tt, w2).
Proof.
  induction xs as [| y rest IH]; intros w w' H x Hx; simpl in *.
  - contradiction.
  - apply bind_done in H. destruct H as [[] [w1 [Hy Hrest]]].
    destruct Hx as [E | Hx].
    + subst y. exists w, w1. exact Hy.
    + exact (IH _ _ Hrest x Hx).
Qed.

Lemma appends_ret (path : string) : appends path [] (ret tt).
Proof.
  intros w c Hc. exists w. rewrite app_nil_r.
  split; [reflexivity |]. split; [exact Hc | apply keeps_refl].
Qed.

Lemma appends_write (path : string) (ps : list piece) :
  appends path ps (write path ps).
Proof.
  intros w c Hc. eexists. split; [reflexivity |]. split.
  - unfold read_file at 1. cbn [files]. rewrite Hc. apply assoc_set_file_same.
  - split; [reflexivity |]. intros q Hq. unfold read_file at 1. cbn [files].
    apply assoc_set_file_other. exact Hq.
Qed.

Lemma appends_bind (path : string) (ps qs : list piece) (m : proc unit)
  (k : unit -> proc unit) :
  appends path ps m -> appends path qs (k tt) ->
  appends path (ps ++ qs) (bind m k).
Proof.
  intros Hm Hk w c Hc.
  destruct (Hm w c Hc) as [w1 [Em [Hc1 K1]]].
  destruct (Hk w1 _ Hc1) as [w2 [Ek [Hc2 K2]]].
  exists w2. unfold bind. rewrite Em. split; [exact Ek |].
  rewrite app_assoc. split; [exact Hc2 | exact (keeps_trans _ _ _ _ K1 K2)].
Qed.

Lemma appends_lift {A : Type} (path : string) (ps : list piece) (r : res A)
  (a : A) (k : A -> proc unit) :
  r = Ok a -> appends path ps (k a) -> appends path ps (bind (lift r) k).
Proof. intros Hr Hk w c Hc. subst r. exact (Hk w c Hc). Qed.

Lemma appends_each {A : Type} (path : string) (line : A -> list piece)
  (body : A -> proc unit) (xs : list A) :
  (forall x, In x xs -> appends path (line x) (body x)) ->
  appends path (flat_map line xs) (each body xs).
Proof.
  induction xs as [| x rest IH]; intros Hb; simpl.
  - apply appends_ret.
  - apply appends_bind.
    + apply Hb. left. reflexivity.
    + apply IH. intros y Hy. apply Hb. right. exact Hy.
Qed.

Lemma appends_eq (path : string) (ps qs : list piece) (p : proc unit) :
  ps = qs -> appends path ps p -> appends path qs p.
Proof. intros E H. subst qs. exact H. Qed.

(** What a block leaves in a file it has just opened. *)
Lemma open_then_appends (path : string) (ps : list piece) (p : proc unit) (w : world) :
  appends path ps p ->
  exists w',
    bind (open_w path) (fun _ => p) w = (Done tt, w')
    /\ read_file path w' = Some ps
    /\ keeps path w w'.
Proof.
  intros Hp. unfold bind, open_w.
  match goal with
  | |- context [p ?w1] =>
      assert (Hopen : read_file path w1 = Some []) by
        (unfold read_file; cbn [files]; apply assoc_set_file_same);
      destruct (Hp w1 [] Hopen) as [w' [Ep [Hc [Hs Hf]]]]
  end.
  exists w'. rewrite Ep. split; [reflexivity |]. split; [exact Hc |].
  split; [exact Hs |]. intros q Hq. rewrite (Hf q Hq).
  unfold read_file. cbn [files]. apply assoc_set_file_other. exact Hq.
Qed.

Lemma extends_refl (path : string) (w : world) (c : list piece) :
  read_file path w = Some c -> exists more, read_file path w = Some (c ++ more)%list.
Proof. intros H. exists []. rewrite app_nil_r. exact H. Qed.

Lemma extends_ret {A : Type} (path : string) (a : A) : extends path (ret a).
Proof. intros w o w' c H Hc. inversion H; subst. exact (extends_refl _ _ _ Hc). Qed.

Lemma extends_lift {A : Type} (path : string) (r : res A) : extends path (lift r).
Proof.
  intros w o w' c H Hc. unfold lift in H.
  destruct r; inversion H; subst; exact (extends_refl _ _ _ Hc).
Qed.

Lemma extends_write (path : string) (ps : list piece) : extends path (write path ps).
Proof.
  intros w o w' c H Hc. inversion H; subst. exists ps.
  unfold read_file at 1. cbn [files]. rewrite Hc. apply assoc_set_file_same.
Qed.

Lemma extends_bind {A B : Type} (path : string) (m : proc A) (k : A -> proc B) :
  extends path m -> (forall a, extends path (k a)) -> extends path (bind m k).
Proof.
  intros Hm Hk w o w' c H Hc. unfold bind in H.
  destruct (m w) as [[a | e | code] w1] eqn:Em.
  - destruct (Hm _ _ _ _ Em Hc) as [more1 H1].
    destruct (Hk a _ _ _ _ H H1) as [more2 H2].
    exists (more1 ++ more2)%list. rewrite app_assoc. exact H2.
  - inversion H; subst. exact (Hm _ _ _ _ Em Hc).
  - inversion H; subst. exact (Hm _ _ _ _ Em Hc).
Qed.

Lemma extends_each {A : Type} (path : string) (body : A -> proc unit) xs :
  (forall x, extends path (body x)) -> extends path (each body xs).
Proof.
  intros Hb. induction xs as [| x rest IH]; simpl.
  - apply extends_ret.
  - apply extends_bind; [apply Hb | intros _; exact IH].
Qed.

Lemma extends_if {A : Type} (path : string) (b : bool) (p q : proc A) :
  extends path p -> extends path q -> extends path (if b then p else q).
Proof. destruct b; tauto. Qed.

End StepFacts.

(** Steps built from writes to a file only make it grow. *)
Ltac grow :=
  repeat first
    [ apply extends_ret
    | apply extends_lift
    | apply extends_write
    | apply extends_if
    | apply extends_each; intro
    | apply extends_bind; [| intro] ].

(** The pieces a chain of writes appends, read off the chain. *)
Ltac pieces :=
  repeat first
    [ apply appends_write
    | apply appends_ret
    | eapply appends_lift; [reflexivity |]
    | eapply appends_bind ].

(** ** The static-analysis processor: what is left *)

Section SlitherMore.
Import Tiers Slither Frames More Os Samples.

Lemma move_to_front {A : Type} (xs l l' : list A) (x : A) :
  Permutation l (x :: l') -> Permutation (xs ++ l) (x :: xs ++ l').
Proof.
  intros H. transitivity (xs ++ x :: l')%list.
  - apply Permutation_app_head. exact H.
  - apply Permutation_sym, Permutation_middle.
Qed.

Lemma five_tiers_permutation (detectors : list json) :
  Permutation (filter (in_tier Critical) detectors
               ++ filter (in_tier High) detectors
               ++ filter (in_tier Medium) detectors
               ++ filter (in_tier Low) detectors
               ++ filter (in_tier Informational) detectors) detectors.
Proof.
  induction detectors as [| d rest IH]; cbn [filter].
  - constructor.
  - repeat match goal with
           | |- context [in_tier ?t d] =>
               change (in_tier t d) with (tier_eqb (tier_of d) t)
           end.
    destruct (tier_of d); cbn [tier_eqb];
      (eapply Permutation_trans; [| apply perm_skip; exact IH]);
      repeat apply move_to_front; reflexivity.
Qed.

Lemma total_findings_shape (c h m l i : list json) :
  total_findings (shape c h m l i) = len (c ++ h ++ m ++ l ++ i).
Proof.
  unfold total_findings, shape, values, len. simpl.
  rewrite !length_app. lia.
Qed.

Lemma total_findings_tiered (detectors : list json) :
  total_findings (tiered detectors) = len detectors.
Proof.
  change (tiered detectors)
    with (shape (filter (in_tier Critical) detectors)
                (filter (in_tier High) detectors)
                (filter (in_tier Medium) detectors)
                (filter (in_tier Low) detectors)
                (filter (in_tier Informational) detectors)).
  rewrite total_findings_shape. unfold len.
  rewrite (Permutation_length (five_tiers_permutation detectors)). reflexivity.
Qed.

(** X1: whenever [categorize_findings] returns, its five lists together
    are a rearrangement of the detectors of the report, nothing lost and
    nothing twice, so the total the summary prints is their number. *)
Theorem categorize_findings_keeps_every_detector (results : json) (g : groups) :
  categorize_findings results = Ok g ->
  exists detectors c h m l i,
    detectors_of results = Ok detectors
    /\ g = [("critical", c); ("high", h); ("medium", m); ("low", l);
            ("informational", i)]
    /\ Permutation (c ++ h ++ m ++ l ++ i) detectors
    /\ total_findings g = len detectors.
Proof.
  intros H. destruct (categorize_findings_returns _ _ H) as [detectors [Hd [_ Hg]]].
  exists detectors. do 5 eexists. split; [exact Hd |].
  split; [exact Hg |]. split.
  - apply five_tiers_permutation.
  - rewrite Hg. apply total_findings_tiered.
Qed.

Lemma append_to_tier_ok (t : tier) (d : json) (c h m l i : list json) :
  exists c' h' m' l' i',
    append_to (tier_key t) d (shape c h m l i) = Ok (shape c' h' m' l' i').
Proof. rewrite append_to_shape. do 5 eexists. reflexivity. Qed.

Lemma categorize_detector_raises (g : groups) (d : json) :
  is_detector d = false -> categorize_detector g d = Raise AttributeError.
Proof.
  unfold is_detector, str_or_absent, categorize_detector, dict_get.
  destruct d as [| | | | | | fields]; try reflexivity.
  destruct (assoc "impact" fields) as [[| | | | si | |] |]; try reflexivity;
    destruct (assoc "confidence" fields) as [[| | | | sc | |] |];
    try reflexivity; discriminate.
Qed.

Lemma categorize_loop_raises (detectors : list json) :
  forall c h m l i,
    forallb is_detector detectors = false ->
    for_each categorize_detector detectors (shape c h m l i) = Raise AttributeError.
Proof.
  induction detectors as [| d rest IH]; intros c h m l i Hbad; simpl in *.
  - discriminate Hbad.
  - destruct (is_detector d) eqn:Hd; simpl in Hbad.
    + rewrite (categorize_detector_tier _ _ Hd).
      destruct (append_to_tier_ok (tier_of d) d c h m l i)
        as [c' [h' [m' [l' [i' E]]]]].
      rewrite E. simpl. apply IH. exact Hbad.
    + rewrite (categorize_detector_raises _ _ Hd). reflexivity.
Qed.

(** X2: [categorize_findings] returns exactly when the detectors can be
    looped over and every one is a record; a detector that is no object, or
    whose impact or confidence is no string, makes it raise AttributeError
    whatever the other detectors are. *)
Theorem categorize_findings_returns_iff (results : json) :
  ((exists g, categorize_findings results = Ok g)
   <-> exists detectors,
         detectors_of results = Ok detectors
         /\ forallb is_detector detectors = true)
  /\ (forall detectors,
        detectors_of results = Ok detectors ->
        forallb is_detector detectors = false ->
        categorize_findings results = Raise AttributeError)
  /\ (forall e, detectors_of results = Raise e ->
                categorize_findings results = Raise e).
Proof.
  split; [split |].
  - intros [g H]. destruct (categorize_findings_returns _ _ H) as [ds [Hd [Hr _]]].
    exists ds. split; assumption.
  - intros [ds [Hd Hr]]. eexists. exact (categorize_findings_tiered _ _ Hd Hr).
  - split.
    + intros ds Hd Hbad. rewrite categorize_findings_loop, Hd. simpl.
      exact (categorize_loop_raises ds [] [] [] [] [] Hbad).
    + intros e He. rewrite categorize_findings_loop, He. reflexivity.
Qed.

Lemma getitem_ok (v x : json) (key : string) :
  getitem v key = Ok x -> exists fields, v = JObj fields /\ assoc key fields = Some x.
Proof.
  destruct v as [| | | | | | fields]; simpl; try discriminate.
  destruct (assoc key fields) as [y |] eqn:E; intros H; inversion H; subst.
  exists fields. split; [reflexivity | exact E].
Qed.

Lemma write_findings_done (path : string) (findings : list json) (w w' : world) :
  write_findings path findings w = (Done tt, w') ->
  forall x, In x findings -> has_names x = true.
Proof.
  intros H x Hx. unfold write_findings in H.
  destruct (each_done _ _ _ _ H x Hx) as [w1 [w2 Hbody]].
  apply bind_done in Hbody. destruct Hbody as [c [w3 [Hc Hbody]]].
  apply lift_done in Hc. destruct Hc as [Hc _].
  apply bind_done in Hbody. destruct Hbody as [ds [w4 [Hd _]]].
  apply lift_done in Hd. destruct Hd as [Hd _].
  apply getitem_ok in Hc. destruct Hc as [fields [E Hc]]. subst x.
  apply getitem_ok in Hd. destruct Hd as [fields' [E Hd]]. inversion E; subst fields'.
  unfold has_names. rewrite Hc, Hd. reflexivity.
Qed.

Lemma write_tier_done (path heading : string) (findings : list json) (w w' : world) :
  write_tier path heading findings w = (Done tt, w') ->
  forall x, In x findings -> has_names x = true.
Proof.
  unfold write_tier. destruct findings as [| y rest]; [intros _ x [] |].
  cbn [truthy]. intros H.
  apply bind_done in H. destruct H as [[] [w1 [_ H]]].
  apply bind_done in H. destruct H as [[] [w2 [H _]]].
  exact (write_findings_done _ _ _ _ H).
Qed.

Lemma generate_summary_markdown_done (detectors : list json) (dir : string)
  (w w' : world) :
  generate_summary_markdown (tiered detectors) dir w = (Done tt, w') ->
  forallb printable detectors = true.
Proof.
  intros H. unfold generate_summary_markdown in H.
  apply bind_done in H. destruct H as [[] [w1 [_ H]]].
  apply bind_done in H. destruct H as [[] [w2 [_ H]]].
  rewrite total_findings_tiered in H.
  destruct (len detectors =? 0)%Z eqn:Hn.
  - apply Z.eqb_eq in Hn. destruct detectors; [reflexivity |].
    unfold len in Hn. simpl in Hn. lia.
  - apply bind_done in H. destruct H as [[] [w3 [_ H]]].
    apply bind_done in H. destruct H as [c [w4 [Hc H]]].
    apply lift_done in Hc. destruct Hc as [Hc _]. inversion Hc; subst c; clear Hc.
    apply bind_done in H. destruct H as [[] [w5 [Hcrit H]]].
    apply bind_done in H. destruct H as [h [w6 [Hh H]]].
    apply lift_done in Hh. destruct Hh as [Hh _]. inversion Hh; subst h; clear Hh.
    apply bind_done in H. destruct H as [[] [w7 [Hhigh H]]].
    apply bind_done in H. destruct H as [m [w8 [Hm H]]].
    apply lift_done in Hm. destruct Hm as [Hm _]. inversion Hm; subst m; clear Hm.
    apply bind_done in H. destruct H as [[] [w9 [Hmed _]]].
    pose proof (write_tier_done _ _ _ _ _ Hcrit) as Nc.
    pose proof (write_tier_done _ _ _ _ _ Hhigh) as Nh.
    pose proof (write_tier_done _ _ _ _ _ Hmed) as Nm.
    apply forallb_forall. intros x Hx. unfold printable.
    destruct (in_tier Low x) eqn:El; [reflexivity |].
    destruct (in_tier Informational x) eqn:Ei; [reflexivity |]. simpl.
    unfold in_tier in *.
    destruct (tier_of x) eqn:Et; try discriminate.
    + apply Nc, filter_In. split; [exact Hx |]. unfold in_tier. rewrite Et. reflexivity.
    + apply Nh, filter_In. split; [exact Hx |]. unfold in_tier. rewrite Et. reflexivity.
    + apply Nm, filter_In. split; [exact Hx |]. unfold in_tier. rewrite Et. reflexivity.
Qed.

Lemma main_wrong_arguments (argv : list string) (d : disk) :
  length argv <> 2%nat ->
  run (main argv d)
  = (1, {| files := [];
           stdout := [[Text "Usage: python3 process-slither.py <slither-report.json>"]] |}).
Proof.
  intros Hn. unfold run, main.
  destruct (Nat.eqb_spec (length argv) 2) as [E | _]; [contradiction | reflexivity].
Qed.

Lemma two_arguments (argv : list string) :
  length argv = 2%nat -> exists prog path, argv = [prog; path].
Proof.
  destruct argv as [| a [| b [| c rest]]]; simpl; intros H; try discriminate H.
  exists a, b. reflexivity.
Qed.

(** What a run does with an existing report, by how far it gets. *)
Lemma main_outcomes (prog path : string) (d : disk) :
  path_exists d path = true ->
  (exists e w, categorize_findings (report_of d path) = Raise e
               /\ run (main [prog; path] d) = (1, w) /\ files w = [])
  \/ (exists detectors w,
        detectors_of (report_of d path) = Ok detectors
        /\ forallb is_detector detectors = true
        /\ forallb printable detectors = false
        /\ run (main [prog; path] d) = (1, w)
        /\ read_file (join (dirname path) "critical-issues.json") w = None)
  \/ (exists detectors w,
        detectors_of (report_of d path) = Ok detectors
        /\ forallb is_detector detectors = true
        /\ forallb printable detectors = true
        /\ run (main [prog; path] d)
           = ((if existsb high_high detectors then 1 else 0), w)
        /\ read_file (join (dirname path) "critical-issues.json") w
           = Some [Dump (JArr (filter high_high detectors))]).
Proof.
  intros Hex.
  destruct (categorize_findings (report_of d path)) as [g | e] eqn:Hcat.
  2:{ left. destruct (main_stops_in_categorize prog path d e Hex Hcat) as [w [Hr Hf]].
      exists e, w. split; [reflexivity |]. split; assumption. }
  right.
  destruct (categorize_findings_returns _ _ Hcat) as [detectors [Hdet [Hrec Hg]]].
  subst g.
  destruct (forallb printable detectors) eqn:Hprint.
  - right. destruct (main_on_detector_records prog path d detectors Hex Hdet Hrec Hprint)
      as [w [Hrun Hfile]].
    exists detectors, w. repeat split; assumption.
  - left. destruct (load_slither_report_run d path fresh) as [w0 [Hload Hnone]].
    destruct (generate_summary_markdown (tiered detectors) (dirname path) w0)
      as [o w1] eqn:Hgen.
    destruct (generate_summary_markdown_writes_only _ _ _ _ _ Hgen)
      as [[_ Hkeep] Hnoexit].
    destruct o as [[] | e | code].
    + rewrite (generate_summary_markdown_done _ _ _ _ Hgen) in Hprint.
      discriminate Hprint.
    + exists detectors, w1. repeat split; try assumption.
      * exact (main_stops_in_summary prog path d _ e w0 w1 Hex Hcat Hload Hgen).
      * rewrite (Hkeep _ (summary_is_not_critical _)).
        unfold read_file. rewrite Hnone. reflexivity.
    + exfalso. exact (Hnoexit code eq_refl).
Qed.

(** X3: the status of a run is 0 or 1, and it is 0 exactly when the script
    got one argument, the report exists, its detectors are records, every
    critical, high or medium one has a check and a description, and none is
    high/high. *)
Theorem slither_status_zero_iff (argv : list string) (d : disk) :
  (fst (run (main argv d)) = 0 \/ fst (run (main argv d)) = 1)
  /\ (fst (run (main argv d)) = 0
      <-> exists prog path detectors,
            argv = [prog; path]
            /\ path_exists d path = true
            /\ detectors_of (report_of d path) = Ok detectors
            /\ forallb is_detector detectors = true
            /\ forallb printable detectors = true
            /\ existsb high_high detectors = false).
Proof.
  destruct (Nat.eq_dec (length argv) 2) as [Hlen | Hlen].
  2:{ rewrite (main_wrong_arguments argv d Hlen). simpl. split; [right; reflexivity |].
      split; [discriminate |].
      intros [prog [path [ds [E _]]]]. subst argv. simpl in Hlen. contradiction. }
  destruct (two_arguments argv Hlen) as [prog [path E]]. subst argv.
  destruct (path_exists d path) eqn:Hex.
  2:{ destruct (main_missing_report prog path d Hex) as [w [Hrun _]]. rewrite Hrun.
      simpl. split; [right; reflexivity |]. split; [discriminate |].
      intros [p [q [ds [E [Hq _]]]]]. inversion E; subst. congruence. }
  destruct (main_outcomes prog path d Hex)
    as [[e [w [Hcat [Hrun _]]]]
       | [[ds [w [Hdet [Hrec [Hprint [Hrun _]]]]]]
         | [ds [w [Hdet [Hrec [Hprint [Hrun _]]]]]]]];
    rewrite Hrun; simpl.
  - split; [right; reflexivity |]. split; [discriminate |].
    intros [p [q [ds [E [_ [Hdet [Hrec _]]]]]]]. inversion E; subst.
    rewrite (categorize_findings_tiered _ _ Hdet Hrec) in Hcat. discriminate Hcat.
  - split; [right; reflexivity |]. split; [discriminate |].
    intros [p [q [ds' [E [_ [Hdet' [_ [Hprint' _]]]]]]]]. inversion E; subst.
    congruence.
  - destruct (existsb high_high ds) eqn:Hcrit.
    + split; [right; reflexivity |]. split; [discriminate |].
      intros [p [q [ds' [E [_ [Hdet' [_ [_ Hcrit']]]]]]]]. inversion E; subst.
      congruence.
    + split; [left; reflexivity |]. split; [| reflexivity].
      intros _. exists prog, path, ds. repeat split; assumption.
Qed.

(** X4: a run leaves a critical-issues.json exactly when the report exists,
    its detectors are records and every critical, high or medium one has a
    check and a description: a finding without them stops the run in the
    Markdown summary, before the file is written. *)
Theorem critical_issues_json_written_iff (prog path : string) (d : disk) :
  (exists content,
      read_file (join (dirname path) "critical-issues.json")
                (snd (run (main [prog; path] d))) = Some content)
  <-> path_exists d path = true
      /\ exists detectors,
           detectors_of (report_of d path) = Ok detectors
           /\ forallb is_detector detectors = true
           /\ forallb printable detectors = true.
Proof.
  destruct (path_exists d path) eqn:Hex.
  2:{ destruct (main_missing_report prog path d Hex) as [w [Hrun Hnone]].
      rewrite Hrun. unfold read_file. simpl. rewrite Hnone. simpl.
      split; [intros [c H]; discriminate H | intros [H _]; discriminate H]. }
  destruct (main_outcomes prog path d Hex)
    as [[e [w [Hcat [Hrun Hnone]]]]
       | [[ds [w [Hdet [Hrec [Hprint [Hrun Hfile]]]]]]
         | [ds [w [Hdet [Hrec [Hprint [Hrun Hfile]]]]]]]];
    rewrite Hrun; simpl.
  - unfold read_file. rewrite Hnone. simpl. split; [intros [c H]; discriminate H |].
    intros [_ [ds [Hdet [Hrec _]]]].
    rewrite (categorize_findings_tiered _ _ Hdet Hrec) in Hcat. discriminate Hcat.
  - rewrite Hfile. split; [intros [c H]; discriminate H |].
    intros [_ [ds' [Hdet' [_ Hprint']]]]. congruence.
  - rewrite Hfile. split; [| intros _; eexists; reflexivity].
    intros _. split; [reflexivity |]. exists ds. repeat split; assumption.
Qed.

Lemma no_tier_above (t : tier) (detectors : list json) :
  forallb below_medium detectors = true ->
  t <> Low -> t <> Informational ->
  filter (in_tier t) detectors = [].
Proof.
  intros Hall Hl Hi. induction detectors as [| x rest IH]; [reflexivity |].
  simpl in Hall. apply andb_prop in Hall. destruct Hall as [Hx Hrest].
  simpl. rewrite (IH Hrest).
  unfold below_medium, in_tier in *.
  destruct (tier_of x), t; simpl in *; try reflexivity; try discriminate;
    congruence.
Qed.

(** X5: a report with at least one detector and none above the low tier
    gets a summary with the total, the count of the low tier when there is
    one, and no finding by name and no recommendation line; informational
    detectors show in the total only. *)
Theorem summary_below_medium (detectors : list json) (dir : string) (w : world) :
  detectors <> [] ->
  forallb below_medium detectors = true ->
  exists w',
    generate_summary_markdown (tiered detectors) dir w = (Done tt, w')
    /\ read_file (join dir "slither-summary.md") w'
       = Some (quiet_summary (len detectors) (filter (in_tier Low) detectors)).
Proof.
  intros Hne Hall.
  pose proof (total_findings_tiered detectors) as Htotal.
  unfold generate_summary_markdown. rewrite Htotal.
  change (tiered detectors)
    with (shape (filter (in_tier Critical) detectors)
                (filter (in_tier High) detectors)
                (filter (in_tier Medium) detectors)
                (filter (in_tier Low) detectors)
                (filter (in_tier Informational) detectors)).
  rewrite (no_tier_above Critical _ Hall), (no_tier_above High _ Hall),
    (no_tier_above Medium _ Hall) by discriminate.
  assert (Hn : (len detectors =? 0)%Z = false).
  { apply Z.eqb_neq. destruct detectors; [contradiction |].
    unfold len. simpl. lia. }
  rewrite Hn. unfold write_tier, write_if. cbn [truthy].
  remember (join dir "slither-summary.md") as sp.
  assert (Hbody : forall low,
    appends sp (quiet_summary (len detectors) low)
      (write sp [Text ("# 🐍 Slither Security Analysis Summary" ++ LF ++ LF)] ;;
       write sp [Text "📊 **Total Findings**: "; Int (len detectors); Text (LF ++ LF)] ;;
       critical <- lift (group "critical"
                           (shape [] [] [] low
                                  (filter (in_tier Informational) detectors))) ;;
       ret tt ;;
       high <- lift (group "high"
                       (shape [] [] [] low
                              (filter (in_tier Informational) detectors))) ;;
       ret tt ;;
       medium <- lift (group "medium"
                         (shape [] [] [] low
                                (filter (in_tier Informational) detectors))) ;;
       ret tt ;;
       low0 <- lift (group "low"
                       (shape [] [] [] low
                              (filter (in_tier Informational) detectors))) ;;
       (if truthy low0 then
          write sp [Text "🔷 **Low Severity**: "; Int (len low0); Text LF] ;;
          write sp
            [Text "*(Note: "; Int (len low0);
             Text (" low-severity findings - see full report for details)*"
                   ++ LF ++ LF)]
        else ret tt) ;;
       write sp [Text ("## 🔧 Recommendations" ++ LF ++ LF)] ;;
       (if truthy critical then write sp [Text ("1. **Immediate Action Required**: Address all critical issues before deployment" ++ LF)] else ret tt) ;;
       (if truthy high then write sp [Text ("2. **High Priority**: Review and fix high-severity findings" ++ LF)] else ret tt) ;;
       (if truthy medium then write sp [Text ("3. **Medium Priority**: Consider fixing medium-severity findings" ++ LF)] else ret tt) ;;
       write sp
         [Text (LF ++ "📝 *Full detailed report available in security artifacts*"
                ++ LF)])%proc).
  { intros low. eapply appends_eq; [| pieces].
    2:{ instantiate (1 := if truthy low then _ else _).
        destruct low; cbn [truthy]; pieces. }
    1:{ unfold quiet_summary. destruct low; reflexivity. }
    all: cbn [truthy]; pieces. }
  destruct (open_then_appends sp _ _ w (Hbody (filter (in_tier Low) detectors)))
    as [w' [Hrun [Hfile _]]].
  exists w'. split; [exact Hrun | exact Hfile].
Qed.

Lemma generate_summary_markdown_extends (g : groups) (dir : string) :
  forall w o w',
    generate_summary_markdown g dir w = (o, w') ->
    exists more,
      read_file (join dir "slither-summary.md") w'
      = Some (Text ("# 🐍 Slither Security Analysis Summary" ++ LF ++ LF) :: more).
Proof.
  intros w o w' H. unfold generate_summary_markdown in H.
  remember (join dir "slither-summary.md") as sp.
  unfold bind at 1 2 in H. unfold open_w, write at 1 in H.
  match type of H with
  | ?rest ?w2 = _ =>
      assert (Hgrow : extends sp rest)
        by (unfold write_tier, write_if, write_findings; grow);
      assert (Hstart : read_file sp w2
                       = Some [Text ("# 🐍 Slither Security Analysis Summary"
                                     ++ LF ++ LF)])
        by (unfold read_file; cbn [files]; rewrite !assoc_set_file_same; reflexivity);
      destruct (Hgrow _ _ _ _ H Hstart) as [more Hmore]
  end.
  exists more. exact Hmore.
Qed.

(** X6: when the detectors are records and a critical, high or medium one
    lacks its check or its description, the run ends with status 1, leaves
    no critical-issues.json, and leaves a slither-summary.md that starts
    with the title and stops where the finding was to be printed. *)
Theorem unnamed_finding_stops_the_run (prog path : string) (d : disk)
  (detectors : list json) :
  path_exists d path = true ->
  detectors_of (report_of d path) = Ok detectors ->
  forallb is_detector detectors = true ->
  forallb printable detectors = false ->
  fst (run (main [prog; path] d)) = 1
  /\ read_file (join (dirname path) "critical-issues.json")
               (snd (run (main [prog; path] d))) = None
  /\ exists written,
       read_file (join (dirname path) "slither-summary.md")
                 (snd (run (main [prog; path] d)))
       = Some (Text ("# 🐍 Slither Security Analysis Summary" ++ LF ++ LF)
               :: written).
Proof.
  intros Hex Hdet Hrec Hprint.
  pose proof (categorize_findings_tiered _ _ Hdet Hrec) as Hcat.
  destruct (load_slither_report_run d path fresh) as [w0 [Hload Hnone]].
  destruct (generate_summary_markdown (tiered detectors) (dirname path) w0)
    as [o w1] eqn:Hgen.
  destruct (generate_summary_markdown_writes_only _ _ _ _ _ Hgen)
    as [[_ Hkeep] Hnoexit].
  destruct (generate_summary_markdown_extends _ _ _ _ _ Hgen) as [more Hmore].
  destruct o as [[] | e | code].
  - rewrite (generate_summary_markdown_done _ _ _ _ Hgen) in Hprint.
    discriminate Hprint.
  - rewrite (main_stops_in_summary prog path d _ e w0 w1 Hex Hcat Hload Hgen).
    simpl. split; [reflexivity |]. split.
    + rewrite (Hkeep _ (summary_is_not_critical _)).
      unfold read_file. rewrite Hnone. reflexivity.
    + exists more. exact Hmore.
  - exfalso. exact (Hnoexit code eq_refl).
Qed.

Lemma rsplit_no_slash (file : string) :
  no_slash file = true -> rsplit file = (EmptyString, file).
Proof.
  induction file as [| c rest IH]; simpl; intros H; [reflexivity |].
  apply andb_prop in H. destruct H as [Hc Hrest].
  rewrite (IH Hrest). apply negb_true_iff in Hc. rewrite Hc. reflexivity.
Qed.

Lemma rsplit_dir_file (dir file : string) :
  no_slash file = true ->
  rsplit (dir ++ "/" ++ file) = ((dir ++ "/")%string, file).
Proof.
  intros Hfile. induction dir as [| c rest IH]; simpl.
  - rewrite (rsplit_no_slash _ Hfile). reflexivity.
  - simpl in IH. rewrite IH. destruct rest; reflexivity.
Qed.

Lemma all_slashes_dir (dir : string) :
  dir <> "" -> ends_with_slash dir = false -> all_slashes (dir ++ "/") = false.
Proof.
  induction dir as [| c rest IH]; intros Hne Hend; [contradiction |].
  simpl. destruct rest as [| c' rest'].
  - simpl in Hend. rewrite Hend. reflexivity.
  - rewrite IH; [apply andb_false_r | discriminate | exact Hend].
Qed.

Lemma rstrip_slashes_step (c : ascii) (s : string) :
  rstrip_slashes (String c s)
  = match rstrip_slashes s with
    | EmptyString => if Ascii.eqb c "/" then EmptyString else String c EmptyString
    | kept => String c kept
    end.
Proof. reflexivity. Qed.

Lemma rstrip_slashes_dir (dir : string) :
  dir <> "" -> ends_with_slash dir = false -> rstrip_slashes (dir ++ "/") = dir.
Proof.
  induction dir as [| c rest IH]; intros Hne Hend; [contradiction |].
  cbn [append]. rewrite rstrip_slashes_step.
  destruct rest as [| c' rest'].
  - simpl in *. rewrite Hend. reflexivity.
  - rewrite IH; [reflexivity | discriminate | exact Hend].
Qed.

Lemma dirname_dir_file (dir file : string) :
  no_slash file = true -> dir <> "" -> ends_with_slash dir = false ->
  dirname (dir ++ "/" ++ file) = dir.
Proof.
  intros Hfile Hne Hend. unfold dirname. rewrite (rsplit_dir_file _ _ Hfile).
  cbn [fst]. rewrite (all_slashes_dir _ Hne Hend).
  destruct dir as [| c rest]; [contradiction |]. cbn [append String.eqb negb andb].
  exact (rstrip_slashes_dir (String c rest) Hne Hend).
Qed.

Lemma join_dir (dir name : string) :
  dir <> "" -> ends_with_slash dir = false -> join dir name = (dir ++ "/" ++ name)%string.
Proof.
  intros Hne Hend. unfold join. rewrite Hend.
  destruct dir; [contradiction | reflexivity].
Qed.

(** X7: the two files of a run on [dir/file] are written beside the report,
    as [dir/slither-summary.md] and [dir/critical-issues.json]; for a report
    named without a directory they go unprefixed to the working directory. *)
Theorem artifacts_beside_the_report (prog dir file : string) (d : disk)
  (detectors : list json) :
  no_slash file = true ->
  (dir = "" \/ ends_with_slash dir = false) ->
  let path := if dir =? "" then file else (dir ++ "/" ++ file)%string in
  let beside name := if dir =? "" then name else (dir ++ "/" ++ name)%string in
  path_exists d path = true ->
  detectors_of (report_of d path) = Ok detectors ->
  forallb is_detector detectors = true ->
  forallb printable detectors = true ->
  read_file (beside "critical-issues.json") (snd (run (main [prog; path] d)))
  = Some [Dump (JArr (filter high_high detectors))]
  /\ exists written,
       read_file (beside "slither-summary.md") (snd (run (main [prog; path] d)))
       = Some (Text ("# 🐍 Slither Security Analysis Summary" ++ LF ++ LF)
               :: written).
Proof.
  intros Hfile Hdir path beside Hex Hdet Hrec Hprint.
  assert (Hbeside : forall name, join (dirname path) name = beside name).
  { intros name. unfold path, beside.
    destruct (String.eqb_spec dir "") as [E | Hne].
    - unfold dirname. rewrite (rsplit_no_slash _ Hfile). reflexivity.
    - destruct Hdir as [E | Hend]; [contradiction |].
      rewrite (dirname_dir_file _ _ Hfile Hne Hend). exact (join_dir _ _ Hne Hend). }
  pose proof (categorize_findings_tiered _ _ Hdet Hrec) as Hcat.
  destruct (load_slither_report_run d path fresh) as [w0 [Hload _]].
  destruct (generate_summary_markdown_runs detectors (dirname path) Hprint w0)
    as [[] [w1 Hgen]].
  destruct (generate_summary_markdown_extends _ _ _ _ _ Hgen) as [more Hmore].
  destruct (main_reaches_exit prog path d detectors w0 w1 Hex Hcat Hload Hgen)
    as [w2 [Hrun [Hcritical Hrest]]].
  rewrite Hrun. cbn [snd]. rewrite <- !Hbeside. split.
  - rewrite Hcritical, filter_critical_high_high. reflexivity.
  - exists more. rewrite Hrest; [exact Hmore |].
    intros H. exact (summary_is_not_critical _ (eq_sym H)).
Qed.

End SlitherMore.

(** ** The symbolic-execution processor: what is left *)

Section MythrilMore.
Import Severities Mythril Frames More Os Samples.

Lemma world_eta (w : world) : {| files := files w; stdout := stdout w |} = w.
Proof. destruct w. reflexivity. Qed.

Lemma load_each_exact (d : disk) (paths : list string) :
  forall reports w,
    load_each d paths reports w
    = (Done (reports ++ issues_in d paths)%list,
       {| files := files w; stdout := (stdout w ++ warnings d paths)%list |}).
Proof.
  unfold warnings.
  induction paths as [| p rest IH]; intros reports w; simpl.
  - rewrite !app_nil_r, world_eta. reflexivity.
  - unfold usable. destruct (json_load d p) as [data |].
    + destruct (issues_of_report data) as [more | e]; cbn [negb map].
      * rewrite IH, <- app_assoc. reflexivity.
      * unfold bind, print. rewrite IH. cbn [files stdout].
        rewrite <- app_assoc. reflexivity.
    + cbn [negb map]. unfold bind, print. rewrite IH. cbn [files stdout].
      rewrite <- app_assoc. reflexivity.
Qed.

Lemma issues_of_report_taken (data : json) :
  match taken_from (Some data) with
  | Some more => issues_of_report data = Ok more
  | None => exists e, issues_of_report data = Raise e
  end.
Proof.
  destruct data as [| b | n | r | text | items | fields];
    cbn [taken_from]; unfold issues_of_report; cbn [contains rbind];
    try (eexists; reflexivity).
  - destruct (substring_of "issues" text); [eexists |]; reflexivity.
  - destruct (existsb (is_str "issues") items); [eexists |]; reflexivity.
  - cbn [getitem]. destruct (assoc "issues" fields) as [v |]; [| reflexivity].
    cbn [rbind]. destruct v; cbn [iter]; try (eexists; reflexivity); reflexivity.
Qed.

Lemma issues_in_collected (d : disk) (paths : list string) :
  issues_in d paths = collected d paths.
Proof.
  unfold issues_in, collected. apply flat_map_ext. intros p.
  destruct (json_load d p) as [data |]; [| reflexivity].
  pose proof (issues_of_report_taken data) as H.
  destruct (taken_from (Some data)) as [more |].
  - rewrite H. reflexivity.
  - destruct H as [e H]. rewrite H. reflexivity.
Qed.

Lemma warnings_given_up (d : disk) (paths : list string) :
  warnings d paths = map warning (given_up d paths).
Proof.
  unfold warnings, given_up. f_equal. apply filter_ext. intros p.
  unfold usable. destruct (json_load d p) as [data |]; [| reflexivity].
  pose proof (issues_of_report_taken data) as H.
  destruct (taken_from (Some data)) as [more |].
  - rewrite H. reflexivity.
  - destruct H as [e H]. rewrite H. reflexivity.
Qed.

(** X8: [load_mythril_reports] never raises and writes no file. In the
    order [glob] lists the report files, it returns what each holds under
    issues (the items of an array, the keys of an object, the characters of
    a text; nothing when the key is absent), and prints one warning for
    each file that does not load or holds nothing it can take. *)
Theorem load_mythril_reports_skips_bad_files (d : disk) (reports_dir : string)
  (w : world) :
  let paths := glob d (join reports_dir "mythril-*.json") in
  load_mythril_reports d reports_dir w
  = (Done (collected d paths),
     {| files := files w;
        stdout := (stdout w ++ map warning (given_up d paths))%list |}).
Proof.
  intros paths. unfold load_mythril_reports.
  rewrite <- issues_in_collected, <- warnings_given_up.
  exact (load_each_exact d paths [] w).
Qed.

(** Of four listed files, the one with a text contributes its two
    characters, the one with an array its two items; the one with null and
    the one that does not load are skipped with a warning each. *)
Example load_mythril_reports_on_mixed_files :
  load_mythril_reports mixed_disk "r" fresh
  = (Done [JStr "日"; JStr "本"; JInt 7; JNull],
     {| files := [];
        stdout := [warning "r/mythril-b.json"; warning "r/mythril-d.json"] |}).
Proof. reflexivity. Qed.

Lemma categorize_mythril_findings_raises (issues : list json) :
  forallb is_issue issues = false ->
  exists e, categorize_mythril_findings issues = Raise e.
Proof.
  intros Hbad. destruct (categorize_mythril_findings issues) as [g | e] eqn:H.
  - unfold categorize_mythril_findings in H.
    rewrite (categorize_issues_ok _ _ _ H) in Hbad. discriminate Hbad.
  - exists e. reflexivity.
Qed.

(** How a run on an existing directory goes on after loading. *)
Lemma mythril_main_after_load (prog dir : string) (d : disk) :
  path_exists d dir = true ->
  let issues := issues_in d (glob d (join dir "mythril-*.json")) in
  let w0 := {| files := [];
               stdout := warnings d (glob d (join dir "mythril-*.json")) |} in
  run (main [prog; dir] d)
  = match categorize_mythril_findings issues with
    | Raise _ => (1, w0)
    | Ok g =>
        match generate_mythril_summary g dir w0 with
        | (Done _, w1) =>
            (0, {| files := files w1;
                   stdout :=
                     (stdout w1
                      ++ [[Text "Mythril analysis complete:"];
                          [Text "  High: "; Int (len (group_or_empty "High" g))];
                          [Text "  Medium: "; Int (len (group_or_empty "Medium" g))];
                          [Text "  Low: "; Int (len (group_or_empty "Low" g))];
                          [Text "  Total: "; Int (len issues)];
                          if (len (group_or_empty "High" g) >? 0)%Z then
                            [Text "⚠️ "; Int (len (group_or_empty "High" g));
                             Text " high-severity findings require manual review"]
                          else [Text "✅ No high-severity vulnerabilities found"]])%list |})
        | (Raised _, w1) => (1, w1)
        | (Exited code, w1) => (code, w1)
        end
    end.
Proof.
  intros Hex issues w0.
  unfold run, main. cbn [length Nat.eqb negb nth]. rewrite Hex. cbn [negb].
  unfold bind at 1. unfold load_mythril_reports. rewrite load_each_exact.
  cbn [files stdout fresh app]. fold issues. fold w0.
  unfold bind at 1. unfold lift at 1.
  destruct (categorize_mythril_findings issues) as [g | e]; [| reflexivity].
  unfold bind at 1.
  destruct (generate_mythril_summary g dir w0) as [[[] | e | code] w1];
    try reflexivity.
  unfold bind, print. cbn [files stdout].
  destruct (len (group_or_empty "High" g) >? 0)%Z; cbn [exit_status files stdout];
    rewrite <- !app_assoc; reflexivity.
Qed.

(** X9: when a loaded issue is no issue record (no object, or its severity
    a list or an object), the run ends with status 1 before any file is
    written: neither summary exists. *)
Theorem malformed_issue_stops_before_writing (prog dir : string) (d : disk) :
  path_exists d dir = true ->
  forallb is_issue (issues_in d (glob d (join dir "mythril-*.json"))) = false ->
  fst (run (main [prog; dir] d)) = 1
  /\ files (snd (run (main [prog; dir] d))) = [].
Proof.
  intros Hex Hbad. rewrite (mythril_main_after_load prog dir d Hex).
  destruct (categorize_mythril_findings_raises _ Hbad) as [e He].
  rewrite He. split; reflexivity.
Qed.

Lemma icon_of_label (severity : string) :
  In severity labels -> icon severity = Ok (icon_of severity).
Proof.
  unfold labels. simpl.
  intros [E | [E | [E | []]]]; subst severity; reflexivity.
Qed.

Lemma bullet_written (path : string) (issue : json) :
  listable issue = true ->
  appends path (bullet issue)
    (title <- lift (dict_get issue "title" (JStr "Unknown Issue")) ;;
     filename <- lift (dict_get issue "filename" (JStr "Unknown")) ;;
     contract <- lift (last_of_split filename) ;;
     write path [Text "- **"; Fmt title; Text "** in `"; Text contract;
                 Text ("`" ++ LF)])%proc.
Proof.
  intros Hl. destruct issue as [| | | | | | fields]; try discriminate Hl.
  unfold listable, Tiers.str_or_absent in Hl.
  eapply appends_lift; [apply dict_get_object |].
  eapply appends_lift; [apply dict_get_object |].
  unfold bullet, contract_of, field_or.
  destruct (assoc "filename" fields) as [[| | | | name | |] |];
    try discriminate Hl;
    (eapply appends_lift; [reflexivity |]); apply appends_write.
Qed.

Lemma write_severity_block (path : string) (g : groups) (severity : string) :
  In severity labels ->
  forallb listable (firstn 5 (group_or_empty severity g)) = true ->
  appends path (severity_block severity (group_or_empty severity g))
          (write_severity path g severity).
Proof.
  intros Hs Hall. unfold write_severity, severity_block.
  destruct (truthy (group_or_empty severity g)); [| apply appends_ret].
  eapply appends_lift; [apply icon_of_label; exact Hs |].
  apply appends_bind; [apply appends_write |].
  apply appends_bind.
  { apply appends_each. intros x Hx. apply bullet_written.
    rewrite forallb_forall in Hall. exact (Hall x Hx). }
  apply appends_bind; [| apply appends_write].
  destruct (len (group_or_empty severity g) >? 5)%Z;
    [apply appends_write | apply appends_ret].
Qed.

Lemma summarisable_groups (issues : list json) :
  summarisable issues = true ->
  forallb is_issue issues = true
  /\ forall s, In s labels ->
       forallb listable (firstn 5 (filter (in_group s) issues)) = true.
Proof.
  unfold summarisable. intros H. apply andb_prop in H. destruct H as [Hi Hl].
  split; [exact Hi |]. rewrite forallb_forall in Hl. exact Hl.
Qed.

Lemma length_records_of (issues : list json) :
  len (records_of issues) = len issues.
Proof.
  unfold records_of, len. rewrite !length_app, !length_map, <- !length_app.
  rewrite (Permutation_length (three_way_split _ _ _ issues one_group)).
  reflexivity.
Qed.

Lemma all_issues_of_records (issues : list json) :
  forallb is_issue issues = true ->
  all_issues_of (shape3 (filter (in_group "High") issues)
                        (filter (in_group "Medium") issues)
                        (filter (in_group "Low") issues)) []
  = Ok (records_of issues).
Proof.
  intros Hall. apply all_issues_of_groups; apply forallb_filter; exact Hall.
Qed.

Lemma write_markdown_text (issues : list json) (path : string) :
  (forall s, In s labels ->
     forallb listable (firstn 5 (filter (in_group s) issues)) = true) ->
  forall w,
  exists w',
    write_markdown (shape3 (filter (in_group "High") issues)
                           (filter (in_group "Medium") issues)
                           (filter (in_group "Low") issues))
                   (records_of issues) path w = (Done tt, w')
    /\ read_file path w' = Some (markdown_text issues)
    /\ keeps path w w'.
Proof.
  intros Hl w. unfold write_markdown. apply open_then_appends.
  unfold markdown_text. rewrite length_records_of.
  change (?a :: ?rest)%list with ([a] ++ rest)%list.
  apply appends_bind; [apply appends_write |].
  destruct (len issues =? 0)%Z.
  - eapply appends_eq; [| pieces]. reflexivity.
  - cbn [each].
    eapply appends_eq; [| apply appends_bind; [apply appends_write |];
      apply appends_bind;
        [ apply appends_bind;
            [ apply (write_severity_block path _ "High");
                [simpl; auto | apply Hl; simpl; auto]
            | apply appends_bind;
                [ apply (write_severity_block path _ "Medium");
                    [simpl; auto | apply Hl; simpl; auto]
                | apply appends_bind;
                    [ apply (write_severity_block path _ "Low");
                        [simpl; auto | apply Hl; simpl; auto]
                    | apply appends_ret ] ] ]
        | pieces ] ].
    cbn [shape3 group_or_empty assoc String.eqb Ascii.eqb Bool.eqb].
    rewrite app_nil_r, <- !app_assoc. reflexivity.
Qed.

Lemma generate_mythril_summary_writes_both_aux (issues : list json)
  (dir : string) (w : world) :
  summarisable issues = true ->
  exists w',
    generate_mythril_summary
      [("High", filter (in_group "High") issues);
       ("Medium", filter (in_group "Medium") issues);
       ("Low", filter (in_group "Low") issues)] dir w = (Done tt, w')
    /\ stdout w' = stdout w.
Proof.
  intros Hsum. destruct (summarisable_groups _ Hsum) as [Hissue Hl].
  pose proof (all_issues_of_records issues Hissue) as Hrec.
  unfold generate_mythril_summary. unfold shape3 in Hrec. rewrite Hrec.
  unfold bind at 1 2 3. unfold lift, open_w, write at 1.
  match goal with
  | |- context [write_markdown ?g ?r ?p ?w1] =>
      destruct (write_markdown_text issues p Hl w1) as [w' [Hmd [_ [Hout _]]]];
      unfold shape3 in Hmd; rewrite Hmd
  end.
  exists w'. split; [reflexivity | exact Hout].
Qed.


Lemma dict_get_ok (x v : json) (key : string) (default : json) :
  dict_get x key default = Ok v ->
  exists fields,
    x = JObj fields
    /\ v = match assoc key fields with Some y => y | None => default end.
Proof.
  destruct x as [| | | | | | fields]; simpl; try discriminate.
  intros H. exists fields. split; [reflexivity |].
  destruct (assoc key fields); now inversion H.
Qed.

Lemma write_severity_done (path : string) (g : groups) (severity : string)
  (w w' : world) :
  write_severity path g severity w = (Done tt, w') ->
  forallb listable (firstn 5 (group_or_empty severity g)) = true.
Proof.
  unfold write_severity.
  destruct (group_or_empty severity g) as [| y rest] eqn:Eg; [reflexivity |].
  cbn [truthy]. intros H.
  apply bind_done in H. destruct H as [i [w1 [_ H]]].
  apply bind_done in H. destruct H as [[] [w2 [_ H]]].
  apply bind_done in H. destruct H as [[] [w3 [H _]]].
  apply forallb_forall. intros x Hx.
  destruct (each_done _ _ _ _ H x Hx) as [wa [wb Hbody]].
  apply bind_done in Hbody. destruct Hbody as [t [wc [Ht Hbody]]].
  apply lift_done in Ht. destruct Ht as [Ht _].
  apply bind_done in Hbody. destruct Hbody as [f [wd [Hf Hbody]]].
  apply lift_done in Hf. destruct Hf as [Hf _].
  apply bind_done in Hbody. destruct Hbody as [c [we [Hc _]]].
  apply lift_done in Hc. destruct Hc as [Hc _].
  apply dict_get_ok in Hf. destruct Hf as [fields [E Hf]]. subst x f.
  unfold listable, Tiers.str_or_absent.
  destruct (assoc "filename" fields) as [[| | | | name | |] |];
    try reflexivity; discriminate Hc.
Qed.

Lemma generate_mythril_summary_done (issues : list json) (dir : string)
  (w w' : world) :
  forallb is_issue issues = true ->
  generate_mythril_summary
    (shape3 (filter (in_group "High") issues)
            (filter (in_group "Medium") issues)
            (filter (in_group "Low") issues)) dir w = (Done tt, w') ->
  summarisable issues = true.
Proof.
  intros Hissue H. unfold summarisable. rewrite Hissue. cbn [andb].
  unfold generate_mythril_summary in H.
  rewrite (all_issues_of_records issues Hissue) in H.
  apply bind_done in H. destruct H as [r [w1 [Hr H]]].
  apply lift_done in Hr. destruct Hr as [Hr _]. inversion Hr; subst r; clear Hr.
  apply bind_done in H. destruct H as [[] [w2 [_ H]]].
  apply bind_done in H. destruct H as [[] [w3 [_ H]]].
  unfold write_markdown in H.
  apply bind_done in H. destruct H as [[] [w4 [_ H]]].
  apply bind_done in H. destruct H as [[] [w5 [_ H]]].
  rewrite length_records_of in H.
  destruct (len issues =? 0)%Z eqn:Hn.
  - apply Z.eqb_eq in Hn. destruct issues; [reflexivity |].
    unfold len in Hn. simpl in Hn. lia.
  - apply bind_done in H. destruct H as [[] [w6 [_ H]]].
    apply bind_done in H. destruct H as [[] [w7 [H _]]].
    cbn [each] in H.
    apply bind_done in H. destruct H as [[] [w8 [Hh H]]].
    apply bind_done in H. destruct H as [[] [w9 [Hm H]]].
    apply bind_done in H. destruct H as [[] [w10 [Hl _]]].
    apply write_severity_done in Hh. apply write_severity_done in Hm.
    apply write_severity_done in Hl.
    cbn [shape3 group_or_empty assoc String.eqb Ascii.eqb Bool.eqb] in Hh, Hm, Hl.
    unfold labels. cbn [forallb].
    rewrite Hh, Hm, Hl. reflexivity.
Qed.

Lemma generate_mythril_summary_no_exit (g : groups) (dir : string) (w w' : world)
  (o : outcome unit) :
  generate_mythril_summary g dir w = (o, w') -> forall code, o <> Exited code.
Proof.
  unfold generate_mythril_summary. unfold bind at 1. unfold lift.
  destruct (all_issues_of g []) as [records | e]; [| intros H; inversion H; discriminate].
  unfold bind at 1 2. unfold open_w, write at 1. intros H.
  exact (proj2 (write_markdown_writes_only _ _ _ _ _ _ H)).
Qed.

(** X11: the status of a run is 0 or 1, and it is 0 only when the script
    got one argument, the reports path exists, the loaded issues are issue
    records and the first five of each group can be listed: an issue that
    is no record, or a filename among those listed that is no text, fails
    the run however few the findings are. *)
Theorem mythril_status_zero_only_if (argv : list string) (d : disk) :
  (fst (run (main argv d)) = 0 \/ fst (run (main argv d)) = 1)
  /\ (fst (run (main argv d)) = 0 ->
      exists prog dir,
        argv = [prog; dir]
        /\ path_exists d dir = true
        /\ summarisable (collected d (glob d (join dir "mythril-*.json")))
           = true).
Proof.
  destruct (Nat.eq_dec (length argv) 2) as [Hlen | Hlen].
  2:{ assert (Hrun : fst (run (main argv d)) = 1).
      { unfold run, main.
        destruct (Nat.eqb_spec (length argv) 2) as [E | _]; [contradiction | reflexivity]. }
      rewrite Hrun. split; [right; reflexivity | discriminate]. }
  destruct (two_arguments argv Hlen) as [prog [dir E]]. subst argv.
  destruct (path_exists d dir) eqn:Hex.
  2:{ assert (Hrun : fst (run (main [prog; dir] d)) = 1).
      { unfold run, main. cbn [length Nat.eqb negb nth]. rewrite Hex. reflexivity. }
      rewrite Hrun. split; [right; reflexivity | discriminate]. }
  rewrite (mythril_main_after_load prog dir d Hex).
  rewrite issues_in_collected.
  set (issues := collected d (glob d (join dir "mythril-*.json"))).
  destruct (forallb is_issue issues) eqn:Hissue.
  2:{ destruct (categorize_mythril_findings_raises _ Hissue) as [e He]. rewrite He.
      simpl. split; [right; reflexivity | discriminate]. }
  rewrite (categorize_mythril_findings_grouped issues Hissue).
  match goal with
  | |- context [generate_mythril_summary ?g dir ?w0] =>
      destruct (generate_mythril_summary g dir w0) as [o w1] eqn:Hgen
  end.
  destruct o as [[] | e | code].
  - simpl. split; [left; reflexivity |].
    intros _. exists prog, dir. split; [reflexivity |]. split; [exact Hex |].
    exact (generate_mythril_summary_done _ _ _ _ Hissue Hgen).
  - simpl. split; [right; reflexivity | discriminate].
  - exfalso. exact (generate_mythril_summary_no_exit _ _ _ _ _ Hgen code eq_refl).
Qed.

(** X12: a run that gets through prints, after the warnings of the loader,
    the sizes of the three groups and their total, which is their sum and
    the number of loaded issues, then one line that tells whether a High
    issue was found. *)
Theorem mythril_prints_counts (prog dir : string) (d : disk) :
  path_exists d dir = true ->
  let paths := glob d (join dir "mythril-*.json") in
  let issues := issues_in d paths in
  summarisable issues = true ->
  stdout (snd (run (main [prog; dir] d)))
  = (warnings d paths ++ mythril_lines issues)%list
  /\ len (filter (in_group "High") issues)
     + len (filter (in_group "Medium") issues)
     + len (filter (in_group "Low") issues) = len issues.
Proof.
  intros Hex paths issues Hsum. split.
  - rewrite (mythril_main_after_load prog dir d Hex). fold paths. fold issues.
    destruct (summarisable_groups _ Hsum) as [Hissue _].
    rewrite (categorize_mythril_findings_grouped issues Hissue).
    match goal with
    | |- context [generate_mythril_summary ?g dir ?w0] =>
        destruct (generate_mythril_summary_writes_both_aux issues dir w0 Hsum)
          as [w' [Hdone Hout]]
    end.
    unfold shape3. rewrite Hdone. cbn [snd stdout]. rewrite Hout. cbn [stdout].
    unfold mythril_lines.
    cbn [group_or_empty assoc String.eqb Ascii.eqb Bool.eqb].
    destruct (filter (in_group "High") issues); reflexivity.
  - unfold len.
    rewrite <- (Permutation_length (three_way_split _ _ _ issues one_group)).
    rewrite !length_app. lia.
Qed.

End MythrilMore.

(** ** The summary aggregator: loading and reporting *)

Section AggregatorLoad.
Import Summary Aggregator Frames More Os Samples.
Local Open Scope Z_scope.

Lemma count_issue_object (fields : list (string * json)) (h m l : Z) :
  count_issue (h, m, l) (JObj fields)
  = Ok (h + (if has_severity "High" (JObj fields) then 1 else 0),
        m + (if has_severity "Medium" (JObj fields) then 1 else 0),
        l + (if neither (JObj fields) then 1 else 0)).
Proof.
  unfold count_issue, neither, has_severity, field_or, dict_get.
  destruct (assoc "severity" fields) as [v |]; cbn [rbind].
  - destruct (is_str "High" v) eqn:Eh.
    + assert (Em : is_str "Medium" v = false).
      { destruct v; try discriminate Eh. simpl in *.
        apply String.eqb_eq in Eh. subst s. reflexivity. }
      rewrite Em. cbn [negb andb]. rewrite !Z.add_0_r. reflexivity.
    + destruct (is_str "Medium" v); cbn [negb andb]; rewrite !Z.add_0_r; reflexivity.
  - cbn. rewrite !Z.add_0_r. reflexivity.
Qed.

Lemma count_loop (items : list json) :
  forall h m l,
    forallb is_object items = true ->
    for_each count_issue items (h, m, l)
    = Ok (h + len (filter (has_severity "High") items),
          m + len (filter (has_severity "Medium") items),
          l + len (filter neither items)).
Proof.
  induction items as [| x rest IH]; intros h m l Hall.
  - simpl. unfold len. simpl. rewrite !Z.add_0_r. reflexivity.
  - simpl in Hall. apply andb_prop in Hall. destruct Hall as [Hx Hrest].
    destruct x as [| | | | | | fields]; try discriminate Hx.
    cbn [for_each]. rewrite count_issue_object. cbn [rbind].
    rewrite (IH _ _ _ Hrest). cbn [filter].
    destruct (has_severity "High" (JObj fields)),
      (has_severity "Medium" (JObj fields)), (neither (JObj fields));
      unfold len; cbn [length];
      (apply f_equal; apply f_equal2; [apply f_equal2 |]; lia).
Qed.

Lemma count_loop_ok (items : list json) :
  forall acc r, for_each count_issue items acc = Ok r -> forallb is_object items = true.
Proof.
  induction items as [| x rest IH]; intros acc r H; [reflexivity |].
  cbn [for_each] in H. apply rbind_ok in H. destruct H as [acc' [Hx Hrest]].
  cbn [forallb]. rewrite (IH _ _ Hrest), andb_true_r.
  destruct x; try reflexivity; discriminate Hx.
Qed.

Lemma three_counts (items : list json) :
  len (filter (has_severity "High") items)
  + len (filter (has_severity "Medium") items)
  + len (filter neither items) = len items.
Proof.
  unfold len. induction items as [| x rest IH]; [reflexivity |].
  cbn [filter]. unfold neither at 1.
  destruct (has_severity "High" x) eqn:Eh.
  - assert (Em : has_severity "Medium" x = false).
    { unfold has_severity in *. destruct (field_or "severity" "Low" x);
        try discriminate Eh. simpl in *. apply String.eqb_eq in Eh. subst s.
      reflexivity. }
    rewrite Em. cbn [negb andb length]. lia.
  - destruct (has_severity "Medium" x); cbn [negb andb length]; lia.
Qed.

Lemma load_slither_data_counts_aux (e : env) (d : disk) (dir : string)
  (w : world) (items : list json) :
  path_exists d (join dir "critical-issues.json") = true ->
  json_load d (join dir "critical-issues.json") = Some (JArr items) ->
  exists s,
    load_slither_data e d dir w = (Done s, w) /\ critical_issues s = len items.
Proof.
  intros Hex Hload. unfold load_slither_data. rewrite Hex.
  unfold load_json_file. rewrite Hload.
  destruct items as [| x rest]; eexists; split; reflexivity.
Qed.

(** X13: [load_slither_data] takes the number of critical issues from
    critical-issues.json: the length of the array it holds, and 0 when the
    file is absent or cannot be loaded (then with one warning printed). A
    file holding a number other than 0 makes it raise TypeError. *)
Theorem load_slither_data_critical_count (e : env) (d : disk) (dir : string)
  (w : world) :
  let critical_path := join dir "critical-issues.json" in
  (path_exists d critical_path = false ->
   exists s, load_slither_data e d dir w = (Done s, w) /\ critical_issues s = 0)
  /\ (path_exists d critical_path = true -> json_load d critical_path = None ->
      exists s,
        load_slither_data e d dir w
        = (Done s, {| files := files w;
                      stdout := (stdout w ++ [warning critical_path])%list |})
        /\ critical_issues s = 0)
  /\ (forall items,
        path_exists d critical_path = true ->
        json_load d critical_path = Some (JArr items) ->
        exists s,
          load_slither_data e d dir w = (Done s, w)
          /\ critical_issues s = len items)
  /\ (forall n,
        path_exists d critical_path = true ->
        json_load d critical_path = Some (JInt n) -> n <> 0 ->
        load_slither_data e d dir w = (Raised TypeError, w)).
Proof.
  intros critical_path. unfold load_slither_data. fold critical_path.
  repeat split.
  - intros Hex. rewrite Hex. eexists. split; reflexivity.
  - intros Hex Hload. rewrite Hex. unfold load_json_file. rewrite Hload.
    eexists. split; reflexivity.
  - intros items Hex Hload. rewrite Hex. unfold load_json_file. rewrite Hload.
    destruct items as [| x rest]; eexists; split; reflexivity.
  - intros n Hex Hload Hn. rewrite Hex. unfold load_json_file. rewrite Hload.
    unfold bind, ret, truth. apply Z.eqb_neq in Hn. rewrite Hn. reflexivity.
Qed.

Lemma load_mythril_data_counts_aux (e : env) (d : disk) (dir : string)
  (w : world) (items : list json) :
  path_exists d (join dir "mythril-summary.json") = true ->
  json_load d (join dir "mythril-summary.json") = Some (JArr items) ->
  forallb is_object items = true ->
  exists m,
    load_mythril_data e d dir w = (Done m, w)
    /\ high_severity m = len (filter (has_severity "High") items)
    /\ medium_severity m = len (filter (has_severity "Medium") items)
    /\ low_severity m = len (filter neither items)
    /\ mythril_total_issues m = len items
    /\ high_severity m + medium_severity m + low_severity m
       = mythril_total_issues m.
Proof.
  intros Hex Hload Hall. unfold load_mythril_data. rewrite Hex.
  unfold load_json_file. rewrite Hload.
  destruct items as [| x rest].
  - eexists. split; [reflexivity |]. repeat split.
  - unfold bind, ret, lift. cbn [truth truthy iter py_len].
    rewrite (count_loop (x :: rest) 0 0 0 Hall). rewrite !Z.add_0_l.
    eexists. split; [reflexivity |]. cbn [high_severity medium_severity
      low_severity mythril_total_issues].
    repeat split. apply three_counts.
Qed.

(** X14: from an array of objects in mythril-summary.json,
    [load_mythril_data] counts the records whose severity is High, those
    whose severity is Medium, and every other record as low; the three
    counts add up to the total, the length of the array. *)
Theorem load_mythril_data_counts (e : env) (d : disk) (dir : string)
  (w : world) (items : list json) :
  path_exists d (join dir "mythril-summary.json") = true ->
  json_load d (join dir "mythril-summary.json") = Some (JArr items) ->
  forallb is_object items = true ->
  exists m,
    load_mythril_data e d dir w = (Done m, w)
    /\ high_severity m = len (filter (has_severity "High") items)
    /\ medium_severity m = len (filter (has_severity "Medium") items)
    /\ low_severity m = len (filter neither items)
    /\ mythril_total_issues m = len items
    /\ high_severity m + medium_severity m + low_severity m
       = mythril_total_issues m.
Proof. exact (load_mythril_data_counts_aux e d dir w items). Qed.

End AggregatorLoad.

Ltac split_counts :=
  unfold Summary.calculate_security_score;
  repeat (match goal with
          | |- context [Z.gtb ?a ?b] =>
              let E := fresh "E" in
              destruct (Z.gtb a b) eqn:E;
              [ apply Z.gtb_lt in E
              | rewrite Z.gtb_ltb in E; apply Z.ltb_ge in E ]
          | |- context [Z.geb ?a ?b] =>
              let E := fresh "E" in
              destruct (Z.geb a b) eqn:E;
              [ apply Z.geb_le in E
              | rewrite Z.geb_leb in E; apply Z.leb_gt in E ]
          end;
          cbn [Summary.score Summary.status Summary.color Summary.issues]).

Section AggregatorScore.
Import Summary Aggregator Frames More Os Samples Tiers Severities.
Local Open Scope Z_scope.

Lemma status_of_score (s : slither_data) (m : mythril_data) :
  let r := calculate_security_score s m in
  status r
  = if score r >=? 95 then "EXCELLENT"
    else if score r >=? 85 then "GOOD"
    else if score r >=? 70 then "FAIR"
    else "NEEDS_ATTENTION".
Proof.
  intros r. subst r. split_counts; try reflexivity; lia.
Qed.

(** X15: the list of issues of [calculate_security_score] has one entry for
    each count that is positive; it is empty exactly when none is, and then
    the score is 100 and the status EXCELLENT. Nothing but the three counts
    has a part in the result. *)
Theorem issues_follow_the_deductions (s s' : slither_data) (m m' : mythril_data) :
  let r := calculate_security_score s m in
  (issues r = []
   <-> critical_issues s <= 0 /\ high_severity m <= 0 /\ medium_severity m <= 0)
  /\ (issues r = [] -> score r = 100 /\ status r = "EXCELLENT")
  /\ len (issues r)
     = (if critical_issues s >? 0 then 1 else 0)
       + (if high_severity m >? 0 then 1 else 0)
       + (if medium_severity m >? 0 then 1 else 0)
  /\ (critical_issues s' = critical_issues s ->
      high_severity m' = high_severity m ->
      medium_severity m' = medium_severity m ->
      calculate_security_score s' m' = r).
Proof.
  intros r. subst r. split; [| split; [| split]].
  - split_counts; split; intros H; try discriminate H; try reflexivity;
      try lia; try (repeat split; lia).
  - split_counts; intros H; try discriminate H; split; try reflexivity; lia.
  - split_counts; reflexivity.
  - intros Hc Hh Hm. unfold calculate_security_score. rewrite Hc, Hh, Hm.
    reflexivity.
Qed.

Lemma has_severity_record (g s : string) (x : json) :
  is_issue x = true -> has_severity s (record_of g x) = (g =? s)%string.
Proof.
  intros Hx. destruct x as [| | | | | | fields]; try discriminate Hx.
  destruct (summary_record_of_object g fields) as [record [Hr Hs]].
  unfold record_of. rewrite Hr. unfold has_severity, field_or.
  unfold severity_field in Hs. destruct record as [| | | | | | rf]; try discriminate Hs.
  destruct (assoc "severity" rf) as [[| | | | sv | |] |]; try discriminate Hs.
  inversion Hs; subst sv. reflexivity.
Qed.

Lemma is_object_record (g : string) (x : json) :
  is_issue x = true -> is_object (record_of g x) = true.
Proof.
  intros Hx. destruct x as [| | | | | | fields]; try discriminate Hx.
  destruct (summary_record_of_object g fields) as [record [Hr Hs]].
  unfold record_of. rewrite Hr. destruct record; try discriminate Hs. reflexivity.
Qed.

Lemma count_records (g s : string) (xs : list json) :
  forallb is_issue xs = true ->
  len (filter (has_severity s) (map (record_of g) xs))
  = if (g =? s)%string then len xs else 0.
Proof.
  intros Hall. unfold len. induction xs as [| x rest IH].
  - simpl. destruct (g =? s)%string; reflexivity.
  - simpl in Hall. apply andb_prop in Hall. destruct Hall as [Hx Hrest].
    cbn [map filter]. rewrite (has_severity_record _ _ _ Hx).
    specialize (IH Hrest). destruct (g =? s)%string; cbn [length]; lia.
Qed.

Lemma records_are_objects (issues : list json) :
  forallb is_issue issues = true -> forallb is_object (records_of issues) = true.
Proof.
  intros Hall. unfold records_of. rewrite !forallb_app.
  assert (H : forall g xs, forallb is_issue xs = true ->
                           forallb is_object (map (record_of g) xs) = true).
  { intros g xs Hxs. apply forallb_forall. intros r Hr.
    apply in_map_iff in Hr. destruct Hr as [x [E Hin]]. subst r.
    rewrite forallb_forall in Hxs. exact (is_object_record g x (Hxs x Hin)). }
  rewrite !H by (apply forallb_filter; exact Hall). reflexivity.
Qed.

Lemma count_records_of (s : string) (issues : list json) :
  forallb is_issue issues = true ->
  (s = "High" \/ s = "Medium") ->
  len (filter (has_severity s) (records_of issues))
  = len (filter (in_group s) issues).
Proof.
  intros Hall Hs. unfold records_of.
  rewrite !filter_app. unfold len. rewrite !length_app.
  pose proof (count_records "High" s _ (forallb_filter _ (in_group "High") _ Hall)) as H1.
  pose proof (count_records "Medium" s _ (forallb_filter _ (in_group "Medium") _ Hall)) as H2.
  pose proof (count_records "Low" s _ (forallb_filter _ (in_group "Low") _ Hall)) as H3.
  unfold len in H1, H2, H3.
  destruct Hs as [E | E]; subst s; cbn [String.eqb Ascii.eqb Bool.eqb] in H1, H2, H3; lia.
Qed.

(** X16: the aggregator reads back what the two processors write. From a
    critical-issues.json holding the high/high detectors and a
    mythril-summary.json holding the records of a list of issue records, it
    gets the number of high/high detectors and the sizes of the High and
    Medium groups, and the score is 100 less 25, 15 and 5 for each of them,
    not below 0. *)
Theorem score_of_the_pipeline (e : env) (d : disk) (slither_dir mythril_dir : string)
  (w : world) (detectors issues : list json) :
  path_exists d (join slither_dir "critical-issues.json") = true ->
  json_load d (join slither_dir "critical-issues.json")
  = Some (JArr (filter high_high detectors)) ->
  path_exists d (join mythril_dir "mythril-summary.json") = true ->
  json_load d (join mythril_dir "mythril-summary.json")
  = Some (JArr (records_of issues)) ->
  forallb is_issue issues = true ->
  exists s m,
    load_slither_data e d slither_dir w = (Done s, w)
    /\ load_mythril_data e d mythril_dir w = (Done m, w)
    /\ critical_issues s = len (filter high_high detectors)
    /\ high_severity m = len (filter (in_group "High") issues)
    /\ medium_severity m = len (filter (in_group "Medium") issues)
    /\ mythril_total_issues m = len issues
    /\ score (calculate_security_score s m)
       = Z.max 0 (100 - 25 * len (filter high_high detectors)
                      - 15 * len (filter (in_group "High") issues)
                      - 5 * len (filter (in_group "Medium") issues)).
Proof.
  intros Hex1 Hload1 Hex2 Hload2 Hall.
  destruct (load_slither_data_counts_aux e d slither_dir w _ Hex1 Hload1)
    as [s [Hs Hc]].
  destruct (load_mythril_data_counts_aux e d mythril_dir w _ Hex2 Hload2
              (records_are_objects _ Hall))
    as [m [Hm [Hh [Hmed [_ [Ht _]]]]]].
  exists s, m. rewrite Hs, Hm.
  rewrite (count_records_of "High" _ Hall) in Hh by auto.
  rewrite (count_records_of "Medium" _ Hall) in Hmed by auto.
  rewrite length_records_of in Ht.
  repeat split; try assumption.
  rewrite score_value, Hc, Hh, Hmed. unfold len. lia.
Qed.

End AggregatorScore.

Section AggregatorReport.
Import Summary Aggregator Frames More Os Samples.
Local Open Scope Z_scope.

Lemma starts_bind {B : Type} (path : string) (ps qs : list piece) (m : proc unit)
  (k : unit -> proc B) :
  appends path ps m -> starts path qs (k tt) -> starts path (ps ++ qs) (bind m k).
Proof.
  intros Hm Hk w c o w' Hc H.
  destruct (Hm w c Hc) as [w1 [Em [Hc1 _]]].
  unfold bind in H. rewrite Em in H.
  destruct (Hk _ _ _ _ Hc1 H) as [more Hmore].
  exists more. rewrite Hmore, <- !app_assoc. reflexivity.
Qed.

Lemma starts_of_extends {A : Type} (path : string) (p : proc A) :
  extends path p -> starts path [] p.
Proof. intros Hp w c o w' Hc H. exact (Hp _ _ _ _ H Hc). Qed.

Lemma write_numbered_runs (path : string) (items : list (list piece)) :
  forall i, runs (write_numbered path i items).
Proof.
  induction items as [| x rest IH]; intros i; simpl.
  - apply runs_ret.
  - apply runs_bind; [apply runs_write | intros _; apply IH].
Qed.

Lemma write_numbered_writes_only (path : string) (items : list (list piece)) :
  forall i, writes_only path (write_numbered path i items).
Proof.
  induction items as [| x rest IH]; intros i; simpl.
  - apply writes_only_ret.
  - apply writes_only_bind; [apply writes_only_write | intros _; apply IH].
Qed.

Lemma write_numbered_extends (path : string) (items : list (list piece)) :
  forall i, extends path (write_numbered path i items).
Proof.
  induction items as [| x rest IH]; intros i; simpl.
  - apply extends_ret.
  - apply extends_bind; [apply extends_write | intros _; apply IH].
Qed.

Ltac steps :=
  repeat match goal with
         | |- runs (bind _ _) => apply runs_bind; [| intro]
         | |- runs (if _ then _ else _) => apply runs_if
         | |- runs (write _ _) => apply runs_write
         | |- runs (open_w _) => apply runs_open_w
         | |- runs (ret _) => apply runs_ret
         | |- runs (write_numbered _ _ _) => apply write_numbered_runs
         | |- writes_only _ (bind _ _) => apply writes_only_bind; [| intro]
         | |- writes_only _ (if _ then _ else _) => apply writes_only_if
         | |- writes_only _ (write _ _) => apply writes_only_write
         | |- writes_only _ (open_w _) => apply writes_only_open_w
         | |- writes_only _ (lift _) => apply writes_only_lift
         | |- writes_only _ (ret _) => apply writes_only_ret
         | |- writes_only _ (write_numbered _ _ _) => apply write_numbered_writes_only
         | |- extends _ (bind _ _) => apply extends_bind; [| intro]
         | |- extends _ (if _ then _ else _) => apply extends_if
         | |- extends _ (write _ _) => apply extends_write
         | |- extends _ (ret _) => apply extends_ret
         | |- extends _ (write_numbered _ _ _) => apply write_numbered_extends
         end.

Lemma generate_security_summary_runs (e : env) (s : slither_data)
  (m : mythril_data) (path : string) :
  creatable e path = true ->
  runs (generate_security_summary e s m path).
Proof.
  intros Hc.
  unfold generate_security_summary, open_output, write_executive_summary,
    write_detailed_analysis, write_recommendations, write_fixed_text.
  rewrite Hc. steps.
Qed.

Lemma generate_security_summary_writes_only (e : env) (s : slither_data)
  (m : mythril_data) (path : string) :
  writes_only path (generate_security_summary e s m path).
Proof.
  unfold generate_security_summary, open_output, write_executive_summary,
    write_detailed_analysis, write_recommendations, write_fixed_text.
  steps.
Qed.

Lemma generate_security_summary_refused (e : env) (s : slither_data)
  (m : mythril_data) (path : string) (w : world) :
  creatable e path = false ->
  generate_security_summary e s m path w = (Raised OSError, w).
Proof.
  intros Hc. unfold generate_security_summary, open_output. rewrite Hc.
  reflexivity.
Qed.

Lemma executive_summary_written (path : string) (s : slither_data)
  (m : mythril_data) :
  appends path
    [Text ("## 📋 Executive Summary" ++ LF ++ LF);
     Text (paragraph (status (calculate_security_score s m)) ++ LF ++ LF)]
    (write_executive_summary path (calculate_security_score s m)).
Proof.
  unfold write_executive_summary. rewrite status_of_score.
  change [Text ("## 📋 Executive Summary" ++ LF ++ LF);
          Text (paragraph ?st ++ LF ++ LF)]
    with ([Text ("## 📋 Executive Summary" ++ LF ++ LF)]
          ++ [Text (paragraph st ++ LF ++ LF)])%list.
  apply appends_bind; [apply appends_write |].
  destruct (score (calculate_security_score s m) >=? 95);
    [apply appends_write |].
  destruct (score (calculate_security_score s m) >=? 85);
    [apply appends_write |].
  destruct (score (calculate_security_score s m) >=? 70); apply appends_write.
Qed.

Lemma report_header (e : env) (s : slither_data)
  (m : mythril_data) (path : string) (w : world) :
  creatable e path = true ->
  let r := calculate_security_score s m in
  exists w' rest,
    generate_security_summary e s m path w = (Done tt, w')
    /\ read_file path w'
       = Some ([Text ("# 🛡️ PayRox Go Beyond Security Analysis Report" ++ LF ++ LF);
                Text "**Generated**: "; Text (now e); Text LF;
                Text "**Security Score**: "; Int (score r); Text ("/100" ++ LF);
                Text "**Status**: "; Text (status r); Text (LF ++ LF);
                Text ("## 📋 Executive Summary" ++ LF ++ LF);
                Text (paragraph (status r) ++ LF ++ LF)] ++ rest)%list
    /\ stdout w' = stdout w
    /\ forall q, q <> path -> read_file q w' = read_file q w.
Proof.
  intros Hc r.
  destruct (generate_security_summary_runs e s m path Hc w) as [[] [w' Hrun]].
  destruct (generate_security_summary_writes_only e s m path _ _ _ Hrun)
    as [[Hout Hkeep] _].
  assert (Hstarts : exists rest,
    read_file path w'
    = Some ([] ++ ([Text ("# 🛡️ PayRox Go Beyond Security Analysis Report" ++ LF ++ LF)]
            ++ [Text "**Generated**: "; Text (now e); Text LF]
            ++ [Text "**Security Score**: "; Int (score r); Text ("/100" ++ LF)]
            ++ [Text "**Status**: "; Text (status r); Text (LF ++ LF)]
            ++ [Text ("## 📋 Executive Summary" ++ LF ++ LF);
                Text (paragraph (status r) ++ LF ++ LF)]
            ++ []) ++ rest)%list).
  { unfold generate_security_summary, open_output in Hrun. fold r in Hrun.
    rewrite Hc in Hrun.
    unfold bind at 1 in Hrun. unfold open_w at 1 in Hrun.
    match type of Hrun with
    | ?body ?w1 = _ =>
        assert (Hopen : read_file path w1 = Some [])
          by (unfold read_file; cbn [files]; apply assoc_set_file_same);
        refine ((_ : starts path _ body) _ _ _ _ Hopen Hrun)
    end.
    do 4 (apply starts_bind; [apply appends_write |]).
    apply starts_bind; [apply executive_summary_written |].
    apply starts_of_extends.
    unfold write_detailed_analysis, write_recommendations, write_fixed_text.
    steps. }
  destruct Hstarts as [rest Hfile].
  exists w', rest. split; [exact Hrun |]. split; [exact Hfile |].
  split; [exact Hout | exact Hkeep].
Qed.

(** X17: where the output path can be opened for writing,
    [generate_security_summary] returns, prints nothing and writes to that
    file only, and the report starts with the title, the time stamp, the
    score out of 100, the status, and the paragraph of the executive summary
    that belongs to that status. Where the path cannot be opened (its
    directory is missing, say) it raises the error of [open], and nothing
    is written or printed. *)
Theorem report_starts_with_score_and_status (e : env) (s : slither_data)
  (m : mythril_data) (path : string) (w : world) :
  let r := calculate_security_score s m in
  (creatable e path = true ->
   exists w' rest,
     generate_security_summary e s m path w = (Done tt, w')
     /\ read_file path w'
        = Some ([Text ("# 🛡️ PayRox Go Beyond Security Analysis Report" ++ LF ++ LF);
                  Text "**Generated**: "; Text (now e); Text LF;
                  Text "**Security Score**: "; Int (score r); Text ("/100" ++ LF);
                  Text "**Status**: "; Text (status r); Text (LF ++ LF);
                  Text ("## 📋 Executive Summary" ++ LF ++ LF);
                  Text (paragraph (status r) ++ LF ++ LF)] ++ rest)%list
     /\ stdout w' = stdout w
     /\ forall q, q <> path -> read_file q w' = read_file q w)
  /\ (creatable e path = false ->
      generate_security_summary e s m path w = (Raised OSError, w)).
Proof.
  intros r. split; intros Hc.
  - exact (report_header e s m path w Hc).
  - exact (generate_security_summary_refused e s m path w Hc).
Qed.

Lemma load_slither_data_outcome (e : env) (d : disk) (dir : string) (w : world) :
  (slither_loadable e d dir = true ->
   exists s w', load_slither_data e d dir w = (Done s, w') /\ files w' = files w)
  /\ (slither_loadable e d dir = false ->
      exists x w', load_slither_data e d dir w = (Raised x, w') /\ files w' = files w).
Proof.
  unfold slither_loadable, load_slither_data, load_json_file.
  destruct (path_exists d (join dir "critical-issues.json")); cbn [negb orb].
  2:{ split; [intros _; eexists _, _; split; reflexivity | discriminate]. }
  destruct (json_load d (join dir "critical-issues.json")) as [v |].
  2:{ split; [intros _; eexists _, _; split; reflexivity | discriminate]. }
  unfold bind, ret, lift.
  destruct (truth e v); cbn [negb orb].
  2:{ split; [intros _; eexists _, _; split; reflexivity | discriminate]. }
  destruct (py_len v) as [n | x].
  - split; [intros _; eexists _, _; split; reflexivity | discriminate].
  - split; [discriminate | intros _; eexists _, _; split; reflexivity].
Qed.

Lemma load_mythril_data_outcome (e : env) (d : disk) (dir : string) (w : world) :
  (mythril_loadable e d dir = true ->
   exists m w', load_mythril_data e d dir w = (Done m, w') /\ files w' = files w)
  /\ (mythril_loadable e d dir = false ->
      exists x w', load_mythril_data e d dir w = (Raised x, w') /\ files w' = files w).
Proof.
  unfold mythril_loadable, load_mythril_data, load_json_file.
  destruct (path_exists d (join dir "mythril-summary.json")); cbn [negb orb].
  2:{ split; [intros _; eexists _, _; split; reflexivity | discriminate]. }
  destruct (json_load d (join dir "mythril-summary.json")) as [v |].
  2:{ split; [intros _; eexists _, _; split; reflexivity | discriminate]. }
  unfold bind, ret, lift.
  destruct (truth e v); cbn [negb orb].
  2:{ split; [intros _; eexists _, _; split; reflexivity | discriminate]. }
  destruct (iter v) as [items | x] eqn:Hiter.
  2:{ split; [discriminate | intros _; eexists _, _; split; reflexivity]. }
  destruct (forallb is_object items) eqn:Hall.
  - rewrite (count_loop items 0 0 0 Hall).
    assert (Hlen : exists n, py_len v = Ok n).
    { destruct v; try discriminate Hiter; eexists; reflexivity. }
    destruct Hlen as [n Hlen]. rewrite Hlen.
    split; [intros _; eexists _, _; split; reflexivity | discriminate].
  - destruct (for_each count_issue items (0, 0, 0)) as [r | x] eqn:Hloop.
    + rewrite (count_loop_ok _ _ _ Hloop) in Hall. discriminate Hall.
    + split; [discriminate | intros _; eexists _, _; split; reflexivity].
Qed.

Lemma main_after_loading (e : env) (d : disk) (out : string)
  (s : slither_data) (m : mythril_data) (w : world) :
  creatable e out = true ->
  exists w1,
    generate_security_summary e s m out w = (Done tt, w1)
    /\ stdout w1 = stdout w
    /\ (generate_security_summary e s m out ;;
        let security_score := calculate_security_score s m in
        print [Text "Security Analysis Complete!"] ;;
        print [Text "Overall Security Score: "; Int (score security_score);
               Text "/100 ("; Text (status security_score); Text ")"] ;;
        if truthy (issues security_score) then
          print [Text "Issues requiring attention:"] ;;
          each (fun issue => print ([Text "  - "] ++ issue)%list)
               (issues security_score)
        else print [Text "No critical security issues detected!"])%proc w
       = (Done tt,
          {| files := files w1;
             stdout :=
               (stdout w
                ++ [[Text "Security Analysis Complete!"];
                    [Text "Overall Security Score: ";
                     Int (score (calculate_security_score s m));
                     Text "/100 (";
                     Text (status (calculate_security_score s m)); Text ")"]]
                ++ (if truthy (issues (calculate_security_score s m)) then
                      [Text "Issues requiring attention:"]
                      :: map (fun issue => ([Text "  - "] ++ issue)%list)
                             (issues (calculate_security_score s m))
                    else [[Text "No critical security issues detected!"]]))%list |}).
Proof.
  intros Hc.
  destruct (generate_security_summary_runs e s m out Hc w) as [[] [w1 Hrun]].
  destruct (generate_security_summary_writes_only e s m out _ _ _ Hrun)
    as [[Hout _] _].
  exists w1. split; [exact Hrun |]. split; [exact Hout |].
  unfold bind at 1. rewrite Hrun. unfold bind at 1 2. unfold print at 1 2.
  cbn [files stdout]. rewrite Hout.
  destruct (issues (calculate_security_score s m)) as [| x rest]; cbn [truthy].
  - unfold print. cbn [files stdout]. rewrite <- !app_assoc. reflexivity.
  - unfold bind, print at 1. cbn [files stdout].
    assert (Heach : forall (items : list (list piece)) w2,
               each (fun issue => print ([Text "  - "] ++ issue)%list) items w2
               = (Done tt,
                  {| files := files w2;
                     stdout := (stdout w2
                                ++ map (fun issue => ([Text "  - "] ++ issue)%list)
                                       items)%list |})).
    { induction items as [| y ys IH]; intros w2.
      - simpl. unfold ret. rewrite app_nil_r. destruct w2; reflexivity.
      - cbn [each map]. unfold bind, print at 1. rewrite IH. cbn [files stdout].
        rewrite <- app_assoc. reflexivity. }
    rewrite Heach. cbn [files stdout]. rewrite <- !app_assoc. reflexivity.
Qed.

Lemma aggregator_main_outcome (e : env) (d : disk)
  (slither_dir mythril_dir out : string) :
  exists st w,
    run (main e d slither_dir mythril_dir out) = (st, w)
    /\ (slither_loadable e d slither_dir && mythril_loadable e d mythril_dir
        && creatable e out = true
        /\ st = 0
        \/ slither_loadable e d slither_dir && mythril_loadable e d mythril_dir
           && creatable e out = false
           /\ st = 1 /\ files w = []).
Proof.
  unfold run, main. unfold bind at 1.
  destruct (load_slither_data_outcome e d slither_dir fresh) as [Hs1 Hs0].
  destruct (slither_loadable e d slither_dir); cbn [andb].
  2:{ destruct (Hs0 eq_refl) as [x [w' [Hload Hfiles]]]. rewrite Hload.
      eexists _, _. split; [reflexivity |]. right. repeat split. exact Hfiles. }
  destruct (Hs1 eq_refl) as [s [w1 [Hload1 Hfiles1]]]. rewrite Hload1.
  unfold bind at 1.
  destruct (load_mythril_data_outcome e d mythril_dir w1) as [Hm1 Hm0].
  destruct (mythril_loadable e d mythril_dir); cbn [andb].
  2:{ destruct (Hm0 eq_refl) as [x [w' [Hload Hfiles]]]. rewrite Hload.
      eexists _, _. split; [reflexivity |]. right. repeat split.
      cbn [snd]. rewrite Hfiles. exact Hfiles1. }
  destruct (Hm1 eq_refl) as [m [w2 [Hload2 Hfiles2]]]. rewrite Hload2.
  destruct (creatable e out) eqn:Hc.
  - destruct (main_after_loading e d out s m w2 Hc) as [w3 [_ [_ Hrest]]].
    cbv beta iota zeta in Hrest |- *.
    rewrite Hrest. eexists _, _. split; [reflexivity |]. left. split; reflexivity.
  - unfold bind at 1. rewrite (generate_security_summary_refused e s m out w2 Hc).
    eexists _, _. split; [reflexivity |]. right. repeat split.
    cbn [snd]. rewrite Hfiles2. exact Hfiles1.
Qed.

(** X18: the status of the aggregator, once its arguments are parsed, is 0
    or 1. It is 0 exactly when both loaders return (each artifact is
    absent, cannot be loaded, holds a value that is false, or holds what
    the loader can count) and the output path can be opened for writing;
    a run that ends with 1 has written no file. *)
Theorem aggregator_status_zero_iff (e : env) (d : disk)
  (slither_dir mythril_dir out : string) :
  let r := run (main e d slither_dir mythril_dir out) in
  (fst r = 0 \/ fst r = 1)
  /\ (fst r = 0
      <-> slither_loadable e d slither_dir = true
          /\ mythril_loadable e d mythril_dir = true
          /\ creatable e out = true)
  /\ (fst r = 1 -> files (snd r) = []).
Proof.
  intros r. subst r.
  destruct (aggregator_main_outcome e d slither_dir mythril_dir out)
    as [st [w [Hrun [[Hall Hst] | [Hall [Hst Hfiles]]]]]];
    rewrite Hrun; cbn [fst snd]; subst st.
  - apply andb_prop in Hall. destruct Hall as [Hboth Hc].
    apply andb_prop in Hboth.
    split; [left; reflexivity |]. split; [tauto | discriminate].
  - split; [right; reflexivity |]. split; [| intros _; exact Hfiles].
    split; [discriminate |]. intros [Hs [Hm Hc]]. rewrite Hs, Hm, Hc in Hall.
    discriminate Hall.
Qed.

(** X19: when neither critical-issues.json nor mythril-summary.json exists,
    the aggregator takes every count for 0. Where the output path can be
    opened for writing the run ends with status 0, and the report and the
    printed lines give the score 100 and the status EXCELLENT, with no issue
    requiring attention; where it cannot, the run ends with status 1 and has
    written and printed nothing. *)
Theorem missing_artifacts_score_100 (e : env) (d : disk)
  (slither_dir mythril_dir out : string) :
  path_exists d (join slither_dir "critical-issues.json") = false ->
  path_exists d (join mythril_dir "mythril-summary.json") = false ->
  let r := run (main e d slither_dir mythril_dir out) in
  (creatable e out = true ->
   fst r = 0
   /\ stdout (snd r)
      = [[Text "Security Analysis Complete!"];
         [Text "Overall Security Score: "; Int 100; Text "/100 (";
          Text "EXCELLENT"; Text ")"];
         [Text "No critical security issues detected!"]]
   /\ exists rest,
        read_file out (snd r)
        = Some ([Text ("# 🛡️ PayRox Go Beyond Security Analysis Report" ++ LF ++ LF);
                 Text "**Generated**: "; Text (now e); Text LF;
                 Text "**Security Score**: "; Int 100; Text ("/100" ++ LF);
                 Text "**Status**: "; Text "EXCELLENT"; Text (LF ++ LF);
                 Text ("## 📋 Executive Summary" ++ LF ++ LF);
                 Text (paragraph "EXCELLENT" ++ LF ++ LF)] ++ rest)%list)
  /\ (creatable e out = false ->
      fst r = 1 /\ stdout (snd r) = [] /\ files (snd r) = []).
Proof.
  intros Hs Hm r. subst r. split; intros Hc.
  - assert (Hrun : exists w rest,
      run (main e d slither_dir mythril_dir out) = (0, w)
      /\ stdout w
         = [[Text "Security Analysis Complete!"];
            [Text "Overall Security Score: "; Int 100; Text "/100 (";
             Text "EXCELLENT"; Text ")"];
            [Text "No critical security issues detected!"]]
      /\ read_file out w
         = Some ([Text ("# 🛡️ PayRox Go Beyond Security Analysis Report" ++ LF ++ LF);
                  Text "**Generated**: "; Text (now e); Text LF;
                  Text "**Security Score**: "; Int 100; Text ("/100" ++ LF);
                  Text "**Status**: "; Text "EXCELLENT"; Text (LF ++ LF);
                  Text ("## 📋 Executive Summary" ++ LF ++ LF);
                  Text (paragraph "EXCELLENT" ++ LF ++ LF)] ++ rest)%list).
    { unfold run, main. unfold bind at 1.
      unfold load_slither_data. rewrite Hs. unfold ret at 1.
      unfold bind at 1. unfold load_mythril_data. rewrite Hm. unfold ret at 1.
      match goal with
      | |- context [generate_security_summary e ?s ?m out] =>
          destruct (main_after_loading e d out s m fresh Hc) as [w1 [Hgen [_ Hrest]]];
          destruct (report_header e s m out fresh Hc) as [w1' [rest [Hgen' [Hfile _]]]];
          cbv beta iota zeta in Hrest |- *;
          rewrite Hrest
      end.
      rewrite Hgen in Hgen'. inversion Hgen'; subst w1'.
      eexists _, rest. split; [reflexivity |]. split; [reflexivity |].
      unfold read_file in *. cbn [files]. exact Hfile. }
    destruct Hrun as [w [rest [Hrun [Hout Hfile]]]]. rewrite Hrun. cbn [fst snd].
    split; [reflexivity |]. split; [exact Hout |]. exists rest. exact Hfile.
  - assert (Hrun : run (main e d slither_dir mythril_dir out) = (1, fresh)).
    { unfold run, main. unfold bind at 1.
      unfold load_slither_data. rewrite Hs. unfold ret at 1.
      unfold bind at 1. unfold load_mythril_data. rewrite Hm. unfold ret at 1.
      unfold bind at 1.
      rewrite (generate_security_summary_refused e _ _ out fresh Hc).
      reflexivity. }
    rewrite Hrun. split; [reflexivity | split; reflexivity].
Qed.

End AggregatorReport.

(** ** The further properties at sample inputs *)

Section MoreSampleRuns.
Import Samples Tiers Severities Frames More Os Summary.
Local Open Scope Z_scope.

Lemma categorize_findings_keeps_every_detector_witness :
  Slither.categorize_findings sample_report = Ok (tiered sample_detectors)
  /\ exists detectors c h m l i,
       detectors_of sample_report = Ok detectors
       /\ tiered sample_detectors
          = [("critical", c); ("high", h); ("medium", m); ("low", l);
             ("informational", i)]
       /\ Permutation (c ++ h ++ m ++ l ++ i) detectors
       /\ Slither.total_findings (tiered sample_detectors) = len detectors.
Proof.
  split; [reflexivity |].
  exact (categorize_findings_keeps_every_detector
           sample_report (tiered sample_detectors) eq_refl).
Defined.

Lemma summary_below_medium_witness :
  quiet_detectors <> []
  /\ forallb below_medium quiet_detectors = true
  /\ exists w',
       Slither.generate_summary_markdown (tiered quiet_detectors) "reports" fresh
       = (Done tt, w')
       /\ read_file (join "reports" "slither-summary.md") w'
          = Some (quiet_summary (len quiet_detectors)
                                (filter (in_tier Low) quiet_detectors)).
Proof.
  split; [discriminate |]. split; [reflexivity |].
  apply (summary_below_medium quiet_detectors "reports" fresh);
    [discriminate | reflexivity].
Defined.

Lemma unnamed_finding_stops_the_run_witness :
  forallb printable [JObj [("impact", JStr "High"); ("confidence", JStr "Medium")]]
  = false
  /\ fst (run (Slither.main ["process-slither.py"; "reports/slither-report.json"]
                            unnamed_disk)) = 1
  /\ read_file (join (dirname "reports/slither-report.json") "critical-issues.json")
               (snd (run (Slither.main
                            ["process-slither.py"; "reports/slither-report.json"]
                            unnamed_disk))) = None.
Proof.
  split; [reflexivity |].
  pose proof (unnamed_finding_stops_the_run
                "process-slither.py" "reports/slither-report.json" unnamed_disk
                [JObj [("impact", JStr "High"); ("confidence", JStr "Medium")]]
                eq_refl eq_refl eq_refl eq_refl) as [Hstatus [Hfile _]].
  split; [exact Hstatus | exact Hfile].
Defined.

Lemma artifacts_beside_the_report_witness :
  no_slash "slither-report.json" = true
  /\ ends_with_slash "reports" = false
  /\ read_file "reports/critical-issues.json"
               (snd (run (Slither.main
                            ["process-slither.py"; "reports/slither-report.json"]
                            sample_disk)))
     = Some [Dump (JArr (filter high_high sample_detectors))].
Proof.
  split; [reflexivity |]. split; [reflexivity |].
  exact (proj1 (artifacts_beside_the_report
                  "process-slither.py" "reports" "slither-report.json" sample_disk
                  sample_detectors eq_refl (or_intror eq_refl)
                  eq_refl eq_refl eq_refl eq_refl)).
Defined.

Lemma malformed_issue_stops_before_writing_witness :
  path_exists malformed_disk "reports" = true
  /\ forallb is_issue
       (issues_in malformed_disk (glob malformed_disk (join "reports" "mythril-*.json")))
     = false
  /\ fst (run (Mythril.main ["process-mythril.py"; "reports"] malformed_disk)) = 1
  /\ files (snd (run (Mythril.main ["process-mythril.py"; "reports"] malformed_disk)))
     = [].
Proof.
  split; [reflexivity |]. split; [reflexivity |].
  exact (malformed_issue_stops_before_writing
           "process-mythril.py" "reports" malformed_disk eq_refl eq_refl).
Defined.


Lemma mythril_prints_counts_witness :
  path_exists mythril_disk "reports" = true
  /\ summarisable
       (issues_in mythril_disk (glob mythril_disk (join "reports" "mythril-*.json")))
     = true
  /\ stdout (snd (run (Mythril.main ["process-mythril.py"; "reports"] mythril_disk)))
     = [warning "reports/mythril-b.json";
        [Text "Mythril analysis complete:"];
        [Text "  High: "; Int 1]; [Text "  Medium: "; Int 1];
        [Text "  Low: "; Int 2]; [Text "  Total: "; Int 4];
        [Text "⚠️ "; Int 1; Text " high-severity findings require manual review"]].
Proof.
  split; [reflexivity |]. split; [reflexivity |].
  exact (proj1 (mythril_prints_counts
                  "process-mythril.py" "reports" mythril_disk eq_refl eq_refl)).
Defined.

Lemma load_mythril_data_counts_witness :
  forallb is_object (records_of sample_issues) = true
  /\ exists m,
       Aggregator.load_mythril_data sample_env artifact_disk "reports" fresh
       = (Done m, fresh)
       /\ high_severity m = 1 /\ medium_severity m = 1 /\ low_severity m = 2.
Proof.
  split; [reflexivity |].
  destruct (load_mythril_data_counts sample_env artifact_disk "reports" fresh
              (records_of sample_issues) eq_refl eq_refl eq_refl)
    as [m [Hrun [Hh [Hm [Hl _]]]]].
  exists m. split; [exact Hrun |]. split; [exact Hh |]. split; [exact Hm | exact Hl].
Defined.

Lemma score_of_the_pipeline_witness :
  forallb is_issue sample_issues = true
  /\ exists s m,
       Aggregator.load_slither_data sample_env artifact_disk "reports" fresh
       = (Done s, fresh)
       /\ Aggregator.load_mythril_data sample_env artifact_disk "reports" fresh
          = (Done m, fresh)
       /\ score (calculate_security_score s m) = 30.
Proof.
  split; [reflexivity |].
  destruct (score_of_the_pipeline sample_env artifact_disk "reports" "reports" fresh
              sample_detectors sample_issues eq_refl eq_refl eq_refl eq_refl eq_refl)
    as [s [m [Hs [Hm [_ [_ [_ [_ Hscore]]]]]]]].
  exists s, m. split; [exact Hs |]. split; [exact Hm | exact Hscore].
Defined.

Lemma report_starts_with_score_and_status_witness :
  Aggregator.creatable sample_env "security-summary.md" = true
  /\ Aggregator.creatable sample_env "out/security-summary.md" = false
  /\ (exists w' rest,
        Aggregator.generate_security_summary
          sample_env (slither_counts 1) (mythril_counts 1 1)
          "security-summary.md" fresh = (Done tt, w')
        /\ read_file "security-summary.md" w'
           = Some ([Text ("# 🛡️ PayRox Go Beyond Security Analysis Report" ++ LF ++ LF);
                    Text "**Generated**: "; Text "2025-01-01 00:00:00 UTC"; Text LF;
                    Text "**Security Score**: "; Int 55; Text ("/100" ++ LF);
                    Text "**Status**: "; Text "NEEDS_ATTENTION"; Text (LF ++ LF);
                    Text ("## 📋 Executive Summary" ++ LF ++ LF);
                    Text (paragraph "NEEDS_ATTENTION" ++ LF ++ LF)] ++ rest)%list)
  /\ Aggregator.generate_security_summary
       sample_env (slither_counts 1) (mythril_counts 1 1)
       "out/security-summary.md" fresh = (Raised OSError, fresh).
Proof.
  split; [reflexivity |]. split; [reflexivity |].
  split.
  - destruct (proj1 (report_starts_with_score_and_status
                       sample_env (slither_counts 1) (mythril_counts 1 1)
                       "security-summary.md" fresh) eq_refl)
      as [w' [rest [Hrun [Hfile _]]]].
    exists w', rest. split; [exact Hrun | exact Hfile].
  - exact (proj2 (report_starts_with_score_and_status
                    sample_env (slither_counts 1) (mythril_counts 1 1)
                    "out/security-summary.md" fresh) eq_refl).
Defined.

Lemma missing_artifacts_score_100_witness :
  path_exists empty_disk (join "reports" "critical-issues.json") = false
  /\ path_exists empty_disk (join "reports" "mythril-summary.json") = false
  /\ Aggregator.creatable sample_env "security-summary.md" = true
  /\ Aggregator.creatable sample_env "out/security-summary.md" = false
  /\ fst (run (Aggregator.main sample_env empty_disk "reports" "reports"
                               "security-summary.md")) = 0
  /\ stdout (snd (run (Aggregator.main sample_env empty_disk "reports" "reports"
                                       "security-summary.md")))
     = [[Text "Security Analysis Complete!"];
        [Text "Overall Security Score: "; Int 100; Text "/100 (";
         Text "EXCELLENT"; Text ")"];
        [Text "No critical security issues detected!"]]
  /\ fst (run (Aggregator.main sample_env empty_disk "reports" "reports"
                               "out/security-summary.md")) = 1
  /\ files (snd (run (Aggregator.main sample_env empty_disk "reports" "reports"
                                      "out/security-summary.md"))) = [].
Proof.
  do 4 (split; [reflexivity |]).
  destruct (proj1 (missing_artifacts_score_100 sample_env empty_disk "reports"
                     "reports" "security-summary.md" eq_refl eq_refl) eq_refl)
    as [Hstatus [Hout _]].
  destruct (proj2 (missing_artifacts_score_100 sample_env empty_disk "reports"
                     "reports" "out/security-summary.md" eq_refl eq_refl) eq_refl)
    as [Hstatus' [_ Hfiles]].
  split; [exact Hstatus |]. split; [exact Hout |].
  split; [exact Hstatus' | exact Hfiles].
Defined.

End MoreSampleRuns.
